(** * ref-bot: referral attribution, statistics and the admin conversations

    A shallow embedding of [database.py] (the [Database] class over three
    SQLite tables) and of the handlers of [bot.py] that register users,
    check the channel subscription, page through the admin lists and drive
    the multi-step admin conversations, followed by the properties the
    specification states about them.

    Conventions of the embedding:
    - a Python [str] is a [string]; every character stands for the code
      point of the same number, so texts range over U+0000..U+00FF; a
      message text has at most 4096 characters, Telegram's limit, so the
      limit of 4300 digits of [int] is never met;
    - a Python [int] and an SQLite INTEGER are a [Z]; the values that the
      bot itself binds to statements (the account ids of updates, the
      offsets of its page buttons) are assumed to fit SQLite's 64-bit
      integers, as Telegram's do; an integer that an administrator types
      need not, and [text_handler] says what happens then;
    - a Python [float] and an SQLite REAL are a binary64 [spec_float]; a
      REAL column holds such a value that is no NaN, or NULL;
    - a TIMESTAMP written by [DEFAULT CURRENT_TIMESTAMP] is the number of
      seconds since the epoch (UTC); the text form [YYYY-MM-DD HH:MM:SS]
      that SQLite stores and compares is ordered the same way;
    - a table is the list of its rows in the order a full scan visits them;
    - [None], SQL NULL and a missing LEFT JOIN partner are [None]. *)

From Stdlib Require Import ZArith List String Ascii Bool Lia Permutation.
From Stdlib Require Import Sorted.
From Stdlib Require Import Floats.SpecFloat.

Import ListNotations.
Local Open Scope string_scope.
Local Open Scope Z_scope.

(** ** Python builtins used by the bot *)

Module Py.

(** [str.isspace] on one character (the Unicode White_Space code points
    below U+0100, plus the four separators U+001C..U+001F). *)
Definition isspace (c : ascii) : bool :=
  let n := nat_of_ascii c in
  ((9 <=? n) && (n <=? 13) || (28 <=? n) && (n <=? 32)
   || (n =? 133) || (n =? 160))%nat.

Definition is_empty (s : string) : bool :=
  match s with EmptyString => true | String _ _ => false end.

Fixpoint lstrip (s : string) : string :=
  match s with
  | String c r => if isspace c then lstrip r else s
  | EmptyString => EmptyString
  end.

Fixpoint rstrip (s : string) : string :=
  match s with
  | String c r =>
      let r' := rstrip r in
      if isspace c && is_empty r' then EmptyString else String c r'
  | EmptyString => EmptyString
  end.

(** [s.strip()] *)
Definition strip (s : string) : string := rstrip (lstrip s).

(** [s.split()]: the maximal runs of non-whitespace characters. *)
Fixpoint split_from (word : string) (s : string) : list string :=
  match s with
  | String c r =>
      if isspace c
      then (if is_empty word then split_from "" r
            else word :: split_from "" r)
      else split_from (word ++ String c "") r
  | EmptyString => if is_empty word then [] else [word]
  end.

Definition split (s : string) : list string := split_from "" s.

(** [s.startswith(p)] *)
Fixpoint startswith (s p : string) {struct p} : bool :=
  match p with
  | String a p' =>
      match s with
      | String b s' => Ascii.eqb a b && startswith s' p'
      | EmptyString => false
      end
  | EmptyString => true
  end.

(** [s.replace(old, new)] for a non-empty [old]: every occurrence of
    [old], found left to right without overlap, becomes [new].  [skip]
    counts the characters of the current occurrence still to drop. *)
Fixpoint replace_from (old new : string) (skip : nat) (s : string) : string :=
  match s with
  | String c r =>
      match skip with
      | S k => replace_from old new k r
      | O =>
          if startswith s old
          then new ++ replace_from old new (String.length old - 1) r
          else String c (replace_from old new 0 r)
      end
  | EmptyString => EmptyString
  end.

Definition replace (s old new : string) : string := replace_from old new 0 s.

(** [l[a:b]]: a negative index counts from the end, and both are cut to
    the length of the list. *)
Definition clamp (len i : Z) : Z :=
  if i <? 0 then Z.max (i + len) 0 else Z.min i len.

Definition slice {A} (l : list A) (a b : Z) : list A :=
  let len := Z.of_nat (List.length l) in
  let a' := clamp len a in
  let b' := clamp len b in
  firstn (Z.to_nat (b' - a')) (skipn (Z.to_nat a') l).

(** Truth value of an [Optional[str]]: [None] and [""] are false. *)
Definition truthy (o : option string) : bool :=
  match o with
  | Some s => negb (is_empty s)
  | None => false
  end.

(** *** Number literals *)

(** The blanks that [int] and [float] skip at both ends of a text: below
    U+007F the six characters of C's [isspace], above it the Unicode
    spaces.  The separators U+001C..U+001F, which [str.strip] removes, are
    not among them: [int] and [float] raise [ValueError] on them. *)
Definition is_number_space (c : ascii) : bool :=
  let n := nat_of_ascii c in
  ((9 <=? n) && (n <=? 13) || (n =? 32) || (n =? 133) || (n =? 160))%nat.

Fixpoint lskip (s : string) : string :=
  match s with
  | String c r => if is_number_space c then lskip r else s
  | EmptyString => EmptyString
  end.

Fixpoint rskip (s : string) : string :=
  match s with
  | String c r =>
      let r' := rskip r in
      if is_number_space c && is_empty r' then EmptyString else String c r'
  | EmptyString => EmptyString
  end.

Definition skip_spaces (s : string) : string := rskip (lskip s).

Definition digit_val (c : ascii) : option Z :=
  let n := nat_of_ascii c in
  if ((48 <=? n) && (n <=? 57))%nat then Some (Z.of_nat n - 48) else None.

Definition is_underscore (c : ascii) : bool := (nat_of_ascii c =? 95)%nat.

(** The rest of a [digitpart] (digits, single underscores only between
    digits) after its first digit: value so far, number of digits so far,
    and on return also what is left of the text. *)
Fixpoint digits_from (acc : Z) (n : Z) (s : string) : Z * Z * string :=
  match s with
  | String c r =>
      match digit_val c with
      | Some d => digits_from (10 * acc + d) (n + 1) r
      | None =>
          if is_underscore c
          then match r with
               | String c2 r2 =>
                   match digit_val c2 with
                   | Some d => digits_from (10 * acc + d) (n + 1) r2
                   | None => (acc, n, s)
                   end
               | EmptyString => (acc, n, s)
               end
          else (acc, n, s)
      end
  | EmptyString => (acc, n, EmptyString)
  end.

Definition digitpart (s : string) : option (Z * Z * string) :=
  match s with
  | String c r =>
      match digit_val c with
      | Some d => Some (digits_from d 1 r)
      | None => None
      end
  | EmptyString => None
  end.

(** An optional sign: [true] for a minus. *)
Definition sign (s : string) : bool * string :=
  match s with
  | String "-" r => (true, r)
  | String "+" r => (false, r)
  | _ => (false, s)
  end.

(** [int(s)] in base 10; [None] is [ValueError]. *)
Definition int (s : string) : option Z :=
  let '(neg, body) := sign (skip_spaces s) in
  match digitpart body with
  | Some (v, _, EmptyString) => Some (if neg then - v else v)
  | _ => None
  end.

(** *** [float]: binary64 *)

Definition prec : Z := 53.
Definition emax : Z := 1024.

(** The binary64 nearest (ties to even) to [m * 10 ^ e10], [m >= 0],
    with the sign [neg]; beyond the largest finite value it is an
    infinity, as [float] gives it. *)
Definition of_decimal (neg : bool) (m e10 : Z) : spec_float :=
  match m with
  | Zpos p =>
      if 0 <=? e10
      then binary_normalize prec emax
             ((if neg then Zneg p else Zpos p) * 10 ^ e10) 0 neg
      else
        let '(q, e, l) :=
          SFdiv_core_binary prec emax (Zpos p) 0 (10 ^ (- e10)) 0 in
        binary_round_aux prec emax neg q e l
  | _ => S754_zero neg
  end.

Definition lower (c : ascii) : ascii :=
  let n := nat_of_ascii c in
  if ((65 <=? n) && (n <=? 90))%nat then ascii_of_nat (n + 32) else c.

Fixpoint lowercase (s : string) : string :=
  match s with
  | String c r => String (lower c) (lowercase r)
  | EmptyString => EmptyString
  end.

(** [exponent: ("e" | "E") [sign] digitpart]; absent is 0. *)
Definition exponent (s : string) : option (Z * string) :=
  match s with
  | String c r =>
      if String.eqb (String (lower c) "") "e"
      then let '(neg, body) := sign r in
           match digitpart body with
           | Some (v, _, rest) => Some (if neg then - v else v, rest)
           | None => None
           end
      else Some (0, s)
  | EmptyString => Some (0, EmptyString)
  end.

(** [number: digitpart ["." [digitpart]] | "." digitpart]: the digits
    read as one integer, and how many of them stood after the point. *)
Definition number (s : string) : option (Z * Z * string) :=
  match digitpart s with
  | Some (i, _, String "." r) =>
      match digitpart r with
      | Some (f, n, rest) =>
          let '(v, _, _) := digits_from i 0 r in Some (v, n, rest)
      | None => Some (i, 0, r)
      end
  | Some (i, _, rest) => Some (i, 0, rest)
  | None =>
      match s with
      | String "." r =>
          match digitpart r with
          | Some (f, n, rest) => Some (f, n, rest)
          | None => None
          end
      | _ => None
      end
  end.

(** [float(s)]; [None] is [ValueError]. *)
Definition float (s : string) : option spec_float :=
  let '(neg, body) := sign (skip_spaces s) in
  let word := lowercase body in
  if String.eqb word "inf" || String.eqb word "infinity"
  then Some (S754_infinity neg)
  else if String.eqb word "nan" then Some S754_nan
  else
    match number body with
    | Some (m, frac, rest) =>
        match exponent rest with
        | Some (e, EmptyString) => Some (of_decimal neg m (e - frac))
        | _ => None
        end
    | None => None
    end.

(** [x <= 0] on a float; false on a NaN. *)
Definition le0 (x : spec_float) : bool := SFleb x (S754_zero false).

(** *** [str] of an [int], and splitting on a separator *)

Definition digit_char (d : Z) : ascii := ascii_of_nat (48 + Z.to_nat d).

(** The decimal digits of [n >= 0] in front of [acc]; [fuel] bounds the
    number of digits. *)
Fixpoint digits_fuel (fuel : nat) (n : Z) (acc : string) : string :=
  match fuel with
  | O => acc
  | S f =>
      let acc' := String (digit_char (n mod 10)) acc in
      if n / 10 =? 0 then acc' else digits_fuel f (n / 10) acc'
  end.

Definition digits_of (n : Z) : string :=
  digits_fuel (S (Z.to_nat (Z.log2 n))) n "".

(** [str(z)] *)
Definition str (z : Z) : string :=
  if z <? 0 then String "-" (digits_of (- z)) else digits_of z.

(** [s.split(sep)] for a separator of one character: the pieces between
    the separators, empty ones included. *)
Fixpoint split_on (sep : ascii) (s : string) : list string :=
  match s with
  | String c r =>
      if Ascii.eqb c sep then EmptyString :: split_on sep r
      else match split_on sep r with
           | piece :: pieces => String c piece :: pieces
           | [] => [String c EmptyString]
           end
  | EmptyString => [EmptyString]
  end.

End Py.

(** ** SQLite expressions used by the queries *)

Module Sql.

(** [x = ?] on a nullable TEXT column: false (NULL) on a NULL. *)
Definition text_eq (x : option string) (v : string) : bool :=
  match x with
  | Some s => String.eqb s v
  | None => false
  end.

(** One pattern character against one text character: LIKE ignores the
    case of the ASCII letters only. *)
Definition same_letter (c d : ascii) : bool :=
  Ascii.eqb (Py.lower c) (Py.lower d).

(** [s LIKE p] without an escape character. *)
Fixpoint like_pattern (p : string) (s : string) : bool :=
  match p with
  | EmptyString => Py.is_empty s
  | String "%" p' =>
      (fix any (t : string) : bool :=
         like_pattern p' t
         || match t with
            | String _ t' => any t'
            | EmptyString => false
            end) s
  | String "_" p' =>
      match s with
      | String _ s' => like_pattern p' s'
      | EmptyString => false
      end
  | String c p' =>
      match s with
      | String d s' => same_letter c d && like_pattern p' s'
      | EmptyString => false
      end
  end.

Definition like (x : option string) (p : string) : bool :=
  match x with
  | Some s => like_pattern p s
  | None => false
  end.

(** [LIMIT ? OFFSET ?]: a negative limit is no limit, a negative offset
    is no offset. *)
Definition limit_offset {A} (limit offset : Z) (rows : list A) : list A :=
  let rest := skipn (Z.to_nat offset) rows in
  if limit <? 0 then rest else firstn (Z.to_nat limit) rest.

(** [ORDER BY]: rows that compare equal keep their scan order here;
    SQLite leaves their order open, and no statement below depends on it. *)
Fixpoint place {A} (le : A -> A -> bool) (x : A) (rows : list A) : list A :=
  match rows with
  | [] => [x]
  | y :: rest => if le x y then x :: rows else y :: place le x rest
  end.

Definition order_by {A} (le : A -> A -> bool) (rows : list A) : list A :=
  fold_right (place le) [] rows.

(** NULL sorts before every text; texts compare byte by byte. *)
Definition text_compare (x y : option string) : comparison :=
  match x, y with
  | None, None => Eq
  | None, Some _ => Lt
  | Some _, None => Gt
  | Some a, Some b => String.compare a b
  end.

(** [date('now')]: the start of the current day. *)
Definition date_now (now : Z) : Z := now - now mod 86400.

(** [datetime('now', '-N days')] *)
Definition datetime_days_ago (now days : Z) : Z := now - days * 86400.

(** A Python [int] that [execute] can bind to a statement: SQLite's
    INTEGER has 64 bits, and on a larger value [execute] raises
    [OverflowError]. *)
Definition fits (n : Z) : bool := (- 2 ^ 63 <=? n) && (n <? 2 ^ 63).

(** A Python [float] bound to a statement and stored in a REAL column:
    SQLite stores a NaN as NULL, every other value as it is. *)
Definition bind_real (x : spec_float) : option spec_float :=
  match x with
  | S754_nan => None
  | _ => Some x
  end.

End Sql.

(** ** database.py *)

Module Database.

Record user_row := {
  u_user_id : Z;
  u_username : option string;
  u_first_name : option string;
  u_last_name : option string;
  u_is_subscribed : Z;
  u_partner_code : option string;
  u_registered_at : Z;
  u_ref_partner_code : option string
}.

Record partner_row := {
  p_partner_code : string;
  p_username : string;
  p_user_id : option Z;
  p_created_at : Z
}.

Record purchase_row := {
  pu_id : Z;
  pu_user_id : Z;
  pu_amount : option spec_float;
  pu_comment : string;
  pu_created_at : Z
}.

(** The three tables.  [users] is scanned by ascending [user_id] (its
    INTEGER PRIMARY KEY is the rowid); [partners] and [purchases] in
    insertion order.  [purchases_seq] is the AUTOINCREMENT counter. *)
Record database := {
  users : list user_row;
  partners : list partner_row;
  purchases : list purchase_row;
  purchases_seq : Z
}.

Definition init_db : database :=
  {| users := []; partners := []; purchases := []; purchases_seq := 0 |}.

Definition with_users (db : database) (l : list user_row) : database :=
  {| users := l; partners := partners db; purchases := purchases db;
     purchases_seq := purchases_seq db |}.

Definition with_partners (db : database) (l : list partner_row) : database :=
  {| users := users db; partners := l; purchases := purchases db;
     purchases_seq := purchases_seq db |}.

(** The dictionaries the lookups return. *)
Record user_dict := {
  ud_user_id : Z;
  ud_username : option string;
  ud_first_name : option string;
  ud_last_name : option string
}.

Definition user_dict_of (u : user_row) : user_dict :=
  {| ud_user_id := u_user_id u; ud_username := u_username u;
     ud_first_name := u_first_name u; ud_last_name := u_last_name u |}.

(** A selected user row with [p.username as partner_username]. *)
Definition user_listing : Type := user_row * option string.

(** A selected purchase with its buyer (LEFT JOIN users) and the buyer's
    partner (LEFT JOIN partners). *)
Definition purchase_listing : Type :=
  purchase_row * option user_row * option string.

Definition user_by_id (user_id : Z) (db : database) : option user_row :=
  List.find (fun u => u_user_id u =? user_id) (users db).

(** Insertion into the rowid order of [users]. *)
Fixpoint insert_user (r : user_row) (rows : list user_row) : list user_row :=
  match rows with
  | [] => [r]
  | x :: rest =>
      if u_user_id r <? u_user_id x then r :: rows
      else x :: insert_user r rest
  end.

Definition add_user (now : Z) (user_id : Z)
    (username first_name last_name ref_partner_code : option string)
    (db : database) : database :=
  match user_by_id user_id db with
  | None =>
      with_users db
        (insert_user
           {| u_user_id := user_id; u_username := username;
              u_first_name := first_name; u_last_name := last_name;
              u_is_subscribed := 0; u_partner_code := None;
              u_registered_at := now;
              u_ref_partner_code := ref_partner_code |}
           (users db))
  | Some _ => db
  end.

Definition set_subscribed (v : Z) (u : user_row) : user_row :=
  {| u_user_id := u_user_id u; u_username := u_username u;
     u_first_name := u_first_name u; u_last_name := u_last_name u;
     u_is_subscribed := v; u_partner_code := u_partner_code u;
     u_registered_at := u_registered_at u;
     u_ref_partner_code := u_ref_partner_code u |}.

Definition update_subscription (user_id : Z) (is_subscribed : bool)
    (db : database) : database :=
  with_users db
    (List.map
       (fun u =>
          if u_user_id u =? user_id
          then set_subscribed (if is_subscribed then 1 else 0) u
          else u)
       (users db)).

Definition is_subscribed (user_id : Z) (db : database) : bool :=
  match user_by_id user_id db with
  | Some u => u_is_subscribed u =? 1
  | None => false
  end.

Definition get_partner_by_code (partner_code : string) (db : database)
    : option partner_row :=
  List.find (fun p => String.eqb (p_partner_code p) partner_code)
    (partners db).

Definition get_partner_by_username (username : string) (db : database)
    : option partner_row :=
  List.find (fun p => String.eqb (p_username p) username) (partners db).

(** The INSERT fails with [IntegrityError] on a code already present. *)
Definition add_partner (now : Z) (partner_code username : string)
    (user_id : Z) (db : database) : database * bool :=
  match get_partner_by_code partner_code db with
  | Some _ => (db, false)
  | None =>
      (with_partners db
         (partners db ++
          [{| p_partner_code := partner_code; p_username := username;
              p_user_id := Some user_id; p_created_at := now |}]),
       true)
  end.

Definition remove_partner (username : string) (db : database)
    : database * bool :=
  match get_partner_by_username username db with
  | Some _ =>
      (with_partners db
         (List.filter (fun p => negb (String.eqb (p_username p) username))
            (partners db)),
       true)
  | None => (db, false)
  end.

Definition get_all_partners (db : database) : list partner_row :=
  partners db.

(** [LEFT JOIN partners p ON u.ref_partner_code = p.partner_code] *)
Definition partner_username (ref : option string) (db : database)
    : option string :=
  match ref with
  | Some code => option_map p_username (get_partner_by_code code db)
  | None => None
  end.

Definition list_user (db : database) (u : user_row) : user_listing :=
  (u, partner_username (u_ref_partner_code u) db).

Definition newest_first (x y : user_row) : bool :=
  u_registered_at y <=? u_registered_at x.

Definition get_all_users (limit offset : Z) (db : database)
    : list user_listing * Z :=
  let total := Z.of_nat (List.length (users db)) in
  (List.map (list_user db)
     (Sql.limit_offset limit offset
        (Sql.order_by newest_first (users db))),
   total).

Definition by_name_then_username (x y : user_row) : bool :=
  match Sql.text_compare (u_first_name x) (u_first_name y) with
  | Lt => true
  | Gt => false
  | Eq =>
      match Sql.text_compare (u_username x) (u_username y) with
      | Gt => false
      | _ => true
      end
  end.

Definition search_users (query : string) (db : database)
    : list user_listing :=
  let clean_query := Py.strip (Py.replace query "@" "") in
  match Py.int clean_query with
  | Some user_id =>
      List.map (list_user db)
        (List.filter (fun u => u_user_id u =? user_id) (users db))
  | None =>
      let pat := "%" ++ clean_query ++ "%" in
      List.map (list_user db)
        (Sql.order_by by_name_then_username
           (List.filter
              (fun u => Sql.like (u_username u) pat
                        || Sql.like (u_first_name u) pat
                        || Sql.like (u_last_name u) pat)
              (users db)))
  end.

Record stats := { today : Z; week : Z; month : Z; total : Z }.

Definition count_users (cond : user_row -> bool) (db : database) : Z :=
  Z.of_nat (List.length (List.filter cond (users db))).

(** The four COUNT statements; [t1], [t2], [t3] are the readings of the
    clock when the first three are evaluated. *)
Definition get_partner_stats_at (t1 t2 t3 : Z) (partner_code : string)
    (db : database) : stats :=
  let referred u := Sql.text_eq (u_ref_partner_code u) partner_code in
  {| today :=
       count_users
         (fun u => referred u && (Sql.date_now t1 <=? u_registered_at u)) db;
     week :=
       count_users
         (fun u => referred u
                   && (Sql.datetime_days_ago t2 7 <=? u_registered_at u)) db;
     month :=
       count_users
         (fun u => referred u
                   && (Sql.datetime_days_ago t3 30 <=? u_registered_at u)) db;
     total := count_users referred db |}.

(** The statistics when the call takes less than a tick of the clock. *)
Definition get_partner_stats (now : Z) (partner_code : string)
    (db : database) : stats :=
  get_partner_stats_at now now now partner_code db.

Definition get_user_partner_code (user_id : Z) (db : database)
    : option string :=
  option_map p_partner_code
    (List.find
       (fun p => match p_user_id p with
                 | Some i => i =? user_id
                 | None => false
                 end)
       (partners db)).

Definition get_user_by_username (username : string) (db : database)
    : option user_dict :=
  option_map user_dict_of
    (List.find (fun u => Sql.text_eq (u_username u) username) (users db)).

Definition unlinked (p : partner_row) : bool :=
  match p_user_id p with
  | Some i => i =? 0
  | None => true
  end.

Definition update_partner_user_id (username : string) (user_id : Z)
    (db : database) : database :=
  with_partners db
    (List.map
       (fun p =>
          if String.eqb (p_username p) username && unlinked p
          then {| p_partner_code := p_partner_code p;
                  p_username := p_username p;
                  p_user_id := Some user_id;
                  p_created_at := p_created_at p |}
          else p)
       (partners db)).

Definition add_purchase (now : Z) (user_id : Z) (amount : spec_float)
    (comment : string) (db : database) : database * bool :=
  let id := purchases_seq db + 1 in
  ({| users := users db; partners := partners db;
      purchases :=
        purchases db ++
        [{| pu_id := id; pu_user_id := user_id;
            pu_amount := Sql.bind_real amount;
            pu_comment := comment; pu_created_at := now |}];
      purchases_seq := id |},
   true).

Definition list_purchase (db : database) (p : purchase_row)
    : purchase_listing :=
  let buyer := user_by_id (pu_user_id p) db in
  (p, buyer,
   match buyer with
   | Some u => partner_username (u_ref_partner_code u) db
   | None => None
   end).

Definition latest_first (x y : purchase_row) : bool :=
  pu_created_at y <=? pu_created_at x.

Definition get_all_purchases (limit offset : Z) (db : database)
    : list purchase_listing * Z :=
  let total := Z.of_nat (List.length (purchases db)) in
  (List.map (list_purchase db)
     (Sql.limit_offset limit offset
        (Sql.order_by latest_first (purchases db))),
   total).

Definition get_user_by_id_or_username (query : string) (db : database)
    : option user_dict :=
  match Py.int query with
  | Some user_id => option_map user_dict_of (user_by_id user_id db)
  | None =>
      option_map user_dict_of
        (List.find
           (fun u => Sql.text_eq (u_username u) (Py.replace query "@" ""))
           (users db))
  end.

(** [search_users] and [get_user_by_id_or_username] bind [int(query)]
    inside a [try] that catches [ValueError] only: on an integer that
    SQLite cannot bind, the [OverflowError] of [execute] leaves the
    method.  The definitions above are the methods when it does not. *)
Definition search_users_overflows (query : string) : bool :=
  match Py.int (Py.strip (Py.replace query "@" "")) with
  | Some user_id => negb (Sql.fits user_id)
  | None => false
  end.

Definition get_user_by_id_or_username_overflows (query : string) : bool :=
  match Py.int query with
  | Some user_id => negb (Sql.fits user_id)
  | None => false
  end.

Definition referred_by (partner_code : string) (u : user_row) : bool :=
  Sql.text_eq (u_ref_partner_code u) partner_code.

Definition get_users_by_ref (partner_code : string) (limit offset : Z)
    (db : database) : list user_listing :=
  List.map (list_user db)
    (Sql.limit_offset limit offset
       (Sql.order_by newest_first
          (List.filter (referred_by partner_code) (users db)))).

(** [JOIN users u ON p.user_id = u.user_id WHERE u.ref_partner_code = ?]:
    a purchase with its buyer, when the buyer has a row and was referred
    by the code. *)
Definition purchase_of_ref (partner_code : string) (db : database)
    (p : purchase_row) : list (purchase_row * user_row) :=
  match user_by_id (pu_user_id p) db with
  | Some u => if referred_by partner_code u then [(p, u)] else []
  | None => []
  end.

Definition latest_sale_first (x y : purchase_row * user_row) : bool :=
  pu_created_at (fst y) <=? pu_created_at (fst x).

Definition get_purchases_by_ref (partner_code : string) (db : database)
    : list (purchase_row * user_row) :=
  Sql.order_by latest_sale_first
    (List.flat_map (purchase_of_ref partner_code db) (purchases db)).

End Database.


(** ** bot.py *)

Module Bot.

Import Database.

(** [config.ADMIN_IDS] *)
Record config := { ADMIN_IDS : list Z }.

(** The states of the three [StatesGroup]s. *)
Inductive State :=
| PartnerStates_waiting_username
| PartnerStates_waiting_delete_username
| UserSearchStates_waiting_query
| PurchaseStates_waiting_user_input
| PurchaseStates_waiting_amount
| PurchaseStates_waiting_comment.

(** The dictionary kept by the FSM context.  Only [purchase_user_input] and
    [purchase_amount_input] write it, under the keys [user_id], [username],
    [first_name] and [amount]; [None] is a key that is absent. *)
Record flow_data := {
  d_user_id : option Z;
  d_username : option (option string);
  d_first_name : option (option string);
  d_amount : option spec_float
}.

Definition no_data : flow_data :=
  {| d_user_id := None; d_username := None; d_first_name := None;
     d_amount := None |}.

Record FSMContext := { state : option State; data : flow_data }.

(** [state.clear()] *)
Definition clear (ctx : FSMContext) : FSMContext :=
  {| state := None; data := no_data |}.

(** [state.set_state(s)] *)
Definition set_state (s : State) (ctx : FSMContext) : FSMContext :=
  {| state := Some s; data := data ctx |}.

(** [state.update_data(user_id=.., username=.., first_name=..)] *)
Definition update_data_user (u : user_dict) (ctx : FSMContext) : FSMContext :=
  {| state := state ctx;
     data := {| d_user_id := Some (ud_user_id u);
                d_username := Some (ud_username u);
                d_first_name := Some (ud_first_name u);
                d_amount := d_amount (data ctx) |} |}.

(** [state.update_data(amount=..)] *)
Definition update_data_amount (a : spec_float) (ctx : FSMContext)
    : FSMContext :=
  {| state := state ctx;
     data := {| d_user_id := d_user_id (data ctx);
                d_username := d_username (data ctx);
                d_first_name := d_first_name (data ctx);
                d_amount := Some a |} |}.

(** An incoming text message. *)
Record Message := {
  from_user_id : Z;
  from_username : option string;
  from_first_name : option string;
  from_last_name : option string;
  text : string
}.

(** The records the handlers log at WARNING level and above. *)
Inductive log_record :=
| warn_bad_ref_code (ref_code : string)
| error_subscription_check
| warn_not_subscribed (user_id : Z)
| warn_unauthorized (s : State) (user_id : Z)
| warn_already_partner (username : string)
| error_add_partner (username : string)
| warn_partner_not_found (username : string)
| warn_user_not_found (user_input : string)
| warn_amount_not_positive
| warn_amount_format (text : string)
| error_add_purchase (user_id : Z).

Inductive level := WARNING | ERROR.

Definition level_of (r : log_record) : level :=
  match r with
  | error_subscription_check | error_add_partner _ | error_add_purchase _ =>
      ERROR
  | _ => WARNING
  end.

(** Inline buttons, by their callback data. *)
Inductive button :=
| users_page (page : Z)
| purchases_page (page : Z)
| users_search
| admin_menu
| admin_users
| purchase_add
| purchases_list
| admin_purchases
| subscribe_url
| check_subscription_button.

Definition keyboard : Type := list (list button).

(** What a handler sends back. *)
Inductive reply :=
| welcome (user_id : Z)
| subscribe_prompt (kb : keyboard)
| subscription_confirmed
| not_subscribed_alert
| access_denied
| already_partner
| partner_added (username : string) (user_id : Z) (partner_code : string)
| partner_add_failed
| partner_deleted (username : string)
| not_a_partner (username : string)
| search_empty (query : string) (kb : keyboard)
| search_results (query : string) (found : Z) (shown : list user_listing)
    (kb : keyboard)
| user_not_found
| user_found (u : user_dict)
| amount_not_positive
| amount_bad_format
| amount_accepted (amount : spec_float)
| purchase_added (user_id : Z) (amount : spec_float) (comment : string)
    (kb : keyboard)
| purchase_failed (kb : keyboard)
| no_users (kb : keyboard)
| users_list (total page : Z) (shown : list user_listing) (kb : keyboard)
| no_purchases (kb : keyboard)
| purchases_table (total page : Z) (shown : list purchase_listing)
    (kb : keyboard).

(** The effects of one handler call. *)
Record outcome := {
  o_db : database;
  o_replies : list reply;
  o_log : list log_record
}.

Definition is_admin (cfg : config) (user_id : Z) : bool :=
  existsb (Z.eqb user_id) (ADMIN_IDS cfg).

Definition active_statuses : list string :=
  ["member"; "administrator"; "creator"].

(** [get_chat_member] answers with the member's status, or fails ([None]). *)
Definition check_subscription (get_chat_member : Z -> option string)
    (user_id : Z) : bool * list log_record :=
  match get_chat_member user_id with
  | Some status => (existsb (String.eqb status) active_statuses, [])
  | None => (false, [error_subscription_check])
  end.

Definition get_subscription_keyboard : keyboard :=
  [[subscribe_url]; [check_subscription_button]].

(** Lines 102-114 of [cmd_start]: the referral code of the start argument,
    kept only when a partner has it. *)
Definition start_ref_code (text : string) (db : database)
    : option string * list log_record :=
  match Py.split text with
  | _ :: ref_arg :: _ =>
      if Py.startswith ref_arg "ref_"
      then
        let ref_code := Py.replace ref_arg "ref_" "" in
        match get_partner_by_code ref_code db with
        | None => (None, [warn_bad_ref_code ref_code])
        | Some _ => (Some ref_code, [])
        end
      else (None, [])
  | _ => (None, [])
  end.

(** Lines 95-118 of [cmd_start]: registration with first-touch
    attribution. *)
Definition start_registration (now : Z) (message : Message) (db : database)
    : database * list log_record :=
  let '(ref_code, log) := start_ref_code (text message) db in
  (add_user now (from_user_id message) (from_username message)
     (from_first_name message) (from_last_name message) ref_code db,
   log).

(** Lines 120-123 of [cmd_start]: the lazy link of a partner row to the
    account that carries its handle. *)
Definition start_link_partner (message : Message) (db : database)
    : database :=
  match from_username message with
  | Some username =>
      if Py.is_empty username then db
      else update_partner_user_id username (from_user_id message) db
  | None => db
  end.

Definition cmd_start (get_chat_member : Z -> option string) (now : Z)
    (message : Message) (db : database) : outcome :=
  let user_id := from_user_id message in
  let '(db1, log1) := start_registration now message db in
  let db2 := start_link_partner message db1 in
  let '(is_sub, log2) := check_subscription get_chat_member user_id in
  let db3 := update_subscription user_id is_sub db2 in
  {| o_db := db3;
     o_replies :=
       [if is_sub then welcome user_id
        else subscribe_prompt get_subscription_keyboard];
     o_log := log1 ++ log2 |}.

Definition check_subscription_callback
    (get_chat_member : Z -> option string) (user_id : Z) (db : database)
    : outcome :=
  let '(is_sub, log) := check_subscription get_chat_member user_id in
  let db1 := update_subscription user_id is_sub db in
  if is_sub
  then {| o_db := db1; o_replies := [subscription_confirmed]; o_log := log |}
  else {| o_db := db1; o_replies := [not_subscribed_alert];
          o_log := log ++ [warn_not_subscribed user_id] |}.

(** *** The admin conversations

    Every text handler takes the FSM context of the conversation and gives
    back the context it leaves. *)

(** The guard that opens every text handler, when it fires: a warning,
    the answer "no access", [state.clear()], and nothing else. *)
Definition denied (s : State) (message : Message) (db : database)
    (ctx : FSMContext) : FSMContext * outcome :=
  (clear ctx,
   {| o_db := db; o_replies := [access_denied];
      o_log := [warn_unauthorized s (from_user_id message)] |}).

(** [partner_code] is the code [generate_partner_code()] draws. *)
Definition partner_add_process (cfg : config) (now : Z)
    (partner_code : string) (message : Message) (db : database)
    (ctx : FSMContext) : FSMContext * outcome :=
  if negb (is_admin cfg (from_user_id message))
  then denied PartnerStates_waiting_username message db ctx
  else
    let username := Py.replace (Py.strip (text message)) "@" "" in
    match get_partner_by_username username db with
    | Some _ =>
        (clear ctx,
         {| o_db := db; o_replies := [already_partner];
            o_log := [warn_already_partner username] |})
    | None =>
        let user_id :=
          match get_user_by_username username db with
          | Some user => ud_user_id user
          | None => 0
          end in
        let '(db1, success) :=
          add_partner now partner_code username user_id db in
        (clear ctx,
         if success
         then {| o_db := db1;
                 o_replies := [partner_added username user_id partner_code];
                 o_log := [] |}
         else {| o_db := db1; o_replies := [partner_add_failed];
                 o_log := [error_add_partner username] |})
    end.

Definition partner_delete_process (cfg : config) (message : Message)
    (db : database) (ctx : FSMContext) : FSMContext * outcome :=
  if negb (is_admin cfg (from_user_id message))
  then denied PartnerStates_waiting_delete_username message db ctx
  else
    let username := Py.replace (Py.strip (text message)) "@" "" in
    let '(db1, success) := remove_partner username db in
    (clear ctx,
     if success
     then {| o_db := db1; o_replies := [partner_deleted username];
             o_log := [] |}
     else {| o_db := db1; o_replies := [not_a_partner username];
             o_log := [warn_partner_not_found username] |}).

Definition users_search_process (cfg : config) (message : Message)
    (db : database) (ctx : FSMContext) : FSMContext * outcome :=
  if negb (is_admin cfg (from_user_id message))
  then denied UserSearchStates_waiting_query message db ctx
  else
    let query := Py.strip (text message) in
    let found := search_users query db in
    let kb := [[users_search]; [admin_users]] in
    (clear ctx,
     {| o_db := db;
        o_replies :=
          [match found with
           | [] => search_empty query kb
           | _ =>
               search_results query (Z.of_nat (List.length found))
                 (firstn 15 found) kb
           end];
        o_log := [] |}).

Definition purchase_user_input (cfg : config) (message : Message)
    (db : database) (ctx : FSMContext) : FSMContext * outcome :=
  if negb (is_admin cfg (from_user_id message))
  then denied PurchaseStates_waiting_user_input message db ctx
  else
    let user_input := Py.strip (text message) in
    match get_user_by_id_or_username user_input db with
    | None =>
        (ctx,
         {| o_db := db; o_replies := [user_not_found];
            o_log := [warn_user_not_found user_input] |})
    | Some user =>
        (set_state PurchaseStates_waiting_amount (update_data_user user ctx),
         {| o_db := db; o_replies := [user_found user]; o_log := [] |})
    end.

Definition purchase_amount_input (cfg : config) (message : Message)
    (db : database) (ctx : FSMContext) : FSMContext * outcome :=
  if negb (is_admin cfg (from_user_id message))
  then denied PurchaseStates_waiting_amount message db ctx
  else
    match Py.float (Py.strip (text message)) with
    | Some amount =>
        if Py.le0 amount
        then
          (ctx,
           {| o_db := db; o_replies := [amount_not_positive];
              o_log := [warn_amount_not_positive] |})
        else
          (set_state PurchaseStates_waiting_comment
             (update_data_amount amount ctx),
           {| o_db := db; o_replies := [amount_accepted amount];
              o_log := [] |})
    | None =>
        (ctx,
         {| o_db := db; o_replies := [amount_bad_format];
            o_log := [warn_amount_format (text message)] |})
    end.

(** How a handler ends: it returns, or an exception that nothing in it
    catches leaves it.  [KeyError] is a key missing from the FSM data,
    [AttributeError] the [strip] of a [message.text] that is [None],
    [OverflowError] an integer that [execute] cannot bind. *)
Inductive result (A : Type) :=
| returned (a : A)
| KeyError (key : string)
| AttributeError
| OverflowError.

Arguments returned {A} a.
Arguments KeyError {A} key.
Arguments AttributeError {A}.
Arguments OverflowError {A}.

Definition purchase_comment_input (cfg : config) (now : Z)
    (message : Message) (db : database) (ctx : FSMContext)
    : result (FSMContext * outcome) :=
  if negb (is_admin cfg (from_user_id message))
  then returned (denied PurchaseStates_waiting_comment message db ctx)
  else
    let comment := Py.strip (text message) in
    let comment := if String.eqb comment "-" then "" else comment in
    match d_user_id (data ctx) with
    | None => KeyError "user_id"
    | Some user_id =>
    match d_username (data ctx) with
    | None => KeyError "username"
    | Some username =>
    match d_first_name (data ctx) with
    | None => KeyError "first_name"
    | Some first_name =>
    match d_amount (data ctx) with
    | None => KeyError "amount"
    | Some amount =>
        let '(db1, success) := add_purchase now user_id amount comment db in
        returned
          (clear ctx,
           if success
           then {| o_db := db1;
                   o_replies :=
                     [purchase_added user_id amount comment
                        [[purchase_add]; [purchases_list];
                         [admin_purchases]]];
                   o_log := [] |}
           else {| o_db := db1;
                   o_replies := [purchase_failed [[admin_purchases]]];
                   o_log := [error_add_purchase user_id] |})
    end end end end.

(** The handler registered for each state ([@dp.message(<state>)]), on a
    message with a text.  [users_search_process] and
    [purchase_user_input] are what these handlers do when their database
    call returns; behind the guard, on a typed integer that SQLite cannot
    bind, the call raises instead and the handler ends there. *)
Definition text_handler (s : State) (cfg : config) (now : Z)
    (partner_code : string) (message : Message) (db : database)
    (ctx : FSMContext) : result (FSMContext * outcome) :=
  match s with
  | PartnerStates_waiting_username =>
      returned (partner_add_process cfg now partner_code message db ctx)
  | PartnerStates_waiting_delete_username =>
      returned (partner_delete_process cfg message db ctx)
  | UserSearchStates_waiting_query =>
      if is_admin cfg (from_user_id message)
         && search_users_overflows (Py.strip (text message))
      then OverflowError
      else returned (users_search_process cfg message db ctx)
  | PurchaseStates_waiting_user_input =>
      if is_admin cfg (from_user_id message)
         && get_user_by_id_or_username_overflows (Py.strip (text message))
      then OverflowError
      else returned (purchase_user_input cfg message db ctx)
  | PurchaseStates_waiting_amount =>
      returned (purchase_amount_input cfg message db ctx)
  | PurchaseStates_waiting_comment =>
      purchase_comment_input cfg now message db ctx
  end.

(** The same handlers on a message without text (a photo, a sticker):
    the state filter takes it like any other, and [message.text] is
    [None].  The guard works as before; behind it every handler starts
    with [message.text.strip()], which raises. *)
Definition textless_handler (s : State) (cfg : config) (user_id : Z)
    (db : database) (ctx : FSMContext) : result (FSMContext * outcome) :=
  if negb (is_admin cfg user_id)
  then returned
         (clear ctx,
          {| o_db := db; o_replies := [access_denied];
             o_log := [warn_unauthorized s user_id] |})
  else AttributeError.

(** [purchase_add_start]: the button that opens the add-purchase flow. *)
Definition purchase_add_start (cfg : config) (user_id : Z)
    (ctx : FSMContext) : FSMContext * list reply :=
  if negb (is_admin cfg user_id) then (ctx, [access_denied])
  else (set_state PurchaseStates_waiting_user_input ctx, []).

(** *** The paginated lists *)

Definition nav_row (limit total page : Z) (mk : Z -> button) : keyboard :=
  if limit <? total
  then
    let nav_buttons : list button :=
      ((if 0 <? page then [mk (page - 1)] else [])
       ++ (if (page + 1) * limit <? total then [mk (page + 1)] else []))%list
    in
    match nav_buttons with
    | [] => []
    | _ => [nav_buttons]
    end
  else [].

Definition show_users_page (page : Z) (search_query : option string)
    (db : database) : reply :=
  let limit := 15 in
  let offset := page * limit in
  let '(users, total) :=
    if Py.truthy search_query
    then
      let found :=
        search_users (match search_query with Some q => q | None => "" end)
          db in
      (Py.slice found offset (offset + limit),
       Z.of_nat (List.length found))
    else get_all_users limit offset db in
  let kb : keyboard :=
    (nav_row limit total page users_page
     ++ [[users_search]; [admin_menu]])%list in
  match users with
  | [] => no_users kb
  | _ => users_list total page users kb
  end.

(** [page] is the number read from the callback data [users_page_<n>]. *)
Definition users_page_handler (cfg : config) (user_id : Z) (page : Z)
    (db : database) : reply :=
  if negb (is_admin cfg user_id) then access_denied
  else show_users_page page None db.

Definition show_purchases_page (cfg : config) (user_id : Z) (page : Z)
    (db : database) : reply :=
  if negb (is_admin cfg user_id) then access_denied
  else
    let limit := 10 in
    let offset := page * limit in
    let '(purchases, total) := get_all_purchases limit offset db in
    let kb : keyboard :=
      (nav_row limit total page purchases_page
       ++ [[purchase_add]; [admin_purchases]])%list in
    match purchases with
    | [] => no_purchases kb
    | _ => purchases_table total page purchases kb
    end.

(** What a list view shows: the keyboard under it. *)
Definition keyboard_of (r : reply) : keyboard :=
  match r with
  | subscribe_prompt kb | search_empty _ kb | search_results _ _ _ kb
  | purchase_added _ _ _ kb | purchase_failed kb | no_users kb
  | users_list _ _ _ kb | no_purchases kb | purchases_table _ _ _ kb => kb
  | _ => []
  end.

Definition button_eqb (a b : button) : bool :=
  match a, b with
  | users_page p, users_page q => p =? q
  | purchases_page p, purchases_page q => p =? q
  | users_search, users_search => true
  | admin_menu, admin_menu => true
  | admin_users, admin_users => true
  | purchase_add, purchase_add => true
  | purchases_list, purchases_list => true
  | admin_purchases, admin_purchases => true
  | subscribe_url, subscribe_url => true
  | check_subscription_button, check_subscription_button => true
  | _, _ => false
  end.

(** Is the button on the keyboard of the reply? *)
Definition offers (b : button) (r : reply) : bool :=
  existsb (existsb (button_eqb b)) (keyboard_of r).

(** The user rows a users view lists. *)
Definition shown_users (r : reply) : list user_listing :=
  match r with
  | users_list _ _ shown _ => shown
  | _ => []
  end.

Definition shown_purchases (r : reply) : list purchase_listing :=
  match r with
  | purchases_table _ _ shown _ => shown
  | _ => []
  end.

(** *** Commands and buttons outside the conversations

    A keyboard of these handlers is given by the callback data of its
    buttons. *)

Definition data_keyboard : Type := list (list string).

(** What the handlers of this part send back. *)
Inductive panel :=
| subscription_needed (kb : keyboard)
| you_are_not_a_partner
| cabinet (user_id : Z) (partner_code : string) (s : stats)
    (kb : data_keyboard)
| no_access_to_admin_panel
| admin_panel (user_id : Z) (kb : data_keyboard)
| no_access_alert
| partners_menu (kb : data_keyboard)
| partners_empty (kb : data_keyboard)
| partners_table (rows : list partner_row) (kb : data_keyboard)
| enter_partner_username
| enter_username_to_delete
| no_partners_for_analytics (kb : data_keyboard)
| choose_partner (kb : data_keyboard)
| partner_not_found_alert
| partner_analytics (partner : partner_row) (s : stats) (kb : data_keyboard)
| list_view (r : reply)
| enter_search_query
| purchases_menu (kb : data_keyboard)
| enter_buyer
| ref_analytics (partner_code : string) (s : stats) (kb : data_keyboard)
| no_referred_users (kb : data_keyboard)
| referred_users (users purchases : Z)
    (rows : list (user_listing * list (purchase_row * user_row)))
    (kb : data_keyboard)
| not_a_partner_alert
| subscription_checked (r : reply).

(** The callback data of the buttons of the list views; a URL button has
    none. *)
Definition callback_data (b : button) : option string :=
  match b with
  | users_page page => Some ("users_page_" ++ Py.str page)
  | purchases_page page => Some ("purchases_page_" ++ Py.str page)
  | users_search => Some "users_search"
  | admin_menu => Some "admin_menu"
  | admin_users => Some "admin_users"
  | purchase_add => Some "purchase_add"
  | purchases_list => Some "purchases_list"
  | admin_purchases => Some "admin_purchases"
  | subscribe_url => None
  | check_subscription_button => Some "check_subscription"
  end.

Definition cabinet_keyboard (partner_code : string) : data_keyboard :=
  [["ref_stats_" ++ partner_code]; ["ref_users_" ++ partner_code]].

Definition cmd_ref (now : Z) (message : Message) (db : database) : panel :=
  let user_id := from_user_id message in
  if negb (is_subscribed user_id db)
  then subscription_needed get_subscription_keyboard
  else
    let partner_code := get_user_partner_code user_id db in
    if negb (Py.truthy partner_code) then you_are_not_a_partner
    else
      let code := match partner_code with Some c => c | None => "" end in
      cabinet user_id code (get_partner_stats now code db)
        (cabinet_keyboard code).

Definition admin_keyboard : data_keyboard :=
  [["admin_partners"]; ["admin_users"]; ["admin_purchases"]].

Definition cmd_admin (cfg : config) (message : Message) : panel :=
  let user_id := from_user_id message in
  if negb (is_admin cfg user_id) then no_access_to_admin_panel
  else admin_panel user_id admin_keyboard.

Definition admin_partners_menu (cfg : config) (user_id : Z) : panel :=
  if negb (is_admin cfg user_id) then no_access_alert
  else
    partners_menu
      [["partners_list"]; ["partner_add"]; ["partner_delete"];
       ["partners_analytics"]; ["admin_menu"]].

Definition partners_list (cfg : config) (user_id : Z) (db : database)
    : panel :=
  if negb (is_admin cfg user_id) then no_access_alert
  else
    match get_all_partners db with
    | [] => partners_empty [["admin_partners"]]
    | rows => partners_table rows [["admin_partners"]]
    end.

Definition partner_add_start (cfg : config) (user_id : Z)
    (ctx : FSMContext) : FSMContext * panel :=
  if negb (is_admin cfg user_id) then (ctx, no_access_alert)
  else (set_state PartnerStates_waiting_username ctx,
        enter_partner_username).

Definition partner_delete_start (cfg : config) (user_id : Z)
    (ctx : FSMContext) : FSMContext * panel :=
  if negb (is_admin cfg user_id) then (ctx, no_access_alert)
  else (set_state PartnerStates_waiting_delete_username ctx,
        enter_username_to_delete).

Definition partners_analytics_menu (cfg : config) (user_id : Z)
    (db : database) : panel :=
  if negb (is_admin cfg user_id) then no_access_alert
  else
    match get_all_partners db with
    | [] => no_partners_for_analytics [["admin_partners"]]
    | rows =>
        let buttons :=
          List.map
            (fun p => [String.append "partner_stats_" (p_partner_code p)])
            rows in
        choose_partner (buttons ++ [["admin_partners"]])%list
    end.

Definition partner_stats_detail (cfg : config) (now : Z) (user_id : Z)
    (data : string) (db : database) : panel :=
  if negb (is_admin cfg user_id) then no_access_alert
  else
    let partner_code := Py.replace data "partner_stats_" "" in
    match get_partner_by_code partner_code db with
    | None => partner_not_found_alert
    | Some partner =>
        partner_analytics partner (get_partner_stats now partner_code db)
          [["partners_analytics"]]
    end.

Definition admin_users_menu (cfg : config) (user_id : Z) (db : database)
    : panel :=
  if negb (is_admin cfg user_id) then no_access_alert
  else list_view (show_users_page 0 None db).

(** The page handlers read the page out of the callback data; [None] is
    the [ValueError] of [int]. *)
Definition users_page_callback (cfg : config) (user_id : Z) (data : string)
    (db : database) : option panel :=
  if negb (is_admin cfg user_id) then Some no_access_alert
  else
    match Py.int (Py.replace data "users_page_" "") with
    | Some page => Some (list_view (show_users_page page None db))
    | None => None
    end.

Definition users_search_start (cfg : config) (user_id : Z)
    (ctx : FSMContext) : FSMContext * panel :=
  if negb (is_admin cfg user_id) then (ctx, no_access_alert)
  else (set_state UserSearchStates_waiting_query ctx, enter_search_query).

Definition admin_purchases_menu (cfg : config) (user_id : Z) : panel :=
  if negb (is_admin cfg user_id) then no_access_alert
  else
    purchases_menu [["purchases_list"]; ["purchase_add"]; ["admin_menu"]].

Definition admin_menu_back (cfg : config) (user_id : Z) : panel :=
  if negb (is_admin cfg user_id) then no_access_alert
  else admin_panel user_id admin_keyboard.

(** [show_purchases_page] answers a stranger with the alert itself. *)
Definition purchases_view (cfg : config) (user_id : Z) (page : Z)
    (db : database) : panel :=
  match show_purchases_page cfg user_id page db with
  | access_denied => no_access_alert
  | r => list_view r
  end.

Definition purchases_list_callback (cfg : config) (user_id : Z)
    (db : database) : panel :=
  if negb (is_admin cfg user_id) then no_access_alert
  else purchases_view cfg user_id 0 db.

Definition purchases_page_callback (cfg : config) (user_id : Z)
    (data : string) (db : database) : option panel :=
  if negb (is_admin cfg user_id) then Some no_access_alert
  else
    match Py.int (Py.replace data "purchases_page_" "") with
    | Some page => Some (purchases_view cfg user_id page db)
    | None => None
    end.

(** [purchase_add_start], with its answer as a panel. *)
Definition purchase_add_callback (cfg : config) (user_id : Z)
    (ctx : FSMContext) : FSMContext * panel :=
  let '(ctx', replies) := purchase_add_start cfg user_id ctx in
  (ctx',
   match replies with
   | [] => enter_buyer
   | _ => no_access_alert
   end).

Definition ref_stats_detail (now : Z) (data : string) (db : database)
    : panel :=
  let partner_code := Py.replace data "ref_stats_" "" in
  ref_analytics partner_code (get_partner_stats now partner_code db)
    [["ref_users_" ++ partner_code]; ["ref_menu"]].

Definition ref_users_list (data : string) (db : database) : panel :=
  let partner_code := Py.replace data "ref_users_" "" in
  let users := get_users_by_ref partner_code 50 0 db in
  let purchases := get_purchases_by_ref partner_code db in
  let kb := [["ref_stats_" ++ partner_code]; ["ref_menu"]] in
  match users with
  | [] => no_referred_users kb
  | _ =>
      referred_users (Z.of_nat (List.length users))
        (Z.of_nat (List.length purchases))
        (List.map
           (fun user =>
              (user,
               List.filter
                 (fun p => pu_user_id (fst p) =? u_user_id (fst user))
                 purchases))
           users)
        kb
  end.

Definition ref_menu_back (now : Z) (user_id : Z) (db : database) : panel :=
  let partner_code := get_user_partner_code user_id db in
  if negb (Py.truthy partner_code) then not_a_partner_alert
  else
    let code := match partner_code with Some c => c | None => "" end in
    cabinet user_id code (get_partner_stats now code db)
      (cabinet_keyboard code).

(** The callback-query handlers in the order they are registered; the
    first whose filter accepts the data runs.  The answer is the store,
    the conversation and the panel; [None] is data that no filter accepts
    or a [ValueError] in the handler. *)
Definition callback_query (cfg : config)
    (get_chat_member : Z -> option string) (now : Z) (user_id : Z)
    (data : string) (db : database) (ctx : FSMContext)
    : option (database * FSMContext * panel) :=
  let same ctx_panel := Some (db, fst ctx_panel, snd ctx_panel) in
  let show page := Some (db, ctx, page) in
  let shown page := option_map (fun p => (db, ctx, p)) page in
  if String.eqb data "check_subscription" then
    let o := check_subscription_callback get_chat_member user_id db in
    Some (o_db o, ctx,
          subscription_checked
            (match o_replies o with r :: _ => r | [] => access_denied end))
  else if String.eqb data "admin_partners" then
    show (admin_partners_menu cfg user_id)
  else if String.eqb data "partners_list" then
    show (partners_list cfg user_id db)
  else if String.eqb data "partner_add" then
    same (partner_add_start cfg user_id ctx)
  else if String.eqb data "partner_delete" then
    same (partner_delete_start cfg user_id ctx)
  else if String.eqb data "partners_analytics" then
    show (partners_analytics_menu cfg user_id db)
  else if Py.startswith data "partner_stats_" then
    show (partner_stats_detail cfg now user_id data db)
  else if String.eqb data "admin_users" then
    show (admin_users_menu cfg user_id db)
  else if Py.startswith data "users_page_" then
    shown (users_page_callback cfg user_id data db)
  else if String.eqb data "users_search" then
    same (users_search_start cfg user_id ctx)
  else if String.eqb data "admin_purchases" then
    show (admin_purchases_menu cfg user_id)
  else if String.eqb data "admin_menu" then
    show (admin_menu_back cfg user_id)
  else if String.eqb data "purchases_list" then
    show (purchases_list_callback cfg user_id db)
  else if Py.startswith data "purchases_page_" then
    shown (purchases_page_callback cfg user_id data db)
  else if String.eqb data "purchase_add" then
    same (purchase_add_callback cfg user_id ctx)
  else if Py.startswith data "ref_stats_" then
    show (ref_stats_detail now data db)
  else if Py.startswith data "ref_users_" then
    show (ref_users_list data db)
  else if String.eqb data "ref_menu" then
    show (ref_menu_back now user_id db)
  else None.

(** The data that only an administrator may send. *)
Definition admin_only (data : string) : bool :=
  existsb (String.eqb data)
    ["admin_partners"; "partners_list"; "partner_add"; "partner_delete";
     "partners_analytics"; "admin_users"; "users_search";
     "admin_purchases"; "admin_menu"; "purchases_list"; "purchase_add"]
  || Py.startswith data "partner_stats_"
  || Py.startswith data "users_page_"
  || Py.startswith data "purchases_page_".

(** *** config.py: [ADMIN_IDS] *)

(** [[int(id.strip()) for id in env.split(",") if id.strip()]]; [None] is
    the [ValueError] that stops the import. *)
Fixpoint int_pieces (pieces : list string) : option (list Z) :=
  match pieces with
  | [] => Some []
  | piece :: rest =>
      if Py.is_empty (Py.strip piece) then int_pieces rest
      else
        match Py.int (Py.strip piece) with
        | Some id =>
            match int_pieces rest with
            | Some ids => Some (id :: ids)
            | None => None
            end
        | None => None
        end
  end.

Definition load_admin_ids (env : string) : option (list Z) :=
  int_pieces (Py.split_on "," env).

End Bot.


(** * Vocabulary of the statements *)

Import Database Bot.

(** The conversation after [state.clear()]. *)
Definition idle : FSMContext := {| state := None; data := no_data |}.

(** The integer stored for a subscription verdict. *)
Definition flag (verdict : bool) : Z := if verdict then 1 else 0.

Fixpoint string_forall (p : ascii -> bool) (s : string) : bool :=
  match s with
  | String c r => p c && string_forall p r
  | EmptyString => true
  end.

Definition no_letter_r (c : ascii) : bool := negb (Ascii.eqb c "r").

Definition is_digit (c : ascii) : bool :=
  match Py.digit_val c with
  | Some _ => true
  | None => false
  end.

Definition digit_or_minus (c : ascii) : bool :=
  is_digit c || Ascii.eqb c "-".

(** [c] is not the character [x]. *)
Definition lacks (x c : ascii) : bool := negb (Ascii.eqb x c).

(** The alphabet of [generate_partner_code]:
    [string.ascii_uppercase + string.digits]. *)
Definition is_code_char (c : ascii) : bool :=
  let n := nat_of_ascii c in
  ((65 <=? n) && (n <=? 90) || (48 <=? n) && (n <=? 57))%nat.

(** 15.5 = 31 / 2, as a binary64. *)
Definition fifteen_and_a_half : spec_float :=
  S754_finite false 8725724278030336 (-49).

(** *** Small stores and messages for the examples *)

Definition partner_ABCDEFGH : partner_row :=
  {| p_partner_code := "ABCDEFGH"; p_username := "bob";
     p_user_id := Some 0; p_created_at := 100 |}.

Definition one_partner : database :=
  {| users := []; partners := [partner_ABCDEFGH]; purchases := [];
     purchases_seq := 0 |}.

Definition linked_partner : partner_row :=
  {| p_partner_code := "ABCDEFGH"; p_username := "bob";
     p_user_id := Some 7; p_created_at := 100 |}.

Definition one_linked_partner : database :=
  {| users := []; partners := [linked_partner]; purchases := [];
     purchases_seq := 0 |}.

Definition user_42 : user_row :=
  {| u_user_id := 42; u_username := None; u_first_name := Some "Bo";
     u_last_name := None; u_is_subscribed := 0; u_partner_code := None;
     u_registered_at := 150; u_ref_partner_code := None |}.

Definition one_user : database :=
  {| users := [user_42]; partners := [partner_ABCDEFGH]; purchases := [];
     purchases_seq := 0 |}.

Definition start_with_inner_ref : Message :=
  {| from_user_id := 7; from_username := Some "eve";
     from_first_name := Some "Eve"; from_last_name := None;
     text := "/start ref_ABCDref_EFGH" |}.

(** Account 42 was referred by the partner and bought once. *)
Definition referred_42 : user_row :=
  {| u_user_id := 42; u_username := Some "bo"; u_first_name := Some "Bo";
     u_last_name := None; u_is_subscribed := 1; u_partner_code := None;
     u_registered_at := 150; u_ref_partner_code := Some "ABCDEFGH" |}.

Definition sale_1 : purchase_row :=
  {| pu_id := 1; pu_user_id := 42; pu_amount := Some fifteen_and_a_half;
     pu_comment := "club"; pu_created_at := 300 |}.

Definition store_with_a_sale : database :=
  {| users := [referred_42]; partners := [partner_ABCDEFGH];
     purchases := [sale_1]; purchases_seq := 1 |}.

(** A later [/start] of account 42, now with a handle and a valid code. *)
Definition second_start_of_42 : Message :=
  {| from_user_id := 42; from_username := Some "bo";
     from_first_name := Some "Bob"; from_last_name := Some "B";
     text := "/start ref_ABCDEFGH" |}.

Definition admin_1 : config := {| ADMIN_IDS := [1] |}.

Definition from_admin_1 (t : string) : Message :=
  {| from_user_id := 1; from_username := Some "root";
     from_first_name := Some "Ann"; from_last_name := None; text := t |}.

Definition awaiting_amount : FSMContext :=
  {| state := Some PurchaseStates_waiting_amount;
     data := {| d_user_id := Some 42; d_username := Some None;
                d_first_name := Some (Some "Bo"); d_amount := None |} |}.

(** An oracle that knows account 42 as a former member. *)
Definition left_the_channel (user_id : Z) : option string :=
  if user_id =? 42 then Some "left" else None.


(** * The bot as a transition system

    The handlers take turns on one store and on one FSM context per
    account (the bot talks in private chats, where the storage key of a
    conversation is the account).  An event is an update that the
    dispatcher has already routed by its filters: a [/start], a message
    that no command filter takes, or a pressed button.  [/ref] and
    [/admin] only read the store and take no [FSMContext]; they are no
    events. *)

Inductive event :=
| start_command (get_chat_member : Z -> option string) (now : Z)
    (message : Message)
| text_message (now : Z) (partner_code : string) (message : Message)
| textless_message (user_id : Z)
| button_press (get_chat_member : Z -> option string) (now : Z)
    (user_id : Z) (data : string).

Record system := {
  store : database;
  conversations : Z -> FSMContext
}.

Definition set_conversation (user_id : Z) (ctx : FSMContext)
    (all : Z -> FSMContext) : Z -> FSMContext :=
  fun k => if k =? user_id then ctx else all k.

(** One update, handled to completion before the next.  A handler that
    raises leaves everything as it was; a message in a conversation that
    awaits nothing has no handler.  (Handlers of updates that arrive
    together can take turns at their [await]s; [written] below is the
    store under every such order.) *)
Definition step (cfg : config) (e : event) (s : system) : system :=
  match e with
  | start_command get_chat_member now message =>
      {| store := o_db (cmd_start get_chat_member now message (store s));
         conversations := conversations s |}
  | text_message now partner_code message =>
      let user_id := from_user_id message in
      let ctx := conversations s user_id in
      match state ctx with
      | Some awaited =>
          match text_handler awaited cfg now partner_code message (store s)
                  ctx with
          | returned (ctx', o) =>
              {| store := o_db o;
                 conversations :=
                   set_conversation user_id ctx' (conversations s) |}
          | _ => s
          end
      | None => s
      end
  | textless_message user_id =>
      let ctx := conversations s user_id in
      match state ctx with
      | Some awaited =>
          match textless_handler awaited cfg user_id (store s) ctx with
          | returned (ctx', o) =>
              {| store := o_db o;
                 conversations :=
                   set_conversation user_id ctx' (conversations s) |}
          | _ => s
          end
      | None => s
      end
  | button_press get_chat_member now user_id data =>
      match callback_query cfg get_chat_member now user_id data (store s)
              (conversations s user_id) with
      | Some (db, ctx, _) =>
          {| store := db;
             conversations :=
               set_conversation user_id ctx (conversations s) |}
      | None => s
      end
  end.

Definition run (cfg : config) (events : list event) (s : system) : system :=
  fold_left (fun s e => step cfg e s) events s.

(** The system after [init_db], before any update. *)
Definition boot : system :=
  {| store := init_db; conversations := fun _ => idle |}.

(** Account 42 starts the bot, administrator 1 opens the add-purchase
    flow and names buyer 42 and the amount 15.5. *)
Definition up_to_the_comment : list event :=
  [start_command (fun _ => Some "member") 100
     {| from_user_id := 42; from_username := None;
        from_first_name := Some "Bo"; from_last_name := None;
        text := "/start" |};
   button_press (fun _ => None) 200 1 "purchase_add";
   text_message 210 "ABCDEFGH" (from_admin_1 "42");
   text_message 220 "ABCDEFGH" (from_admin_1 "15.5")].

(** The same flow, ended by the comment "-". *)
Definition a_sale : list event :=
  (up_to_the_comment ++ [text_message 230 "ABCDEFGH" (from_admin_1 "-")])%list.

(** *** What holds of every system reached from [boot] *)

(** [0 < a], or [a] is a NaN. *)
Definition positive_or_nan (a : spec_float) : bool :=
  match a with
  | S754_nan => true
  | _ => SFltb (S754_zero false) a
  end.

(** The integer that an administrator typed where a handler reads one:
    the search query, cleaned of [@] and blanks, and the buyer of a
    purchase. *)
Definition typed_integer (awaited : State) (t : string) : option Z :=
  match awaited with
  | UserSearchStates_waiting_query =>
      Py.int (Py.strip (Py.replace (Py.strip t) "@" ""))
  | PurchaseStates_waiting_user_input => Py.int (Py.strip t)
  | _ => None
  end.

(** A stored amount: NULL, or a real greater than zero. *)
Definition null_or_positive (a : option spec_float) : bool :=
  match a with
  | None => true
  | Some x => SFltb (S754_zero false) x
  end.

Definition known_user (db : database) (user_id : Z) : Prop :=
  user_by_id user_id db <> None.

Definition numbered_from_one (db : database) : Prop :=
  List.map pu_id (purchases db)
  = List.map Z.of_nat (seq 1 (List.length (purchases db)))
  /\ purchases_seq db = Z.of_nat (List.length (purchases db)).

Definition store_ok (db : database) : Prop :=
  NoDup (List.map u_user_id (users db))
  /\ NoDup (List.map p_partner_code (partners db))
  /\ NoDup (List.map p_username (partners db))
  /\ numbered_from_one db
  /\ Forall
       (fun p =>
          known_user db (pu_user_id p)
          /\ null_or_positive (pu_amount p) = true)
       (purchases db).

Definition has_buyer (d : flow_data) : Prop :=
  d_user_id d <> None /\ d_username d <> None /\ d_first_name d <> None.

Definition conversation_ok (cfg : config) (db : database) (user_id : Z)
    (ctx : FSMContext) : Prop :=
  (forall buyer, d_user_id (data ctx) = Some buyer -> known_user db buyer)
  /\ (forall a, d_amount (data ctx) = Some a -> positive_or_nan a = true)
  /\ (state ctx = Some PurchaseStates_waiting_amount ->
      has_buyer (data ctx))
  /\ (state ctx = Some PurchaseStates_waiting_comment ->
      has_buyer (data ctx) /\ d_amount (data ctx) <> None)
  /\ (is_admin cfg user_id = false -> ctx = idle).

Definition system_ok (cfg : config) (s : system) : Prop :=
  store_ok (store s)
  /\ forall user_id,
       conversation_ok cfg (store s) user_id (conversations s user_id).

(** *** The writes

    Every change of the store is one call of a writing method of
    [Database], and every call is a transaction of its own.  A handler
    suspends at each [await]; the calls of handlers that run together
    reach the store in some order, with the arguments each handler
    computed from what it had read before. *)

Inductive write :=
| write_add_user (now user_id : Z)
    (username first_name last_name ref_partner_code : option string)
| write_update_subscription (user_id : Z) (is_subscribed : bool)
| write_add_partner (now : Z) (partner_code username : string) (user_id : Z)
| write_remove_partner (username : string)
| write_update_partner_user_id (username : string) (user_id : Z)
| write_add_purchase (now user_id : Z) (amount : spec_float)
    (comment : string).

Definition apply_write (w : write) (db : database) : database :=
  match w with
  | write_add_user now user_id username first_name last_name ref =>
      add_user now user_id username first_name last_name ref db
  | write_update_subscription user_id is_subscribed =>
      update_subscription user_id is_subscribed db
  | write_add_partner now partner_code username user_id =>
      fst (add_partner now partner_code username user_id db)
  | write_remove_partner username => fst (remove_partner username db)
  | write_update_partner_user_id username user_id =>
      update_partner_user_id username user_id db
  | write_add_purchase now user_id amount comment =>
      fst (add_purchase now user_id amount comment db)
  end.

(** The store after [init_db] and the calls [ws], in that order. *)
Definition written (ws : list write) : database :=
  fold_left (fun db w => apply_write w db) ws init_db.

(** Two additions of the handle bob whose checks both ran before either
    INSERT. *)
Definition two_adds_of_bob : list write :=
  [write_add_partner 100 "ABCDEFGH" "bob" 0;
   write_add_partner 101 "HGFEDCBA" "bob" 0].

(** Two versions of a user row that differ in the subscription flag at
    most. *)
Definition same_registration (u u' : user_row) : Prop :=
  u_user_id u' = u_user_id u
  /\ u_username u' = u_username u
  /\ u_first_name u' = u_first_name u
  /\ u_last_name u' = u_last_name u
  /\ u_partner_code u' = u_partner_code u
  /\ u_registered_at u' = u_registered_at u
  /\ u_ref_partner_code u' = u_ref_partner_code u.

(** Account 42 starts the bot, without a link. *)
Definition first_start_of_42 : list event :=
  [start_command (fun _ => None) 100
     {| from_user_id := 42; from_username := Some "bo";
        from_first_name := Some "Bo"; from_last_name := None;
        text := "/start" |}].

(** The same account later: another handle, a check of membership, a new
    [/start]. *)
Definition later_life_of_42 : list event :=
  [button_press (fun _ => Some "member") 500 42 "check_subscription";
   start_command (fun _ => Some "left") 900
     {| from_user_id := 42; from_username := Some "robert";
        from_first_name := Some "Robert"; from_last_name := Some "B";
        text := "/start ref_ABCDEFGH" |}].


(** * Properties *)


(** ** Registration and first-touch attribution *)

Section Registration.

Lemma find_insert_user (r : user_row) (rows : list user_row) :
  List.find (fun u => u_user_id u =? u_user_id r) rows = None ->
  List.find (fun u => u_user_id u =? u_user_id r) (insert_user r rows)
  = Some r.
Proof.
  induction rows as [| x rest IH]; simpl; intros Hnone.
  - now rewrite Z.eqb_refl.
  - destruct (u_user_id x =? u_user_id r) eqn:Hx; [discriminate |].
    destruct (u_user_id r <? u_user_id x); simpl.
    + now rewrite Z.eqb_refl.
    + rewrite Hx. now apply IH.
Qed.

Lemma add_user_existing now user_id username first_name last_name ref db u :
  user_by_id user_id db = Some u ->
  add_user now user_id username first_name last_name ref db = db.
Proof. unfold add_user. now intros ->. Qed.

(** A first contact stores exactly the row that [add_user] was given. *)
Lemma add_user_fresh now user_id username first_name last_name ref db :
  user_by_id user_id db = None ->
  user_by_id user_id
    (add_user now user_id username first_name last_name ref db)
  = Some {| u_user_id := user_id; u_username := username;
            u_first_name := first_name; u_last_name := last_name;
            u_is_subscribed := 0; u_partner_code := None;
            u_registered_at := now; u_ref_partner_code := ref |}.
Proof.
  intros Hnone. unfold add_user. rewrite Hnone.
  unfold user_by_id in *. simpl.
  now apply (find_insert_user
               {| u_user_id := user_id; u_username := username;
                  u_first_name := first_name; u_last_name := last_name;
                  u_is_subscribed := 0; u_partner_code := None;
                  u_registered_at := now; u_ref_partner_code := ref |}).
Qed.

Lemma add_user_registers now user_id username first_name last_name ref db :
  exists u,
    user_by_id user_id
      (add_user now user_id username first_name last_name ref db) = Some u.
Proof.
  destruct (user_by_id user_id db) as [u |] eqn:Hu.
  - exists u. now rewrite (add_user_existing _ _ _ _ _ _ _ _ Hu).
  - eexists. now apply add_user_fresh.
Qed.

Lemma add_user_partners now user_id username first_name last_name ref db :
  partners (add_user now user_id username first_name last_name ref db)
  = partners db.
Proof. unfold add_user. now destruct (user_by_id user_id db). Qed.

Lemma start_registration_known now message db u :
  user_by_id (from_user_id message) db = Some u ->
  fst (start_registration now message db) = db.
Proof.
  intros Hu. unfold start_registration.
  destruct (start_ref_code (text message) db) as [ref_code log]. simpl.
  now apply add_user_existing with u.
Qed.

(** C1. Once an account has a user row, the registration path of [/start]
    (lines 95-118 of [cmd_start], ending in [add_user]) changes nothing,
    whatever username, names or referral argument the later message
    carries: the whole store, and so every field of that row including
    [ref_partner_code], is what it was. *)
Theorem first_touch_is_permanent now message db u :
  user_by_id (from_user_id message) db = Some u ->
  fst (start_registration now message db) = db
  /\ user_by_id (from_user_id message)
       (fst (start_registration now message db)) = Some u.
Proof.
  intros Hu. rewrite (start_registration_known now message db u Hu).
  split; [reflexivity | exact Hu].
Qed.

Lemma first_touch_is_permanent_witness :
  user_by_id 42 one_user = Some user_42
  /\ fst (start_registration 900 second_start_of_42 one_user) = one_user
  /\ user_by_id 42 (fst (start_registration 900 second_start_of_42 one_user))
     = Some user_42.
Proof.
  split; [reflexivity |].
  apply (first_touch_is_permanent 900 second_start_of_42 one_user user_42).
  reflexivity.
Defined.

(** Two calls for the same account: the second one changes nothing. *)
Lemma registration_twice now1 now2 m1 m2 db :
  from_user_id m2 = from_user_id m1 ->
  fst (start_registration now2 m2 (fst (start_registration now1 m1 db)))
  = fst (start_registration now1 m1 db).
Proof.
  intros Hid.
  assert (Hex : exists u,
             user_by_id (from_user_id m2)
               (fst (start_registration now1 m1 db)) = Some u).
  { rewrite Hid. unfold start_registration.
    destruct (start_ref_code (text m1) db) as [ref_code log]. simpl.
    apply add_user_registers. }
  destruct Hex as [u Hu].
  now apply start_registration_known with u.
Qed.

(** The whole of [cmd_start] on a known account rewrites the subscription
    flag of its row and nothing else in the users table. *)
Lemma cmd_start_known_account oracle now message db u :
  user_by_id (from_user_id message) db = Some u ->
  users (o_db (cmd_start oracle now message db))
  = List.map
      (fun r =>
         if u_user_id r =? from_user_id message
         then set_subscribed
                (if fst (check_subscription oracle (from_user_id message))
                 then 1 else 0) r
         else r)
      (users db).
Proof.
  intros Hu. unfold cmd_start.
  pose proof (start_registration_known now message db u Hu) as Hdb.
  destruct (start_registration now message db) as [db1 log1].
  simpl in Hdb. subst db1.
  destruct (check_subscription oracle (from_user_id message))
    as [is_sub log2].
  simpl. unfold start_link_partner.
  destruct (from_username message) as [username |]; [| reflexivity].
  now destruct (Py.is_empty username).
Qed.

End Registration.

(** ** The referral token *)

Section ReferralToken.

(** The code that is looked up for the argument [ref_<code>] is [<code>]
    with every further [ref_] removed. *)
Lemma replace_ref_prefix (code : string) :
  Py.replace ("ref_" ++ code) "ref_" "" = Py.replace code "ref_" "".
Proof. reflexivity. Qed.

Lemma replace_ref_id (code : string) :
  string_forall no_letter_r code = true ->
  Py.replace code "ref_" "" = code.
Proof.
  unfold Py.replace.
  induction code as [| c rest IH]; intros Hall; [reflexivity |].
  cbn [string_forall] in Hall.
  apply andb_prop in Hall. destruct Hall as [Hc Hrest].
  unfold no_letter_r in Hc. apply negb_true_iff in Hc.
  rewrite Ascii.eqb_sym in Hc.
  cbn [Py.replace_from Py.startswith]. rewrite Hc. cbn [andb].
  now rewrite (IH Hrest).
Qed.

(** The attribution the specification describes, for a start argument
    [ref_<code>] whose code holds no letter [r] (the codes of partners are
    made of capitals and digits): an unknown code still registers the
    account, with no partner code, and is logged as a warning. *)
Lemma unknown_code_registers_unattributed now message db command code rest :
  Py.split (text message) = command :: ("ref_" ++ code) :: rest ->
  string_forall no_letter_r code = true ->
  get_partner_by_code code db = None ->
  user_by_id (from_user_id message) db = None ->
  user_by_id (from_user_id message) (fst (start_registration now message db))
  = Some {| u_user_id := from_user_id message;
            u_username := from_username message;
            u_first_name := from_first_name message;
            u_last_name := from_last_name message;
            u_is_subscribed := 0; u_partner_code := None;
            u_registered_at := now; u_ref_partner_code := None |}
  /\ snd (start_registration now message db) = [warn_bad_ref_code code].
Proof.
  intros Hsplit Hcode Hpartner Hnew.
  unfold start_registration, start_ref_code. rewrite Hsplit.
  change (Py.startswith ("ref_" ++ code) "ref_") with true. cbv iota.
  rewrite replace_ref_prefix, (replace_ref_id code Hcode), Hpartner.
  simpl. split; [now apply add_user_fresh | reflexivity].
Qed.

(** C2. The start argument [ref_ABCDref_EFGH] carries the code
    [ABCDref_EFGH], which no partner has; yet [cmd_start] looks up
    [ABCDEFGH], because [replace] removes every [ref_] and not the prefix
    only, and attributes the new account to that partner without any
    warning. *)
Theorem inner_ref_is_attributed :
  Py.split (text start_with_inner_ref) = ["/start"; "ref_" ++ "ABCDref_EFGH"]
  /\ get_partner_by_code "ABCDref_EFGH" one_partner = None
  /\ user_by_id 7 one_partner = None
  /\ option_map u_ref_partner_code
       (user_by_id 7
          (fst (start_registration 200 start_with_inner_ref one_partner)))
     = Some (Some "ABCDEFGH")
  /\ snd (start_registration 200 start_with_inner_ref one_partner) = [].
Proof. repeat split; reflexivity. Qed.

End ReferralToken.

(** ** Statistics *)

Section Statistics.

Lemma count_users_le (p q : user_row -> bool) (db : database) :
  (forall u, p u = true -> q u = true) ->
  count_users p db <= count_users q db.
Proof.
  intros Hpq. unfold count_users. apply inj_le.
  induction (users db) as [| u rest IH]; simpl; [lia |].
  destruct (p u) eqn:Hp.
  - rewrite (Hpq u Hp). simpl. lia.
  - destruct (q u); simpl; lia.
Qed.

Lemma count_users_nonneg (p : user_row -> bool) (db : database) :
  0 <= count_users p db.
Proof. unfold count_users. lia. Qed.

Lemma date_now_bounds (now : Z) :
  now - 86400 < Sql.date_now now <= now.
Proof.
  unfold Sql.date_now.
  pose proof (Z.mod_pos_bound now 86400 ltac:(lia)). lia.
Qed.

(** The windows stay nested while the four statements run, as long as the
    clock does not move back and the call does not take days. *)
Lemma stats_nested_at t1 t2 t3 partner_code db :
  t2 - t1 <= 6 * 86400 -> t3 - t2 <= 23 * 86400 ->
  let s := get_partner_stats_at t1 t2 t3 partner_code db in
  0 <= today s /\ today s <= week s /\ week s <= month s
  /\ month s <= total s.
Proof.
  intros H12 H23. simpl.
  pose proof (date_now_bounds t1) as Hday.
  unfold Sql.datetime_days_ago.
  repeat split.
  - apply count_users_nonneg.
  - apply count_users_le. intros u Hu.
    apply andb_prop in Hu. destruct Hu as [Href Hat].
    rewrite Href. simpl. apply Z.leb_le in Hat. apply Z.leb_le. lia.
  - apply count_users_le. intros u Hu.
    apply andb_prop in Hu. destruct Hu as [Href Hat].
    rewrite Href. simpl. apply Z.leb_le in Hat. apply Z.leb_le. lia.
  - apply count_users_le. intros u Hu.
    apply andb_prop in Hu. now destruct Hu as [Href _].
Qed.

(** C3. For every partner code, every store and every reading of the
    clock, the four counts of [get_partner_stats] are nested:
    today <= week <= month <= total. *)
Theorem stats_windows_nested now partner_code db :
  today (get_partner_stats now partner_code db)
  <= week (get_partner_stats now partner_code db)
  /\ week (get_partner_stats now partner_code db)
     <= month (get_partner_stats now partner_code db)
  /\ month (get_partner_stats now partner_code db)
     <= total (get_partner_stats now partner_code db).
Proof.
  unfold get_partner_stats.
  destruct (stats_nested_at now now now partner_code db) as (_ & H); [lia | lia |].
  exact H.
Qed.

End Statistics.

(** ** The admin conversations *)

Section Conversations.

(** C4. In each of the six conversation states, a text reply from an
    account that is not an administrator is answered with "access denied",
    leaves the conversation idle with no data, and leaves the store as it
    was: no partner is added or deleted and no purchase is inserted. *)
Theorem non_admin_reply_rejected s cfg now partner_code message db ctx :
  is_admin cfg (from_user_id message) = false ->
  text_handler s cfg now partner_code message db ctx
  = returned
      (idle,
       {| o_db := db; o_replies := [access_denied];
          o_log := [warn_unauthorized s (from_user_id message)] |}).
Proof.
  intros Hadmin.
  destruct s; unfold text_handler, partner_add_process,
    partner_delete_process, users_search_process, purchase_user_input,
    purchase_amount_input, purchase_comment_input;
    rewrite Hadmin; reflexivity.
Qed.

Lemma non_admin_reply_rejected_witness :
  is_admin {| ADMIN_IDS := [1] |} 2 = false
  /\ text_handler PartnerStates_waiting_delete_username
       {| ADMIN_IDS := [1] |} 300 "ABCDEFGH"
       {| from_user_id := 2; from_username := None;
          from_first_name := None; from_last_name := None; text := "bob" |}
       one_partner
       {| state := Some PartnerStates_waiting_delete_username;
          data := no_data |}
     = returned
         (idle,
          {| o_db := one_partner; o_replies := [access_denied];
             o_log :=
               [warn_unauthorized PartnerStates_waiting_delete_username 2] |}).
Proof.
  split; [reflexivity |].
  apply (non_admin_reply_rejected PartnerStates_waiting_delete_username
           {| ADMIN_IDS := [1] |} 300 "ABCDEFGH"
           {| from_user_id := 2; from_username := None;
              from_first_name := None; from_last_name := None;
              text := "bob" |}).
  reflexivity.
Defined.



(** A value that is positive on paper but rounds to zero is refused too. *)
Example amount_underflow_is_refused :
  snd (purchase_amount_input admin_1 (from_admin_1 "1e-400") one_partner
         awaiting_amount)
  = {| o_db := one_partner; o_replies := [amount_not_positive];
       o_log := [warn_amount_not_positive] |}.
Proof. vm_compute. reflexivity. Qed.

Lemma fifteen_and_a_half_exact :
  fifteen_and_a_half = binary_normalize Py.prec Py.emax 31 (-1) false.
Proof. vm_compute. reflexivity. Qed.

Lemma float_15_5 : Py.float (Py.strip "15.5") = Some fifteen_and_a_half.
Proof. vm_compute. reflexivity. Qed.

Lemma le0_15_5 : Py.le0 fifteen_and_a_half = false.
Proof. vm_compute. reflexivity. Qed.

(** C7. The add-purchase flow, run by an administrator with an identifier
    that resolves to a user, the amount "15.5" and the comment "-":
    the first two steps write nothing, the third appends exactly one
    purchase row for that user with amount 15.5 and an empty comment, and
    the conversation ends idle. *)
Theorem add_purchase_flow_commits_once
    cfg now admin username first_name last_name identifier user db ctx :
  let from_admin t :=
    {| from_user_id := admin; from_username := username;
       from_first_name := first_name; from_last_name := last_name;
       text := t |} in
  is_admin cfg admin = true ->
  get_user_by_id_or_username (Py.strip identifier) db = Some user ->
  let step1 := purchase_user_input cfg (from_admin identifier) db ctx in
  let step2 :=
    purchase_amount_input cfg (from_admin "15.5") (o_db (snd step1))
      (fst step1) in
  o_db (snd step1) = db
  /\ state (fst step1) = Some PurchaseStates_waiting_amount
  /\ o_db (snd step2) = db
  /\ state (fst step2) = Some PurchaseStates_waiting_comment
  /\ purchase_comment_input cfg now (from_admin "-") (o_db (snd step2))
       (fst step2)
     = returned
         (idle,
          {| o_db :=
               {| users := users db; partners := partners db;
                  purchases :=
                    purchases db ++
                    [{| pu_id := purchases_seq db + 1;
                        pu_user_id := ud_user_id user;
                        pu_amount := Some fifteen_and_a_half;
                        pu_comment := "";
                        pu_created_at := now |}];
                  purchases_seq := purchases_seq db + 1 |};
             o_replies :=
               [purchase_added (ud_user_id user) fifteen_and_a_half ""
                  [[purchase_add]; [purchases_list]; [admin_purchases]]];
             o_log := [] |}).
Proof.
  intros from_admin Hadmin Huser step1 step2.
  assert (H1 : step1
               = (set_state PurchaseStates_waiting_amount
                    (update_data_user user ctx),
                  {| o_db := db; o_replies := [user_found user];
                     o_log := [] |})).
  { unfold step1, purchase_user_input, from_admin.
    cbn [from_user_id text]. now rewrite Hadmin, Huser. }
  assert (H2 : step2
               = (set_state PurchaseStates_waiting_comment
                    (update_data_amount fifteen_and_a_half (fst step1)),
                  {| o_db := db;
                     o_replies := [amount_accepted fifteen_and_a_half];
                     o_log := [] |})).
  { unfold step2, purchase_amount_input, from_admin.
    cbn [from_user_id text]. rewrite Hadmin, float_15_5, le0_15_5.
    now rewrite H1. }
  rewrite H2, H1. cbn [fst snd o_db].
  repeat split.
  unfold purchase_comment_input, from_admin.
  cbn [from_user_id text]. rewrite Hadmin. reflexivity.
Qed.

Lemma add_purchase_flow_commits_once_witness :
  purchase_comment_input admin_1 300 (from_admin_1 "-") one_user
    {| state := Some PurchaseStates_waiting_comment;
       data := {| d_user_id := Some 42; d_username := Some None;
                  d_first_name := Some (Some "Bo");
                  d_amount := Some fifteen_and_a_half |} |}
  = returned
      (idle,
       {| o_db :=
            {| users := users one_user; partners := partners one_user;
               purchases :=
                 [{| pu_id := 1; pu_user_id := 42;
                     pu_amount := Some fifteen_and_a_half;
                     pu_comment := ""; pu_created_at := 300 |}];
               purchases_seq := 1 |};
          o_replies :=
            [purchase_added 42 fifteen_and_a_half ""
               [[purchase_add]; [purchases_list]; [admin_purchases]]];
          o_log := [] |}).
Proof.
  exact (proj2 (proj2 (proj2 (proj2
    (add_purchase_flow_commits_once admin_1 300 1 (Some "root") (Some "Ann")
       None "42"
       {| ud_user_id := 42; ud_username := None;
          ud_first_name := Some "Bo"; ud_last_name := None |}
       one_user
       {| state := Some PurchaseStates_waiting_user_input;
          data := no_data |}
       eq_refl eq_refl))))).
Defined.

End Conversations.

(** ** The paginated lists *)

Section Pagination.

Lemma on_keyboard_app (b : button) (rows rows' : keyboard) :
  existsb (existsb (button_eqb b)) (rows ++ rows')
  = existsb (existsb (button_eqb b)) rows
    || existsb (existsb (button_eqb b)) rows'.
Proof. apply existsb_app. Qed.

(** The previous-page button is on the navigation row exactly when there
    is more than one page of rows and the page is not the first. *)
Lemma nav_row_previous limit total page (mk : Z -> button) :
  (forall a b, button_eqb (mk a) (mk b) = (a =? b)) ->
  existsb (existsb (button_eqb (mk (page - 1)))) (nav_row limit total page mk)
  = (limit <? total) && (0 <? page).
Proof.
  intros Hmk. unfold nav_row.
  destruct (limit <? total); [| reflexivity].
  destruct (0 <? page), ((page + 1) * limit <? total); cbn;
    rewrite ?Hmk, ?Z.eqb_refl; try reflexivity.
  replace (page - 1 =? page + 1) with false; [reflexivity |].
  symmetry. apply Z.eqb_neq. lia.
Qed.

Lemma nav_row_next limit total page (mk : Z -> button) :
  (forall a b, button_eqb (mk a) (mk b) = (a =? b)) ->
  existsb (existsb (button_eqb (mk (page + 1)))) (nav_row limit total page mk)
  = (limit <? total) && ((page + 1) * limit <? total).
Proof.
  intros Hmk. unfold nav_row.
  destruct (limit <? total); [| reflexivity].
  destruct (0 <? page), ((page + 1) * limit <? total); cbn;
    rewrite ?Hmk, ?Z.eqb_refl, ?orb_true_r; try reflexivity.
  replace (page + 1 =? page - 1) with false; [reflexivity |].
  symmetry. apply Z.eqb_neq. lia.
Qed.

Lemma offers_users_page k page db :
  offers (users_page k) (show_users_page page None db)
  = existsb (existsb (button_eqb (users_page k)))
      (nav_row 15 (Z.of_nat (List.length (users db))) page users_page).
Proof.
  unfold offers, show_users_page, get_all_users. cbn [Py.truthy].
  match goal with
  | |- context [match ?l with [] => no_users ?kb | _ => _ end] =>
      assert (Hkb : forall r,
                r = match l with
                    | [] => no_users kb
                    | _ :: _ =>
                        users_list (Z.of_nat (List.length (users db))) page
                          l kb
                    end ->
                keyboard_of r = kb)
  end.
  { intros r ->.
    now destruct (List.map _ _). }
  rewrite (Hkb _ eq_refl), on_keyboard_app. cbn. apply orb_false_r.
Qed.

Lemma offers_purchases_page cfg user_id k page db :
  is_admin cfg user_id = true ->
  offers (purchases_page k) (show_purchases_page cfg user_id page db)
  = existsb (existsb (button_eqb (purchases_page k)))
      (nav_row 10 (Z.of_nat (List.length (purchases db))) page
         purchases_page).
Proof.
  intros Hadmin.
  unfold offers, show_purchases_page, get_all_purchases. rewrite Hadmin.
  cbn [negb].
  match goal with
  | |- context [match ?l with [] => no_purchases ?kb | _ => _ end] =>
      assert (Hkb : forall r,
                r = match l with
                    | [] => no_purchases kb
                    | _ :: _ =>
                        purchases_table
                          (Z.of_nat (List.length (purchases db))) page l kb
                    end ->
                keyboard_of r = kb)
  end.
  { intros r ->.
    now destruct (List.map _ _). }
  rewrite (Hkb _ eq_refl), on_keyboard_app. cbn. apply orb_false_r.
Qed.

Lemma shown_users_page page db :
  0 <= page ->
  shown_users (show_users_page page None db)
  = List.map (list_user db)
      (firstn 15
         (skipn (Z.to_nat (page * 15))
            (Sql.order_by newest_first (users db)))).
Proof.
  intros _. unfold show_users_page, get_all_users, Sql.limit_offset.
  cbn [Py.truthy]. change (15 <? 0) with false. cbv iota.
  change (Z.to_nat 15) with 15%nat.
  now destruct (List.map _ _).
Qed.

Lemma shown_purchases_page cfg user_id page db :
  is_admin cfg user_id = true ->
  shown_purchases (show_purchases_page cfg user_id page db)
  = List.map (list_purchase db)
      (firstn 10
         (skipn (Z.to_nat (page * 10))
            (Sql.order_by latest_first (purchases db)))).
Proof.
  intros Hadmin.
  unfold show_purchases_page, get_all_purchases, Sql.limit_offset.
  rewrite Hadmin. cbn [negb]. change (10 <? 0) with false. cbv iota.
  change (Z.to_nat 10) with 10%nat.
  now destruct (List.map _ _).
Qed.

(** C5, as the code has it.  For every page index [page >= 0], the users
    view (page size 15) and the purchases view (page size 10) list the
    rows from offset [page * size] on; the next-page button is offered iff
    [(page + 1) * size < total]; the previous-page button is offered iff
    [page > 0] and the rows fill more than one page ([size < total]). *)
Theorem page_controls cfg admin page db :
  0 <= page ->
  is_admin cfg admin = true ->
  let all_users := Z.of_nat (List.length (users db)) in
  let all_purchases := Z.of_nat (List.length (purchases db)) in
  let users_view := show_users_page page None db in
  let purchases_view := show_purchases_page cfg admin page db in
  (shown_users users_view
   = List.map (list_user db)
       (firstn 15
          (skipn (Z.to_nat (page * 15))
             (Sql.order_by newest_first (users db))))
   /\ (offers (users_page (page - 1)) users_view = true
       <-> 0 < page /\ 15 < all_users)
   /\ (offers (users_page (page + 1)) users_view = true
       <-> (page + 1) * 15 < all_users))
  /\
  (shown_purchases purchases_view
   = List.map (list_purchase db)
       (firstn 10
          (skipn (Z.to_nat (page * 10))
             (Sql.order_by latest_first (purchases db))))
   /\ (offers (purchases_page (page - 1)) purchases_view = true
       <-> 0 < page /\ 10 < all_purchases)
   /\ (offers (purchases_page (page + 1)) purchases_view = true
       <-> (page + 1) * 10 < all_purchases)).
Proof.
  intros Hpage Hadmin all_users all_purchases users_view purchases_view.
  unfold users_view, purchases_view.
  rewrite !offers_users_page, !(offers_purchases_page _ _ _ _ _ Hadmin).
  rewrite !nav_row_previous, !nav_row_next by reflexivity.
  fold all_users. fold all_purchases.
  rewrite !andb_true_iff, !Z.ltb_lt.
  repeat split;
    try (now apply shown_users_page);
    try (now apply shown_purchases_page);
    intros; lia.
Qed.

Lemma page_controls_witness :
  shown_users (show_users_page 0 None one_user)
  = [list_user one_user user_42]
  /\ (offers (users_page 1) (show_users_page 0 None one_user) = true
      <-> (0 + 1) * 15 < 1).
Proof.
  pose proof (page_controls admin_1 1 0 one_user ltac:(lia) eq_refl) as H.
  cbv zeta in H. destruct H as [(Hshown & _ & Hnext) _].
  split; [exact Hshown | exact Hnext].
Defined.

(** C5, as the specification has it, fails: on page 1 of a users table of
    one row, the page index is positive and no previous-page button is
    offered. *)
Lemma previous_page_needs_a_second_page :
  ~ (offers (users_page (1 - 1)) (show_users_page 1 None one_user) = true
     <-> 0 < 1).
Proof.
  intros [_ H]. specialize (H ltac:(lia)). vm_compute in H. discriminate H.
Qed.

(** On a page that holds rows ([page * 15 < total]) the guard on the
    number of pages is no restriction: the previous-page button is offered
    iff the page is not the first. *)
Lemma previous_page_on_a_page_with_rows page db :
  0 <= page ->
  page * 15 < Z.of_nat (List.length (users db)) ->
  offers (users_page (page - 1)) (show_users_page page None db) = true
  <-> 0 < page.
Proof.
  intros Hpage Hrows.
  rewrite offers_users_page, nav_row_previous by reflexivity.
  rewrite andb_true_iff, !Z.ltb_lt. lia.
Qed.

End Pagination.

(** ** The lazy link of a partner to its account *)

Section PartnerLink.

Lemma update_partner_user_id_nth username user_id db i :
  nth_error (partners (update_partner_user_id username user_id db)) i
  = option_map
      (fun p =>
         if String.eqb (p_username p) username && unlinked p
         then {| p_partner_code := p_partner_code p;
                 p_username := p_username p;
                 p_user_id := Some user_id;
                 p_created_at := p_created_at p |}
         else p)
      (nth_error (partners db) i).
Proof. unfold update_partner_user_id. cbn [partners with_partners]. apply nth_error_map. Qed.

Lemma linked_not_unlinked p v :
  p_user_id p = Some v -> v <> 0 -> unlinked p = false.
Proof.
  intros Hp Hv. unfold unlinked. rewrite Hp. now apply Z.eqb_neq.
Qed.

Lemma cmd_start_partners oracle now message db :
  partners (o_db (cmd_start oracle now message db))
  = partners (start_link_partner message db).
Proof.
  unfold cmd_start, start_registration.
  destruct (start_ref_code (text message) db) as [ref_code log1].
  destruct (check_subscription oracle (from_user_id message))
    as [is_sub log2].
  cbn [o_db update_subscription with_users partners].
  unfold start_link_partner.
  destruct (from_username message) as [username |];
    [| apply add_user_partners].
  destruct (Py.is_empty username); [apply add_user_partners |].
  unfold update_partner_user_id. cbn [partners with_partners].
  now rewrite add_user_partners.
Qed.

(** C8. A partner row whose linked account id is set and is not 0 is left
    as it is, at its place in the table, by [update_partner_user_id] for
    any handle and account, and so by every [/start]. *)
Theorem linked_partner_is_never_relinked db i p v :
  nth_error (partners db) i = Some p ->
  p_user_id p = Some v ->
  v <> 0 ->
  (forall username user_id,
     nth_error (partners (update_partner_user_id username user_id db)) i
     = Some p)
  /\ (forall oracle now message,
        nth_error (partners (o_db (cmd_start oracle now message db))) i
        = Some p).
Proof.
  intros Hnth Hp Hv.
  assert (Hupd : forall username user_id,
             nth_error
               (partners (update_partner_user_id username user_id db)) i
             = Some p).
  { intros username user_id.
    rewrite update_partner_user_id_nth, Hnth. cbn [option_map].
    rewrite (linked_not_unlinked p v Hp Hv).
    now rewrite andb_false_r. }
  split; [exact Hupd |].
  intros oracle now message. rewrite cmd_start_partners.
  unfold start_link_partner.
  destruct (from_username message) as [username |]; [| exact Hnth].
  destruct (Py.is_empty username); [exact Hnth | apply Hupd].
Qed.

Lemma linked_partner_is_never_relinked_witness :
  nth_error
    (partners (update_partner_user_id "bob" 9 one_linked_partner)) 0
  = Some linked_partner.
Proof.
  apply (linked_partner_is_never_relinked one_linked_partner 0%nat
           linked_partner 7 eq_refl eq_refl).
  discriminate.
Defined.

(** The link is written only over an id that is 0 or unset, on the rows of
    the handle. *)
Lemma relinked_was_unlinked username user_id db i p p' :
  nth_error (partners db) i = Some p ->
  nth_error (partners (update_partner_user_id username user_id db)) i
  = Some p' ->
  p' <> p ->
  p_username p = username /\ unlinked p = true
  /\ p_user_id p' = Some user_id.
Proof.
  intros Hnth Hnth' Hneq.
  rewrite update_partner_user_id_nth, Hnth in Hnth'. cbn in Hnth'.
  destruct (String.eqb (p_username p) username) eqn:Hname;
    destruct (unlinked p) eqn:Hun; cbn in Hnth';
    injection Hnth' as <-; try (now elim Hneq).
  apply String.eqb_eq in Hname. now repeat split.
Qed.

End PartnerLink.

(** ** The subscription gate *)

Section Subscription.

Lemma update_subscription_users user_id verdict db :
  users (update_subscription user_id verdict db)
  = List.map
      (fun u =>
         if u_user_id u =? user_id then set_subscribed (flag verdict) u
         else u)
      (users db).
Proof. reflexivity. Qed.

Lemma update_subscription_overwrites user_id verdict db u :
  In u (users (update_subscription user_id verdict db)) ->
  u_user_id u = user_id ->
  u_is_subscribed u = flag verdict.
Proof.
  rewrite update_subscription_users. intros Hin Hid.
  apply in_map_iff in Hin. destruct Hin as (u0 & Hu & _).
  destruct (u_user_id u0 =? user_id) eqn:Hid0.
  - now subst u.
  - subst u. apply Z.eqb_neq in Hid0. contradiction.
Qed.

Lemma check_subscription_callback_db oracle user_id db :
  o_db (check_subscription_callback oracle user_id db)
  = update_subscription user_id (fst (check_subscription oracle user_id)) db.
Proof.
  unfold check_subscription_callback.
  destruct (check_subscription oracle user_id) as [is_sub log].
  now destruct is_sub.
Qed.

Lemma cmd_start_db oracle now message db :
  o_db (cmd_start oracle now message db)
  = update_subscription (from_user_id message)
      (fst (check_subscription oracle (from_user_id message)))
      (start_link_partner message
         (fst (start_registration now message db))).
Proof.
  unfold cmd_start.
  destruct (start_registration now message db) as [db1 log1].
  now destruct (check_subscription oracle (from_user_id message)).
Qed.

Lemma start_link_partner_users message db :
  users (start_link_partner message db) = users db.
Proof.
  unfold start_link_partner.
  destruct (from_username message) as [username |]; [| reflexivity].
  now destruct (Py.is_empty username).
Qed.

Lemma find_by_id_map (f : user_row -> user_row) (k : Z) (l : list user_row) :
  (forall u, u_user_id (f u) = u_user_id u) ->
  List.find (fun u => u_user_id u =? k) (List.map f l)
  = option_map f (List.find (fun u => u_user_id u =? k) l).
Proof.
  intros Hid. induction l as [| u rest IH]; [reflexivity |].
  cbn [List.map List.find option_map]. rewrite Hid.
  now destruct (u_user_id u =? k).
Qed.

Lemma user_by_id_update_subscription user_id verdict k db :
  user_by_id k (update_subscription user_id verdict db)
  = option_map
      (fun u =>
         if u_user_id u =? user_id then set_subscribed (flag verdict) u
         else u)
      (user_by_id k db).
Proof.
  unfold user_by_id, update_subscription. cbn [users with_users].
  apply (find_by_id_map
           (fun u =>
              if u_user_id u =? user_id then set_subscribed (flag verdict) u
              else u)).
  intros u. now destruct (u_user_id u =? user_id).
Qed.

(** The row of the account stays and takes the verdict. *)
Lemma user_by_id_overwritten user_id verdict db u :
  user_by_id user_id db = Some u ->
  user_by_id user_id (update_subscription user_id verdict db)
  = Some (set_subscribed (flag verdict) u).
Proof.
  intros Hu. rewrite user_by_id_update_subscription, Hu. cbn [option_map].
  unfold user_by_id in Hu. apply find_some in Hu. destruct Hu as [_ Hid].
  now rewrite Hid.
Qed.

(** C9. [check_subscription] answers true exactly when the membership
    oracle answers with one of the statuses member, administrator and
    creator; any other status and a failure of the oracle give false.
    Both callers, the button and [/start], then store that verdict in the
    subscription flag of the account's row, whatever it held: the row
    stays, its flag becomes the verdict and its other fields are kept;
    the button touches the row of no other account and adds or removes
    none; after [/start] the account has a row, a new one included, and
    its flag is the verdict. *)
Theorem subscription_verdict_is_recorded oracle user_id db :
  let verdict := fst (check_subscription oracle user_id) in
  (verdict = true
   <-> exists status,
         oracle user_id = Some status
         /\ (status = "member" \/ status = "administrator"
             \/ status = "creator"))
  /\ (oracle user_id = None -> verdict = false)
  /\ (forall u,
        In u (users (o_db (check_subscription_callback oracle user_id db))) ->
        u_user_id u = user_id ->
        u_is_subscribed u = flag verdict)
  /\ (forall now message u,
        from_user_id message = user_id ->
        In u (users (o_db (cmd_start oracle now message db))) ->
        u_user_id u = user_id ->
        u_is_subscribed u = flag verdict)
  /\ (let db' := o_db (check_subscription_callback oracle user_id db) in
      (forall u,
         user_by_id user_id db = Some u ->
         user_by_id user_id db' = Some (set_subscribed (flag verdict) u))
      /\ (forall other,
            other <> user_id -> user_by_id other db' = user_by_id other db)
      /\ List.length (users db') = List.length (users db))
  /\ (forall now message,
        from_user_id message = user_id ->
        let db' := o_db (cmd_start oracle now message db) in
        (exists u',
           user_by_id user_id db' = Some u'
           /\ u_is_subscribed u' = flag verdict)
        /\ (forall u,
              user_by_id user_id db = Some u ->
              user_by_id user_id db'
              = Some (set_subscribed (flag verdict) u))).
Proof.
  intros verdict. unfold verdict.
  split; [split |]; [| | split; [| split; [| split; [| split]]]].
  - unfold check_subscription.
    destruct (oracle user_id) as [status |]; cbn [fst]; [| discriminate].
    intros Hactive. exists status. split; [reflexivity |].
    apply existsb_exists in Hactive. destruct Hactive as (s & Hin & Heq).
    apply String.eqb_eq in Heq. subst s.
    destruct Hin as [<- | [<- | [<- | []]]]; auto.
  - intros (status & Horacle & Hstatus).
    unfold check_subscription. rewrite Horacle. cbn [fst].
    apply existsb_exists. exists status.
    split; [| apply String.eqb_refl].
    destruct Hstatus as [-> | [-> | ->]]; cbn; auto.
  - intros Hnone. unfold check_subscription. now rewrite Hnone.
  - intros u. rewrite check_subscription_callback_db.
    apply update_subscription_overwrites.
  - intros now message u <-. rewrite cmd_start_db.
    apply update_subscription_overwrites.
  - cbn zeta. rewrite check_subscription_callback_db.
    split; [| split].
    + intros u Hu. now apply user_by_id_overwritten.
    + intros other Hother. rewrite user_by_id_update_subscription.
      destruct (user_by_id other db) as [u |] eqn:Hu; [| reflexivity].
      unfold user_by_id in Hu. apply find_some in Hu.
      destruct Hu as [_ Hid]. apply Z.eqb_eq in Hid.
      cbn [option_map]. rewrite Hid.
      apply Z.eqb_neq in Hother. now rewrite Hother.
    + rewrite update_subscription_users. apply length_map.
  - intros now message <-. cbn zeta. rewrite cmd_start_db. split.
    + assert (Hrow : exists u,
                 user_by_id (from_user_id message)
                   (start_link_partner message
                      (fst (start_registration now message db))) = Some u).
      { unfold user_by_id. rewrite start_link_partner_users.
        unfold start_registration.
        destruct (start_ref_code (text message) db) as [ref log].
        cbn [fst]. apply add_user_registers. }
      destruct Hrow as [u Hu]. eexists. split.
      * apply user_by_id_overwritten. exact Hu.
      * destruct u. now destruct (fst (check_subscription _ _)).
    + intros u Hu. apply user_by_id_overwritten.
      rewrite (start_registration_known now message db u Hu).
      unfold user_by_id in *. now rewrite start_link_partner_users.
Qed.

Lemma subscription_verdict_is_recorded_witness :
  fst (check_subscription left_the_channel 42) = false
  /\ user_by_id 42 store_with_a_sale = Some referred_42
  /\ u_is_subscribed referred_42 = 1
  /\ user_by_id 42
       (o_db (check_subscription_callback left_the_channel 42
                store_with_a_sale))
     = Some (set_subscribed 0 referred_42).
Proof.
  split; [reflexivity |]. split; [reflexivity |]. split; [reflexivity |].
  exact (proj1 (proj1 (proj2 (proj2 (proj2 (proj2
           (subscription_verdict_is_recorded left_the_channel 42
              store_with_a_sale))))))
           referred_42 eq_refl).
Defined.

End Subscription.

(** ** Resolving the buyer of a purchase *)

Section Resolution.

Lemma int_at_sign (s : string) : Py.int (String "@" s) = None.
Proof. reflexivity. Qed.

Lemma digit_is_not_at (c : ascii) :
  is_digit c = true -> Ascii.eqb "@" c = false.
Proof.
  intros Hd. destruct (Ascii.eqb "@" c) eqn:Heq; [| reflexivity].
  apply Ascii.eqb_eq in Heq. subst c. discriminate Hd.
Qed.

Lemma replace_at_digits (digits : string) :
  string_forall is_digit digits = true ->
  Py.replace digits "@" "" = digits.
Proof.
  unfold Py.replace.
  induction digits as [| c rest IH]; intros Hall; [reflexivity |].
  cbn [string_forall] in Hall.
  apply andb_prop in Hall. destruct Hall as [Hc Hrest].
  cbn [Py.replace_from Py.startswith].
  rewrite (digit_is_not_at c Hc). cbn [andb].
  now rewrite (IH Hrest).
Qed.

Lemma replace_at_prefix (s : string) :
  Py.replace (String "@" s) "@" "" = Py.replace s "@" "".
Proof. reflexivity. Qed.

(** C10. An identifier made of [@] and digits is not read as an account
    id: [int] rejects it, and the lookup is by handle, on the digits with
    the [@] removed.  It resolves to a user only if that user's handle is
    the digit string, and to nobody when no user has that handle, even if
    the digits are the id of a user. *)
Theorem at_digits_resolves_by_handle_only digits db :
  string_forall is_digit digits = true ->
  get_user_by_id_or_username (String "@" digits) db
  = option_map user_dict_of
      (List.find (fun u => Sql.text_eq (u_username u) digits) (users db))
  /\ (forall user,
        get_user_by_id_or_username (String "@" digits) db = Some user ->
        ud_username user = Some digits)
  /\ ((forall u, In u (users db) -> u_username u <> Some digits) ->
      get_user_by_id_or_username (String "@" digits) db = None).
Proof.
  intros Hdigits.
  assert (Heq : get_user_by_id_or_username (String "@" digits) db
                = option_map user_dict_of
                    (List.find
                       (fun u => Sql.text_eq (u_username u) digits)
                       (users db))).
  { unfold get_user_by_id_or_username.
    rewrite int_at_sign, replace_at_prefix.
    now rewrite (replace_at_digits digits Hdigits). }
  rewrite Heq. split; [reflexivity |]. split.
  - intros user Hfound.
    destruct (List.find _ (users db)) as [u |] eqn:Hfind; [| discriminate].
    apply find_some in Hfind. destruct Hfind as [_ Hname].
    injection Hfound as <-. cbn [user_dict_of ud_username].
    unfold Sql.text_eq in Hname.
    destruct (u_username u) as [name |]; [| discriminate].
    apply String.eqb_eq in Hname. now subst name.
  - intros Hnobody.
    destruct (List.find _ (users db)) as [u |] eqn:Hfind; [| reflexivity].
    apply find_some in Hfind. destruct Hfind as [Hin Hname].
    unfold Sql.text_eq in Hname.
    destruct (u_username u) as [name |] eqn:Hu; [| discriminate].
    apply String.eqb_eq in Hname. subst name.
    now elim (Hnobody u Hin).
Qed.

Lemma at_digits_resolves_by_handle_only_witness :
  get_user_by_id_or_username "42" one_user
  = Some {| ud_user_id := 42; ud_username := None;
            ud_first_name := Some "Bo"; ud_last_name := None |}
  /\ get_user_by_id_or_username "@42" one_user = None.
Proof.
  split; [reflexivity |].
  apply (at_digits_resolves_by_handle_only "42" one_user eq_refl).
  intros u [<- | []]. discriminate.
Defined.

(** The add-purchase flow on such an identifier asks again and stays in
    its first state. *)
Example at_digits_in_the_flow :
  purchase_user_input admin_1 (from_admin_1 " @42 ") one_user
    {| state := Some PurchaseStates_waiting_user_input; data := no_data |}
  = ({| state := Some PurchaseStates_waiting_user_input; data := no_data |},
     {| o_db := one_user; o_replies := [user_not_found];
        o_log := [warn_user_not_found "@42"] |}).
Proof. reflexivity. Qed.

End Resolution.

(** ** Numbers in texts *)

Section Numerals.

Lemma string_forall_impl (p q : ascii -> bool) (s : string) :
  (forall c, p c = true -> q c = true) ->
  string_forall p s = true -> string_forall q s = true.
Proof.
  intros Hpq. induction s as [| c r IH]; cbn [string_forall]; [easy |].
  rewrite !andb_true_iff. intros [Hc Hr]. split; auto.
Qed.

Lemma digit_val_digit_char (d : Z) :
  0 <= d < 10 -> Py.digit_val (Py.digit_char d) = Some d.
Proof.
  intros Hd.
  assert (H : d = 0 \/ d = 1 \/ d = 2 \/ d = 3 \/ d = 4 \/ d = 5 \/ d = 6
              \/ d = 7 \/ d = 8 \/ d = 9) by lia.
  repeat (destruct H as [-> | H]; [reflexivity |]). now subst d.
Qed.

Lemma is_digit_digit_char (n : Z) : is_digit (Py.digit_char (n mod 10)) = true.
Proof.
  unfold is_digit.
  now rewrite digit_val_digit_char by (apply Z.mod_pos_bound; lia).
Qed.

Lemma digits_from_digit a k c r d :
  Py.digit_val c = Some d ->
  Py.digits_from a k (String c r) = Py.digits_from (10 * a + d) (k + 1) r.
Proof. intros Hc. cbn [Py.digits_from]. now rewrite Hc. Qed.

(** Reading back what [digits_fuel] wrote: the digits of [n] shift the
    value read so far and add [n]. *)
Lemma digits_from_digits_fuel f n acc :
  0 <= n < 2 ^ Z.of_nat (S f) ->
  exists len,
    0 < len
    /\ forall a k,
         Py.digits_from a k (Py.digits_fuel (S f) n acc)
         = Py.digits_from (a * 10 ^ len + n) (k + len) acc.
Proof.
  revert n acc. induction f as [| f IH]; intros n acc Hn;
    cbn [Py.digits_fuel];
    pose proof (Z.mod_pos_bound n 10 ltac:(lia)) as Hmod;
    pose proof (Z.div_mod n 10 ltac:(lia)) as Hdiv;
    destruct (n / 10 =? 0) eqn:Hq.
  - apply Z.eqb_eq in Hq. exists 1. split; [lia |]. intros a k.
    rewrite (digits_from_digit a k _ acc (n mod 10))
      by (now apply digit_val_digit_char).
    f_equal; lia.
  - apply Z.eqb_neq in Hq. exfalso. apply Hq.
    apply Z.div_small. change (2 ^ Z.of_nat 1) with 2 in Hn. lia.
  - apply Z.eqb_eq in Hq. exists 1. split; [lia |]. intros a k.
    rewrite (digits_from_digit a k _ acc (n mod 10))
      by (now apply digit_val_digit_char).
    f_equal; lia.
  - assert (Hn' : 0 <= n / 10 < 2 ^ Z.of_nat (S f)).
    { split; [apply Z.div_pos; lia |].
      rewrite (Nat2Z.inj_succ (S f)), Z.pow_succ_r in Hn by lia.
      apply Z.div_lt_upper_bound; lia. }
    destruct (IH (n / 10) (String (Py.digit_char (n mod 10)) acc) Hn')
      as (len & Hlen & Hread).
    exists (len + 1). split; [lia |]. intros a k.
    change (if n / 10 / 10 =? 0
            then String (Py.digit_char (n / 10 mod 10))
                   (String (Py.digit_char (n mod 10)) acc)
            else Py.digits_fuel f (n / 10 / 10)
                   (String (Py.digit_char (n / 10 mod 10))
                      (String (Py.digit_char (n mod 10)) acc)))
      with (Py.digits_fuel (S f) (n / 10)
              (String (Py.digit_char (n mod 10)) acc)).
    rewrite Hread.
    rewrite (digits_from_digit _ _ _ acc (n mod 10))
      by (now apply digit_val_digit_char).
    rewrite Z.pow_add_r by lia. f_equal; lia.
Qed.

Lemma digits_fuel_forall (p : ascii -> bool) fuel n acc :
  (forall m, p (Py.digit_char (m mod 10)) = true) ->
  string_forall p acc = true ->
  string_forall p (Py.digits_fuel fuel n acc) = true.
Proof.
  intros Hp. revert n acc. induction fuel as [| f IH]; intros n acc Hacc.
  - exact Hacc.
  - cbn [Py.digits_fuel].
    assert (Hacc' : string_forall p (String (Py.digit_char (n mod 10)) acc)
                    = true).
    { cbn [string_forall]. now rewrite Hp, Hacc. }
    destruct (n / 10 =? 0); [exact Hacc' | now apply IH].
Qed.

Lemma digits_of_fuel (n : Z) :
  0 <= n -> 0 <= n < 2 ^ Z.of_nat (S (Z.to_nat (Z.log2 n))).
Proof.
  intros Hn. split; [exact Hn |].
  rewrite Nat2Z.inj_succ, Z2Nat.id by apply Z.log2_nonneg.
  destruct (Z.eq_dec n 0) as [-> | Hpos]; [reflexivity |].
  apply Z.log2_spec. lia.
Qed.

Lemma digits_of_digits (n : Z) :
  string_forall is_digit (Py.digits_of n) = true.
Proof.
  unfold Py.digits_of.
  apply digits_fuel_forall; [apply is_digit_digit_char | reflexivity].
Qed.

Lemma digits_fuel_length fuel n acc :
  (String.length acc <= String.length (Py.digits_fuel fuel n acc))%nat.
Proof.
  revert n acc. induction fuel as [| f IH]; intros n acc; [apply Nat.le_refl |].
  cbn [Py.digits_fuel]. destruct (n / 10 =? 0).
  - cbn [String.length]. apply Nat.le_succ_diag_r.
  - eapply Nat.le_trans; [| apply IH]. cbn [String.length].
    apply Nat.le_succ_diag_r.
Qed.

(** [digits_of n] is never empty and starts with a digit. *)
Lemma digits_of_head (n : Z) :
  exists c r, Py.digits_of n = String c r /\ is_digit c = true.
Proof.
  pose proof (digits_of_digits n) as Hall.
  assert (Hlen : (1 <= String.length (Py.digits_of n))%nat).
  { unfold Py.digits_of. cbn [Py.digits_fuel]. destruct (n / 10 =? 0).
    - apply Nat.le_refl.
    - eapply Nat.le_trans; [| apply digits_fuel_length]. apply Nat.le_refl. }
  destruct (Py.digits_of n) as [| c r].
  - cbn in Hlen. inversion Hlen.
  - cbn [string_forall] in Hall. apply andb_prop in Hall.
    exists c, r. split; [reflexivity | apply Hall].
Qed.

Lemma digit_is_not_space (c : ascii) :
  is_digit c = true -> Py.isspace c = false.
Proof.
  destruct c as [[] [] [] [] [] [] [] []]; try reflexivity; discriminate.
Qed.

Lemma rstrip_no_space (s : string) :
  string_forall (fun c => negb (Py.isspace c)) s = true -> Py.rstrip s = s.
Proof.
  induction s as [| c r IH]; cbn [string_forall Py.rstrip]; [easy |].
  rewrite andb_true_iff, negb_true_iff. intros [Hc Hr].
  now rewrite Hc, (IH Hr).
Qed.

Lemma strip_no_space (s : string) :
  string_forall (fun c => negb (Py.isspace c)) s = true -> Py.strip s = s.
Proof.
  intros Hs. unfold Py.strip.
  assert (Hl : Py.lstrip s = s).
  { destruct s as [| c r]; [reflexivity |].
    cbn [string_forall] in Hs. apply andb_prop in Hs.
    destruct Hs as [Hc _]. apply negb_true_iff in Hc.
    cbn [Py.lstrip]. now rewrite Hc. }
  rewrite Hl. now apply rstrip_no_space.
Qed.

Lemma number_space_is_space (c : ascii) :
  Py.isspace c = false -> Py.is_number_space c = false.
Proof.
  destruct c as [[] [] [] [] [] [] [] []]; try reflexivity; discriminate.
Qed.

(** On a text without blanks [int] and [float] skip nothing. *)
Lemma skip_no_space (s : string) :
  string_forall (fun c => negb (Py.isspace c)) s = true ->
  Py.skip_spaces s = s.
Proof.
  intros Hs. unfold Py.skip_spaces.
  assert (Hl : Py.lskip s = s).
  { destruct s as [| c r]; [reflexivity |].
    cbn [string_forall] in Hs. apply andb_prop in Hs.
    destruct Hs as [Hc _]. apply negb_true_iff in Hc.
    cbn [Py.lskip]. now rewrite (number_space_is_space c Hc). }
  rewrite Hl. clear Hl.
  induction s as [| c r IH]; cbn [string_forall Py.rskip] in *; [easy |].
  apply andb_prop in Hs. destruct Hs as [Hc Hr].
  apply negb_true_iff in Hc.
  now rewrite (number_space_is_space c Hc), (IH Hr).
Qed.

Lemma int_digits_of (n : Z) : 0 <= n -> Py.int (Py.digits_of n) = Some n.
Proof.
  intros Hn. unfold Py.int.
  rewrite skip_no_space
    by (apply (string_forall_impl is_digit); [| apply digits_of_digits];
        intros c Hc; now rewrite digit_is_not_space).
  destruct (digits_from_digits_fuel (Z.to_nat (Z.log2 n)) n EmptyString
              (digits_of_fuel n Hn)) as (len & _ & Hread).
  fold (Py.digits_of n) in Hread.
  destruct (digits_of_head n) as (c & r & Hd & Hc).
  specialize (Hread 0 0). rewrite Hd in *.
  unfold is_digit in Hc.
  destruct (Py.digit_val c) as [d |] eqn:Hval; [| discriminate].
  assert (Hsign : Py.sign (String c r) = (false, String c r)).
  { destruct c as [[] [] [] [] [] [] [] []]; try reflexivity; discriminate. }
  rewrite Hsign. cbn [Py.digitpart]. rewrite Hval.
  rewrite (digits_from_digit 0 0 c r d Hval) in Hread.
  change (10 * 0 + d) with d in Hread. change (0 + 1) with 1 in Hread.
  rewrite Hread. cbn [Py.digits_from]. f_equal; lia.
Qed.

(** [int(str(z)) == z] *)
Lemma int_str (z : Z) : Py.int (Py.str z) = Some z.
Proof.
  unfold Py.str. destruct (z <? 0) eqn:Hz.
  - apply Z.ltb_lt in Hz.
    pose proof (int_digits_of (- z) ltac:(lia)) as Hint.
    unfold Py.int in *.
    rewrite skip_no_space in Hint
      by (apply (string_forall_impl is_digit); [| apply digits_of_digits];
          intros c Hc; now rewrite digit_is_not_space).
    rewrite skip_no_space.
    + destruct (digits_of_head (- z)) as (c & r & Hd & Hc).
      rewrite Hd in *. cbn [Py.sign].
      assert (Hsign : Py.sign (String c r) = (false, String c r)).
      { destruct c as [[] [] [] [] [] [] [] []]; try reflexivity;
          discriminate. }
      rewrite Hsign in Hint.
      destruct (Py.digitpart (String c r)) as [[[v k] rest] |];
        [| discriminate].
      destruct rest; [| discriminate].
      injection Hint as Hv. f_equal. lia.
    + cbn [string_forall]. cbn [negb andb].
      apply (string_forall_impl is_digit); [| apply digits_of_digits].
      intros c Hc. now rewrite digit_is_not_space.
  - apply Z.ltb_ge in Hz. now apply int_digits_of.
Qed.

End Numerals.

(** ** Buttons and their callback data *)

Section Callbacks.

Lemma str_chars (z : Z) : string_forall digit_or_minus (Py.str z) = true.
Proof.
  assert (Hd : forall n, string_forall digit_or_minus (Py.digits_of n) = true).
  { intros n. apply (string_forall_impl is_digit); [| apply digits_of_digits].
    intros c Hc. unfold digit_or_minus. now rewrite Hc. }
  unfold Py.str. destruct (z <? 0); [| apply Hd].
  cbn [string_forall]. now rewrite Hd.
Qed.

(** Nothing is replaced in a text that lacks the first character of
    [old]. *)
Lemma replace_without_head (c0 : ascii) (old_rest new s : string) :
  string_forall (lacks c0) s = true ->
  Py.replace s (String c0 old_rest) new = s.
Proof.
  unfold Py.replace.
  induction s as [| c r IH]; intros Hs; [reflexivity |].
  cbn [string_forall] in Hs. apply andb_prop in Hs. destruct Hs as [Hc Hr].
  unfold lacks in Hc. apply negb_true_iff in Hc.
  cbn [Py.replace_from Py.startswith]. rewrite Hc. cbn [andb].
  now rewrite (IH Hr).
Qed.

Lemma startswith_split (s p : string) :
  Py.startswith s p = true -> exists rest, s = (p ++ rest)%string.
Proof.
  revert s. induction p as [| a p IH]; intros s Hs.
  - now exists s.
  - destruct s as [| b s]; [discriminate |].
    cbn [Py.startswith] in Hs. apply andb_prop in Hs. destruct Hs as [Hab Hs].
    apply Ascii.eqb_eq in Hab. subst b.
    destruct (IH s Hs) as [rest ->]. now exists rest.
Qed.

Lemma digit_or_minus_lacks_u (c : ascii) :
  digit_or_minus c = true -> lacks "u" c = true.
Proof.
  destruct c as [[] [] [] [] [] [] [] []]; try reflexivity; discriminate.
Qed.

Lemma digit_or_minus_lacks_p (c : ascii) :
  digit_or_minus c = true -> lacks "p" c = true.
Proof.
  destruct c as [[] [] [] [] [] [] [] []]; try reflexivity; discriminate.
Qed.

Lemma code_char_lacks_p (c : ascii) :
  is_code_char c = true -> lacks "p" c = true.
Proof.
  destruct c as [[] [] [] [] [] [] [] []]; try reflexivity; discriminate.
Qed.

Lemma code_char_lacks_r (c : ascii) :
  is_code_char c = true -> lacks "r" c = true.
Proof.
  destruct c as [[] [] [] [] [] [] [] []]; try reflexivity; discriminate.
Qed.

Lemma page_of_users_data (k : Z) :
  Py.int (Py.replace ("users_page_" ++ Py.str k) "users_page_" "") = Some k.
Proof.
  change (Py.replace ("users_page_" ++ Py.str k) "users_page_" "")
    with (Py.replace (Py.str k) "users_page_" "").
  rewrite replace_without_head; [apply int_str |].
  apply (string_forall_impl digit_or_minus); [| apply str_chars].
  apply digit_or_minus_lacks_u.
Qed.

Lemma page_of_purchases_data (k : Z) :
  Py.int (Py.replace ("purchases_page_" ++ Py.str k) "purchases_page_" "")
  = Some k.
Proof.
  change (Py.replace ("purchases_page_" ++ Py.str k) "purchases_page_" "")
    with (Py.replace (Py.str k) "purchases_page_" "").
  rewrite replace_without_head; [apply int_str |].
  apply (string_forall_impl digit_or_minus); [| apply str_chars].
  apply digit_or_minus_lacks_p.
Qed.

(** X1. A page button of a list view carries the page in its callback
    data, and the page handler reads it back: pressed by an administrator,
    the button for page [k] of the users list, or of the purchases list,
    shows page [k], for every integer [k], and changes neither the store
    nor the conversation. *)
Theorem page_button_opens_its_page cfg oracle now admin k db ctx :
  is_admin cfg admin = true ->
  (forall data,
     callback_data (users_page k) = Some data ->
     callback_query cfg oracle now admin data db ctx
     = Some (db, ctx, list_view (show_users_page k None db)))
  /\ (forall data,
        callback_data (purchases_page k) = Some data ->
        callback_query cfg oracle now admin data db ctx
        = Some (db, ctx, purchases_view cfg admin k db)).
Proof.
  intros Hadmin. split; intros data Hdata; injection Hdata as <-.
  - unfold callback_query. cbn -[Py.str Py.int Py.replace].
    unfold users_page_callback. rewrite Hadmin. cbn [negb].
    fold (String.append "users_page_" (Py.str k)).
    now rewrite page_of_users_data.
  - unfold callback_query. cbn -[Py.str Py.int Py.replace].
    unfold purchases_page_callback. rewrite Hadmin. cbn [negb].
    fold (String.append "purchases_page_" (Py.str k)).
    now rewrite page_of_purchases_data.
Qed.

Lemma page_button_opens_its_page_witness :
  callback_query admin_1 left_the_channel 900 1 "users_page_3" one_user idle
  = Some (one_user, idle, list_view (show_users_page 3 None one_user)).
Proof.
  apply (proj1 (page_button_opens_its_page admin_1 left_the_channel 900 1 3
                  one_user idle eq_refl)).
  reflexivity.
Defined.

Lemma find_present {A} (f : A -> bool) (l : list A) (x : A) :
  In x l -> f x = true -> exists y, List.find f l = Some y /\ f y = true.
Proof.
  intros Hin Hx. destruct (List.find f l) as [y |] eqn:Hfind.
  - exists y. split; [reflexivity |]. now apply find_some in Hfind.
  - now rewrite (find_none f l Hfind x Hin) in Hx.
Qed.

(** X2. Every partner of the store has a button in the partner chooser,
    and for a code over the generator's alphabet that button, pressed by
    an administrator, opens the analytics of the partner with that code:
    its row and the statistics of its code. *)
Theorem partner_button_opens_its_analytics cfg oracle now admin db ctx p :
  is_admin cfg admin = true ->
  In p (partners db) ->
  string_forall is_code_char (p_partner_code p) = true ->
  let data := String.append "partner_stats_" (p_partner_code p) in
  (exists kb,
     partners_analytics_menu cfg admin db = choose_partner kb
     /\ In [data] kb)
  /\ (exists p',
        get_partner_by_code (p_partner_code p) db = Some p'
        /\ p_partner_code p' = p_partner_code p
        /\ callback_query cfg oracle now admin data db ctx
           = Some (db, ctx,
                   partner_analytics p'
                     (get_partner_stats now (p_partner_code p) db)
                     [["partners_analytics"]])).
Proof.
  intros Hadmin Hin Hcode data. split.
  - unfold partners_analytics_menu, get_all_partners. rewrite Hadmin.
    cbn [negb]. destruct (partners db) as [| q rest] eqn:Hrows;
      [contradiction |].
    eexists. split; [reflexivity |].
    apply in_or_app. left.
    apply (in_map (fun q => [String.append "partner_stats_"
                               (p_partner_code q)]) _ p Hin).
  - destruct (find_present
                (fun q => String.eqb (p_partner_code q) (p_partner_code p))
                (partners db) p Hin (String.eqb_refl _))
      as (p' & Hfind & Hsame).
    apply String.eqb_eq in Hsame.
    exists p'. split; [exact Hfind |]. split; [exact Hsame |].
    unfold callback_query, data. cbn -[Py.replace get_partner_stats].
    unfold partner_stats_detail. rewrite Hadmin. cbn [negb].
    fold (String.append "partner_stats_" (p_partner_code p)).
    change (Py.replace ("partner_stats_" ++ p_partner_code p)
              "partner_stats_" "")
      with (Py.replace (p_partner_code p) "partner_stats_" "").
    rewrite replace_without_head
      by (apply (string_forall_impl is_code_char); [| exact Hcode];
          apply code_char_lacks_p).
    unfold get_partner_by_code. now rewrite Hfind.
Qed.

Lemma partner_button_opens_its_analytics_witness :
  exists p',
    get_partner_by_code "ABCDEFGH" one_user = Some p'
    /\ p_partner_code p' = "ABCDEFGH"
    /\ callback_query admin_1 left_the_channel 900 1
         "partner_stats_ABCDEFGH" one_user idle
       = Some (one_user, idle,
               partner_analytics p'
                 (get_partner_stats 900 "ABCDEFGH" one_user)
                 [["partners_analytics"]]).
Proof.
  apply (proj2 (partner_button_opens_its_analytics admin_1 left_the_channel
                  900 1 one_user idle partner_ABCDEFGH eq_refl
                  (or_introl eq_refl) eq_refl)).
Defined.

(** X3. No button of the admin panel works for an account outside
    [ADMIN_IDS]: whichever admin callback data it sends, in whatever
    conversation, the answer is the "no access" alert, and the store and
    the conversation stay as they were, so a stranger can never open a
    conversation. *)
Theorem admin_buttons_refuse_a_stranger cfg oracle now user_id data db ctx :
  admin_only data = true ->
  is_admin cfg user_id = false ->
  callback_query cfg oracle now user_id data db ctx
  = Some (db, ctx, no_access_alert).
Proof.
  intros Hdata Hadmin. unfold admin_only in Hdata.
  apply orb_prop in Hdata. destruct Hdata as [Hdata | Hpurchases].
  apply orb_prop in Hdata. destruct Hdata as [Hdata | Husers].
  apply orb_prop in Hdata. destruct Hdata as [Hname | Hstats].
  - apply existsb_exists in Hname. destruct Hname as (name & Hin & Heq).
    apply String.eqb_eq in Heq. subst name.
    cbn [In] in Hin.
    repeat (destruct Hin as [<- | Hin];
            [unfold callback_query, admin_partners_menu, partners_list,
               partner_add_start, partner_delete_start,
               partners_analytics_menu, admin_users_menu, users_search_start,
               admin_purchases_menu, admin_menu_back, purchases_list_callback,
               purchase_add_callback, purchase_add_start;
             cbn [String.eqb Ascii.eqb Bool.eqb Py.startswith andb];
             rewrite Hadmin; reflexivity |]).
    contradiction.
  - destruct (startswith_split _ _ Hstats) as [rest ->].
    unfold callback_query, partner_stats_detail.
    cbn [String.eqb Ascii.eqb Bool.eqb Py.startswith andb String.append].
    now rewrite Hadmin.
  - destruct (startswith_split _ _ Husers) as [rest ->].
    unfold callback_query, users_page_callback.
    cbn [String.eqb Ascii.eqb Bool.eqb Py.startswith andb String.append].
    now rewrite Hadmin.
  - destruct (startswith_split _ _ Hpurchases) as [rest ->].
    unfold callback_query, purchases_page_callback.
    cbn [String.eqb Ascii.eqb Bool.eqb Py.startswith andb String.append].
    now rewrite Hadmin.
Qed.

Lemma admin_buttons_refuse_a_stranger_witness :
  callback_query admin_1 left_the_channel 900 2 "purchase_add" one_user idle
  = Some (one_user, idle, no_access_alert).
Proof.
  apply (admin_buttons_refuse_a_stranger admin_1 left_the_channel 900 2
           "purchase_add" one_user idle); reflexivity.
Defined.

End Callbacks.

(** ** config.py *)

Section Configuration.

Lemma split_on_no_separator (sep : ascii) (s : string) :
  string_forall (lacks sep) s = true -> Py.split_on sep s = [s].
Proof.
  induction s as [| c r IH]; cbn [string_forall Py.split_on]; [easy |].
  rewrite andb_true_iff. intros [Hc Hr].
  unfold lacks in Hc. apply negb_true_iff in Hc.
  rewrite Ascii.eqb_sym in Hc. now rewrite Hc, (IH Hr).
Qed.

Lemma split_on_separator (sep : ascii) (s rest : string) :
  string_forall (lacks sep) s = true ->
  Py.split_on sep (s ++ String sep rest) = s :: Py.split_on sep rest.
Proof.
  induction s as [| c r IH]; cbn [string_forall String.append Py.split_on].
  - intros _. now rewrite Ascii.eqb_refl.
  - rewrite andb_true_iff. intros [Hc Hr].
    unfold lacks in Hc. apply negb_true_iff in Hc.
    rewrite Ascii.eqb_sym in Hc. now rewrite Hc, (IH Hr).
Qed.

Lemma digit_or_minus_lacks_comma (c : ascii) :
  digit_or_minus c = true -> lacks "," c = true.
Proof.
  destruct c as [[] [] [] [] [] [] [] []]; try reflexivity; discriminate.
Qed.

Lemma digit_or_minus_not_space (c : ascii) :
  digit_or_minus c = true -> negb (Py.isspace c) = true.
Proof.
  destruct c as [[] [] [] [] [] [] [] []]; try reflexivity; discriminate.
Qed.

Lemma strip_str (z : Z) : Py.strip (Py.str z) = Py.str z.
Proof.
  apply strip_no_space.
  apply (string_forall_impl digit_or_minus); [| apply str_chars].
  apply digit_or_minus_not_space.
Qed.

Lemma str_not_empty (z : Z) : Py.is_empty (Py.str z) = false.
Proof.
  unfold Py.str. destruct (z <? 0); [reflexivity |].
  destruct (digits_of_head z) as (c & r & -> & _). reflexivity.
Qed.

Lemma int_pieces_str (ids : list Z) :
  int_pieces (List.map Py.str ids) = Some ids.
Proof.
  induction ids as [| id rest IH]; [reflexivity |].
  cbn [List.map int_pieces].
  now rewrite strip_str, str_not_empty, int_str, IH.
Qed.

Lemma split_on_joined (ids : list Z) :
  ids <> [] ->
  Py.split_on "," (String.concat "," (List.map Py.str ids))
  = List.map Py.str ids.
Proof.
  assert (Hstr : forall z, string_forall (lacks ",") (Py.str z) = true).
  { intros z. apply (string_forall_impl digit_or_minus); [| apply str_chars].
    apply digit_or_minus_lacks_comma. }
  induction ids as [| id rest IH]; intros Hne; [contradiction |].
  destruct rest as [| id' rest'].
  - cbn [List.map String.concat]. now apply split_on_no_separator.
  - change (String.concat "," (List.map Py.str (id :: id' :: rest')))
      with (Py.str id
            ++ String ","
                 (String.concat "," (List.map Py.str (id' :: rest'))))%string.
    rewrite split_on_separator by apply Hstr.
    cbn [List.map]. f_equal. apply IH. discriminate.
Qed.

(** X4. [ADMIN_IDS] written as decimal account ids separated by commas is
    loaded as exactly that list of ids, the empty text as no id at all;
    and [is_admin] is true exactly for the ids of the list. *)
Theorem admin_ids_load_back (ids : list Z) :
  load_admin_ids (String.concat "," (List.map Py.str ids)) = Some ids
  /\ (forall user_id,
        is_admin {| ADMIN_IDS := ids |} user_id = true <-> In user_id ids).
Proof.
  split.
  - unfold load_admin_ids. destruct ids as [| id rest]; [reflexivity |].
    rewrite split_on_joined by discriminate. apply int_pieces_str.
  - intros user_id. unfold is_admin. cbn [ADMIN_IDS].
    rewrite existsb_exists. split.
    + intros (x & Hin & Heq). apply Z.eqb_eq in Heq. now subst x.
    + intros Hin. exists user_id. split; [exact Hin | apply Z.eqb_refl].
Qed.

(** Entries may be padded with blanks, and blank entries are skipped. *)
Example admin_ids_with_blanks :
  load_admin_ids " 12, 7 ,,-3 , " = Some [12; 7; -3].
Proof. reflexivity. Qed.

(** One entry that is not a number stops the loading. *)
Example admin_ids_with_a_name : load_admin_ids "12,bob" = None.
Proof. reflexivity. Qed.

End Configuration.

(** ** What every run keeps *)

Section Invariants.

Lemma known_user_iff (db : database) (user_id : Z) :
  known_user db user_id <-> In user_id (List.map u_user_id (users db)).
Proof.
  unfold known_user, user_by_id. split.
  - intros Hknown.
    destruct (List.find _ (users db)) as [u |] eqn:Hfind; [| now elim Hknown].
    apply find_some in Hfind. destruct Hfind as [Hin Hid].
    apply Z.eqb_eq in Hid. subst user_id. now apply in_map.
  - intros Hin Hnone. apply in_map_iff in Hin.
    destruct Hin as (u & Hid & Hin).
    pose proof (find_none _ _ Hnone u Hin) as Hfalse. cbn in Hfalse.
    apply Z.eqb_neq in Hfalse. contradiction.
Qed.

Lemma insert_user_perm (r : user_row) (rows : list user_row) :
  Permutation (insert_user r rows) (r :: rows).
Proof.
  induction rows as [| x rest IH]; cbn [insert_user]; [reflexivity |].
  destruct (u_user_id r <? u_user_id x); [reflexivity |].
  rewrite IH. apply perm_swap.
Qed.

(** What [add_user] does to the list of account ids. *)
Lemma add_user_ids now user_id username first_name last_name ref db :
  let db' := add_user now user_id username first_name last_name ref db in
  (known_user db user_id /\ db' = db)
  \/ (~ known_user db user_id
      /\ Permutation (List.map u_user_id (users db'))
           (user_id :: List.map u_user_id (users db))).
Proof.
  cbn zeta. unfold add_user, known_user.
  destruct (user_by_id user_id db) as [u |] eqn:Hu.
  - left. split; [discriminate | reflexivity].
  - right. split; [intros H; now apply H |].
    cbn [users with_users].
    change (user_id :: List.map u_user_id (users db))
      with (List.map u_user_id
              ({| u_user_id := user_id; u_username := username;
                  u_first_name := first_name; u_last_name := last_name;
                  u_is_subscribed := 0; u_partner_code := None;
                  u_registered_at := now; u_ref_partner_code := ref |}
               :: users db)).
    apply Permutation_map, insert_user_perm.
Qed.

Lemma update_subscription_ids user_id verdict db :
  List.map u_user_id (users (update_subscription user_id verdict db))
  = List.map u_user_id (users db).
Proof.
  unfold update_subscription. cbn [users with_users].
  rewrite map_map. apply map_ext. intros u.
  now destruct (u_user_id u =? user_id).
Qed.

Lemma start_link_partner_purchases message db :
  purchases (start_link_partner message db) = purchases db
  /\ purchases_seq (start_link_partner message db) = purchases_seq db.
Proof.
  unfold start_link_partner.
  destruct (from_username message) as [username |]; [| easy].
  now destruct (Py.is_empty username).
Qed.

Lemma update_partner_user_id_keys username user_id db :
  List.map p_partner_code
    (partners (update_partner_user_id username user_id db))
  = List.map p_partner_code (partners db)
  /\ List.map p_username
       (partners (update_partner_user_id username user_id db))
     = List.map p_username (partners db).
Proof.
  unfold update_partner_user_id. cbn [partners with_partners].
  rewrite !map_map. split; apply map_ext; intros p;
    now destruct (String.eqb (p_username p) username && unlinked p).
Qed.

Lemma start_link_partner_keys message db :
  List.map p_partner_code (partners (start_link_partner message db))
  = List.map p_partner_code (partners db)
  /\ List.map p_username (partners (start_link_partner message db))
     = List.map p_username (partners db).
Proof.
  unfold start_link_partner.
  destruct (from_username message) as [username |]; [| easy].
  destruct (Py.is_empty username); [easy |].
  apply update_partner_user_id_keys.
Qed.

Lemma add_user_purchases now user_id username first_name last_name ref db :
  purchases (add_user now user_id username first_name last_name ref db)
  = purchases db
  /\ purchases_seq
       (add_user now user_id username first_name last_name ref db)
     = purchases_seq db.
Proof. unfold add_user. now destruct (user_by_id user_id db). Qed.

(** The store after [cmd_start], table by table. *)
Lemma cmd_start_tables oracle now message db :
  let db' := o_db (cmd_start oracle now message db) in
  ((known_user db (from_user_id message)
    /\ List.map u_user_id (users db') = List.map u_user_id (users db))
   \/ (~ known_user db (from_user_id message)
       /\ Permutation (List.map u_user_id (users db'))
            (from_user_id message :: List.map u_user_id (users db))))
  /\ List.map p_partner_code (partners db')
     = List.map p_partner_code (partners db)
  /\ List.map p_username (partners db')
     = List.map p_username (partners db)
  /\ purchases db' = purchases db
  /\ purchases_seq db' = purchases_seq db.
Proof.
  cbn zeta. rewrite !cmd_start_partners, cmd_start_db.
  rewrite update_subscription_ids, start_link_partner_users.
  cbn [purchases purchases_seq update_subscription with_users].
  destruct (start_link_partner_purchases message
              (fst (start_registration now message db))) as [-> ->].
  destruct (start_link_partner_keys message db) as [-> ->].
  unfold start_registration.
  destruct (start_ref_code (text message) db) as [ref log]. cbn [fst].
  destruct (add_user_purchases now (from_user_id message)
              (from_username message) (from_first_name message)
              (from_last_name message) ref db) as [-> ->].
  repeat split.
  destruct (add_user_ids now (from_user_id message) (from_username message)
              (from_first_name message) (from_last_name message) ref db)
    as [[Hknown ->] | [Hnew Hperm]]; [left | right]; easy.
Qed.

Lemma known_user_same_users db db' user_id :
  users db' = users db -> known_user db user_id -> known_user db' user_id.
Proof. unfold known_user, user_by_id. now intros ->. Qed.

Lemma store_ok_same_sales db db' :
  store_ok db ->
  NoDup (List.map u_user_id (users db')) ->
  (forall u, known_user db u -> known_user db' u) ->
  NoDup (List.map p_partner_code (partners db')) ->
  NoDup (List.map p_username (partners db')) ->
  purchases db' = purchases db ->
  purchases_seq db' = purchases_seq db ->
  store_ok db'.
Proof.
  intros (_ & _ & _ & Hnum & Hsales) Hids Hknown Hcodes Hnames Hp Hseq.
  unfold store_ok, numbered_from_one in *. rewrite Hp, Hseq.
  repeat split; try assumption; try apply Hnum.
  eapply Forall_impl; [| exact Hsales].
  intros p [Hbuyer Hamount]. split; [now apply Hknown | exact Hamount].
Qed.

Lemma cmd_start_keeps_store oracle now message db :
  store_ok db ->
  store_ok (o_db (cmd_start oracle now message db))
  /\ (forall u,
        known_user db u ->
        known_user (o_db (cmd_start oracle now message db)) u).
Proof.
  intros Hok.
  destruct (cmd_start_tables oracle now message db)
    as (Hids & Hcodes & Hnames & Hp & Hseq).
  pose proof Hok as (Hnodup & Hnc & Hnn & _).
  assert (Hmono : forall u,
             known_user db u ->
             known_user (o_db (cmd_start oracle now message db)) u).
  { intros u. rewrite !known_user_iff.
    destruct Hids as [[_ ->] | [_ Hperm]]; [easy |].
    intros Hin. apply (Permutation_in _ (Permutation_sym Hperm)).
    now right. }
  split; [| exact Hmono].
  apply (store_ok_same_sales db); try assumption.
  - destruct Hids as [[_ ->] | [Hnew Hperm]]; [exact Hnodup |].
    apply (Permutation_NoDup (Permutation_sym Hperm)).
    constructor; [| exact Hnodup]. now rewrite <- known_user_iff.
  - now rewrite Hcodes.
  - now rewrite Hnames.
Qed.

Lemma update_subscription_keeps_store user_id verdict db :
  store_ok db ->
  store_ok (update_subscription user_id verdict db)
  /\ (forall u,
        known_user db u ->
        known_user (update_subscription user_id verdict db) u).
Proof.
  intros Hok. pose proof Hok as (Hnodup & Hnc & Hnn & _).
  assert (Hmono : forall u,
             known_user db u ->
             known_user (update_subscription user_id verdict db) u).
  { intros u. now rewrite !known_user_iff, update_subscription_ids. }
  split; [| exact Hmono].
  apply (store_ok_same_sales db); try assumption; try reflexivity.
  now rewrite update_subscription_ids.
Qed.

Lemma NoDup_snoc {A} (l : list A) (x : A) :
  NoDup l -> ~ In x l -> NoDup (l ++ [x]).
Proof.
  intros Hl Hx.
  apply (Permutation_NoDup (Permutation_cons_append l x)).
  now constructor.
Qed.

Lemma NoDup_map_filter {A B} (f : A -> B) (keep : A -> bool) (l : list A) :
  NoDup (List.map f l) -> NoDup (List.map f (List.filter keep l)).
Proof.
  induction l as [| x rest IH]; cbn [List.map List.filter]; [easy |].
  intros Hnodup. apply NoDup_cons_iff in Hnodup.
  destruct Hnodup as [Hx Hrest].
  destruct (keep x); [| now apply IH].
  cbn [List.map]. constructor; [| now apply IH].
  intros Hin. apply Hx. apply in_map_iff in Hin.
  destruct Hin as (y & Hy & Hin). apply filter_In in Hin.
  apply in_map_iff. exists y. easy.
Qed.

Lemma find_none_not_in {A} (key : A -> string) (k : string) (l : list A) :
  List.find (fun x => String.eqb (key x) k) l = None ->
  ~ In k (List.map key l).
Proof.
  intros Hnone Hin. apply in_map_iff in Hin. destruct Hin as (x & Hx & Hin).
  pose proof (find_none _ _ Hnone x Hin) as Hfalse. cbn in Hfalse.
  apply String.eqb_neq in Hfalse. contradiction.
Qed.

(** Each writing method keeps the partner codes distinct. *)
Lemma apply_write_codes (w : write) (db : database) :
  NoDup (List.map p_partner_code (partners db)) ->
  NoDup (List.map p_partner_code (partners (apply_write w db))).
Proof.
  intros Hcodes. destruct w; cbn [apply_write].
  - now rewrite add_user_partners.
  - exact Hcodes.
  - unfold add_partner.
    destruct (get_partner_by_code partner_code db) eqn:Hcode;
      [exact Hcodes |].
    cbn [fst partners with_partners]. rewrite map_app. cbn [List.map].
    apply NoDup_snoc; [exact Hcodes |].
    now apply (find_none_not_in p_partner_code).
  - unfold remove_partner.
    destruct (get_partner_by_username username db); [| exact Hcodes].
    cbn [fst partners with_partners]. now apply NoDup_map_filter.
  - now rewrite (proj1 (update_partner_user_id_keys username user_id db)).
  - exact Hcodes.
Qed.

Lemma partner_add_process_keeps cfg now partner_code message db ctx :
  store_ok db ->
  store_ok (o_db (snd (partner_add_process cfg now partner_code message db
                         ctx)))
  /\ users (o_db (snd (partner_add_process cfg now partner_code message db
                         ctx))) = users db
  /\ fst (partner_add_process cfg now partner_code message db ctx) = idle.
Proof.
  intros Hok. unfold partner_add_process, denied.
  destruct (negb (is_admin cfg (from_user_id message))); [easy |].
  set (username := Py.replace (Py.strip (text message)) "@" "").
  destruct (get_partner_by_username username db) eqn:Hname; [easy |].
  unfold add_partner.
  destruct (get_partner_by_code partner_code db) eqn:Hcode; [easy |].
  cbn [snd fst o_db users with_partners]. split; [| easy].
  pose proof Hok as (Hids & Hcodes & Hnames & _).
  apply (store_ok_same_sales db); try assumption; try reflexivity.
  - intros u. now apply known_user_same_users.
  - cbn [partners with_partners]. rewrite map_app.
    apply NoDup_snoc; [exact Hcodes |].
    now apply (find_none_not_in p_partner_code).
  - cbn [partners with_partners]. rewrite map_app.
    apply NoDup_snoc; [exact Hnames |].
    now apply (find_none_not_in p_username).
Qed.

Lemma partner_delete_process_keeps cfg message db ctx :
  store_ok db ->
  store_ok (o_db (snd (partner_delete_process cfg message db ctx)))
  /\ users (o_db (snd (partner_delete_process cfg message db ctx)))
     = users db
  /\ fst (partner_delete_process cfg message db ctx) = idle.
Proof.
  intros Hok. unfold partner_delete_process, denied.
  destruct (negb (is_admin cfg (from_user_id message))); [easy |].
  set (username := Py.replace (Py.strip (text message)) "@" "").
  unfold remove_partner.
  destruct (get_partner_by_username username db); [| easy].
  cbn [snd fst o_db users with_partners]. split; [| easy].
  pose proof Hok as (Hids & Hcodes & Hnames & _).
  apply (store_ok_same_sales db); try assumption; try reflexivity.
  - intros u. now apply known_user_same_users.
  - cbn [partners with_partners]. now apply NoDup_map_filter.
  - cbn [partners with_partners]. now apply NoDup_map_filter.
Qed.

(** What [purchase_amount_input] lets through is stored as NULL or as a
    real greater than zero. *)
Lemma bind_real_null_or_positive (a : spec_float) :
  positive_or_nan a = true -> null_or_positive (Sql.bind_real a) = true.
Proof. now destruct a. Qed.

Lemma add_purchase_keeps now user_id amount comment db :
  store_ok db ->
  known_user db user_id ->
  positive_or_nan amount = true ->
  store_ok (fst (add_purchase now user_id amount comment db)).
Proof.
  intros (Hids & Hcodes & Hnames & [Hnum Hseq] & Hsales) Hbuyer Hamount.
  unfold add_purchase, store_ok, numbered_from_one.
  cbn [fst users partners purchases purchases_seq].
  rewrite length_app, map_app, Hnum, Hseq. cbn [List.length List.map].
  rewrite Nat.add_1_r, seq_S, map_app. cbn [List.map].
  repeat split; try assumption.
  - cbn [pu_id]. do 2 f_equal. lia.
  - lia.
  - apply Forall_app. split.
    + eapply Forall_impl; [| exact Hsales]. intros p [Hp Ha].
      split; [exact Hp | exact Ha].
    + constructor; [| constructor]. split; [exact Hbuyer |].
      cbn [pu_amount]. now apply bind_real_null_or_positive.
Qed.

Lemma le0_false_positive_or_nan (a : spec_float) :
  Py.le0 a = false -> positive_or_nan a = true.
Proof.
  destruct a as [s | s | | s m e]; cbn; try destruct s; cbn; easy.
Qed.

Lemma resolved_user_is_known query db user :
  get_user_by_id_or_username query db = Some user ->
  known_user db (ud_user_id user).
Proof.
  unfold get_user_by_id_or_username, known_user, user_by_id.
  destruct (Py.int query) as [user_id |].
  - destruct (List.find _ (users db)) as [u |] eqn:Hfind; [| discriminate].
    intros Huser. injection Huser as <-. cbn [user_dict_of ud_user_id].
    pose proof (find_some _ _ Hfind) as [_ Hid]. apply Z.eqb_eq in Hid.
    rewrite Hid, Hfind. discriminate.
  - destruct (List.find _ (users db)) as [u |] eqn:Hfind; [| discriminate].
    intros Huser. injection Huser as <-. cbn [user_dict_of ud_user_id].
    pose proof (find_some _ _ Hfind) as [Hin _].
    destruct (find_present (fun x => u_user_id x =? u_user_id u) (users db)
                u Hin (Z.eqb_refl _)) as (y & -> & _).
    discriminate.
Qed.

Lemma idle_is_ok cfg db user_id : conversation_ok cfg db user_id idle.
Proof. unfold conversation_ok, idle. cbn. repeat split; easy. Qed.

Lemma conversation_ok_mono cfg db db' user_id ctx :
  (forall u, known_user db u -> known_user db' u) ->
  conversation_ok cfg db user_id ctx ->
  conversation_ok cfg db' user_id ctx.
Proof.
  intros Hmono (Hbuyer & Hamount & Hwa & Hwc & Hstranger).
  repeat split; try assumption; try (now apply Hwa); try (now apply Hwc).
  intros buyer Hb. now apply Hmono, Hbuyer.
Qed.

Ltac ends_idle :=
  split; [assumption | split; [assumption || reflexivity | apply idle_is_ok]].

(** One text handler, run in the state it is registered for. *)
Lemma text_handler_keeps cfg now partner_code message db ctx awaited ctx' o :
  store_ok db ->
  conversation_ok cfg db (from_user_id message) ctx ->
  state ctx = Some awaited ->
  text_handler awaited cfg now partner_code message db ctx
  = returned (ctx', o) ->
  store_ok (o_db o)
  /\ users (o_db o) = users db
  /\ conversation_ok cfg (o_db o) (from_user_id message) ctx'.
Proof.
  intros Hok Hctx Hstate Hrun.
  pose proof Hctx as (Hbuyer & Hamount & Hwa & Hwc & Hstranger).
  destruct awaited; cbn [text_handler] in Hrun.
  - destruct (partner_add_process_keeps cfg now partner_code message db ctx
                Hok) as (Hok' & Husers & Hidle).
    injection Hrun as Hrun.
    rewrite Hrun in Hok', Husers, Hidle. cbn [fst snd] in *. subst ctx'.
    ends_idle.
  - destruct (partner_delete_process_keeps cfg message db ctx Hok)
      as (Hok' & Husers & Hidle).
    injection Hrun as Hrun.
    rewrite Hrun in Hok', Husers, Hidle. cbn [fst snd] in *. subst ctx'.
    ends_idle.
  - destruct (is_admin _ _ && search_users_overflows _) in Hrun;
      [discriminate Hrun |].
    unfold users_search_process, denied in Hrun.
    destruct (negb (is_admin cfg (from_user_id message)));
      injection Hrun as <- <-; cbn [o_db]; ends_idle.
  - destruct (is_admin _ _ && get_user_by_id_or_username_overflows _)
      in Hrun; [discriminate Hrun |].
    unfold purchase_user_input, denied in Hrun.
    destruct (is_admin cfg (from_user_id message)) eqn:Hadmin;
      cbn [negb] in Hrun; [| injection Hrun as <- <-; cbn [o_db]; ends_idle].
    destruct (get_user_by_id_or_username _ db) as [user |] eqn:Huser;
      injection Hrun as <- <-; cbn [o_db];
      (split; [exact Hok | split; [reflexivity |]]); [| exact Hctx].
    unfold conversation_ok.
    cbn [set_state update_data_user state data d_user_id d_username
           d_first_name d_amount].
    split; [| split; [exact Hamount |]].
    { intros buyer Hb. injection Hb as <-.
      now apply (resolved_user_is_known _ _ _ Huser). }
    split; [intros _; repeat split; discriminate |].
    split; [discriminate |].
    intros Hfalse. rewrite Hadmin in Hfalse. discriminate.
  - unfold purchase_amount_input, denied in Hrun.
    destruct (is_admin cfg (from_user_id message)) eqn:Hadmin;
      cbn [negb] in Hrun; [| injection Hrun as <- <-; cbn [o_db]; ends_idle].
    destruct (Py.float _) as [amount |];
      [destruct (Py.le0 amount) eqn:Hle |];
      injection Hrun as <- <-; cbn [o_db];
      (split; [exact Hok | split; [reflexivity |]]);
      try exact Hctx.
    unfold conversation_ok.
    cbn [set_state update_data_amount state data d_user_id d_username
           d_first_name d_amount].
    split; [exact Hbuyer |].
    split.
    { intros a Ha. injection Ha as <-.
      now apply le0_false_positive_or_nan. }
    split; [discriminate |].
    split; [intros _; split; [now apply Hwa | discriminate] |].
    intros Hfalse. rewrite Hadmin in Hfalse. discriminate.
  - unfold purchase_comment_input, denied in Hrun.
    destruct (is_admin cfg (from_user_id message)) eqn:Hadmin;
      cbn [negb] in Hrun; [| injection Hrun as <- <-; cbn [o_db]; ends_idle].
    destruct (d_user_id (data ctx)) as [buyer |] eqn:Hb; [| discriminate].
    destruct (d_username (data ctx)); [| discriminate].
    destruct (d_first_name (data ctx)); [| discriminate].
    destruct (d_amount (data ctx)) as [amount |] eqn:Ha; [| discriminate].
    pose proof (add_purchase_keeps now buyer amount
                  (if String.eqb (Py.strip (text message)) "-"
                   then EmptyString else Py.strip (text message))
                  db Hok (Hbuyer buyer eq_refl) (Hamount amount eq_refl))
      as Hok'.
    unfold add_purchase in *. cbn [fst] in Hok'.
    injection Hrun as <- <-. cbn [o_db users]. ends_idle.
Qed.

(** What a pressed button may change: the subscription flag of the
    account, and, for an administrator, the state of the conversation,
    which becomes the first state of a flow. *)
Lemma callback_query_effect cfg oracle now user_id data db ctx db' ctx' pn :
  callback_query cfg oracle now user_id data db ctx = Some (db', ctx', pn) ->
  (db' = db \/ exists verdict, db' = update_subscription user_id verdict db)
  /\ (ctx' = ctx
      \/ (is_admin cfg user_id = true
          /\ exists first,
               ctx' = set_state first ctx
               /\ first <> PurchaseStates_waiting_amount
               /\ first <> PurchaseStates_waiting_comment)).
Proof.
  intros H. unfold callback_query in H.
  repeat match type of H with
         | (if ?c then _ else _) = _ => destruct c
         end;
    try discriminate H;
    unfold partner_add_start, partner_delete_start, users_search_start,
      purchase_add_callback, purchase_add_start, users_page_callback,
      purchases_page_callback in H;
    try rewrite check_subscription_callback_db in H;
    destruct (is_admin cfg user_id) eqn:Hadmin; cbn [negb fst snd] in H;
    try match type of H with
        | context [Py.int ?x] => destruct (Py.int x)
        end;
    cbn [option_map] in H;
    try discriminate H;
    injection H as <- <- _;
    (split; [first [now left | right; eexists; reflexivity] |]);
    first [now left
          | right; split; [reflexivity |];
            eexists; split; [reflexivity | split; discriminate]].
Qed.

Lemma fits_iff (n : Z) : Sql.fits n = true <-> - 2 ^ 63 <= n < 2 ^ 63.
Proof. unfold Sql.fits. rewrite andb_true_iff. lia. Qed.

(** How the handler of the awaited state ends on a text. *)
Lemma text_handler_ends cfg now partner_code message db ctx awaited :
  conversation_ok cfg db (from_user_id message) ctx ->
  state ctx = Some awaited ->
  let ended :=
    text_handler awaited cfg now partner_code message db ctx in
  let too_large :=
    is_admin cfg (from_user_id message) = true
    /\ exists n,
         typed_integer awaited (text message) = Some n
         /\ ~ - 2 ^ 63 <= n < 2 ^ 63 in
  (ended = OverflowError /\ too_large)
  \/ ((exists r, ended = returned r) /\ ~ too_large).
Proof.
  intros (_ & _ & _ & Hwc & _) Hstate. cbn zeta.
  destruct awaited; cbn [text_handler typed_integer].
  - right. split; [eexists; reflexivity |].
    intros (_ & n & Hn & _). discriminate Hn.
  - right. split; [eexists; reflexivity |].
    intros (_ & n & Hn & _). discriminate Hn.
  - unfold search_users_overflows.
    destruct (is_admin cfg (from_user_id message)); cbn [andb];
      [| right; split; [eexists; reflexivity | now intros [Hfalse _]]].
    destruct (Py.int _) as [n |];
      [| right; split; [eexists; reflexivity |];
         intros (_ & n & Hn & _); discriminate Hn].
    destruct (Sql.fits n) eqn:Hfits; cbn [negb].
    + right. split; [eexists; reflexivity |].
      intros (_ & k & Hk & Hout). injection Hk as <-.
      now apply Hout, fits_iff.
    + left. split; [reflexivity |]. split; [reflexivity |].
      exists n. split; [reflexivity |].
      intros Hin. apply fits_iff in Hin. congruence.
  - unfold get_user_by_id_or_username_overflows.
    destruct (is_admin cfg (from_user_id message)); cbn [andb];
      [| right; split; [eexists; reflexivity | now intros [Hfalse _]]].
    destruct (Py.int _) as [n |];
      [| right; split; [eexists; reflexivity |];
         intros (_ & n & Hn & _); discriminate Hn].
    destruct (Sql.fits n) eqn:Hfits; cbn [negb].
    + right. split; [eexists; reflexivity |].
      intros (_ & k & Hk & Hout). injection Hk as <-.
      now apply Hout, fits_iff.
    + left. split; [reflexivity |]. split; [reflexivity |].
      exists n. split; [reflexivity |].
      intros Hin. apply fits_iff in Hin. congruence.
  - right. split; [eexists; reflexivity |].
    intros (_ & n & Hn & _). discriminate Hn.
  - right. split; [| intros (_ & n & Hn & _); discriminate Hn].
    destruct (Hwc Hstate) as [(Hb & Hn & Hf) Ha].
    unfold purchase_comment_input.
    destruct (negb (is_admin cfg (from_user_id message)));
      [eexists; reflexivity |].
    destruct (d_user_id _); [| now elim Hb].
    destruct (d_username _); [| now elim Hn].
    destruct (d_first_name _); [| now elim Hf].
    destruct (d_amount _); [| now elim Ha].
    unfold add_purchase. eexists. reflexivity.
Qed.

(** A message without text is rejected, or ends in the exception. *)
Lemma textless_handler_effect cfg user_id db ctx awaited ctx' o :
  textless_handler awaited cfg user_id db ctx = returned (ctx', o) ->
  o_db o = db /\ ctx' = idle.
Proof.
  unfold textless_handler.
  destruct (negb (is_admin cfg user_id)); [| discriminate].
  intros Hrun. injection Hrun as <- <-. now split.
Qed.

Lemma step_keeps_ok cfg e s : system_ok cfg s -> system_ok cfg (step cfg e s).
Proof.
  intros [Hstore Hconv]. destruct e as [oracle now message
                                        | now partner_code message
                                        | sender
                                        | oracle now user_id payload];
    cbn [step].
  - destruct (cmd_start_keeps_store oracle now message (store s) Hstore)
      as [Hstore' Hmono].
    split; [exact Hstore' |]. intros user_id. cbn [store conversations].
    now apply (conversation_ok_mono cfg (store s)).
  - destruct (state (conversations s (from_user_id message)))
      as [awaited |] eqn:Hstate; [| now split].
    destruct (text_handler awaited cfg now partner_code message (store s)
                (conversations s (from_user_id message)))
      as [[ctx' o] | key | |] eqn:Hrun; try (now split).
    destruct (text_handler_keeps _ _ _ _ _ _ _ _ _ Hstore
                (Hconv (from_user_id message)) Hstate Hrun)
      as (Hstore' & Husers & Hctx').
    split; [exact Hstore' |]. intros user_id.
    cbn [store conversations]. unfold set_conversation.
    destruct (user_id =? from_user_id message) eqn:Hid.
    + apply Z.eqb_eq in Hid. now subst user_id.
    + apply (conversation_ok_mono cfg (store s)); [| apply Hconv].
      intros u. now apply known_user_same_users.
  - destruct (state (conversations s sender)) as [awaited |] eqn:Hstate;
      [| now split].
    destruct (textless_handler awaited cfg sender (store s)
                (conversations s sender))
      as [[ctx' o] | key | |] eqn:Hrun; try (now split).
    destruct (textless_handler_effect _ _ _ _ _ _ _ Hrun) as [Hdb ->].
    cbn [store conversations]. rewrite Hdb.
    split; [exact Hstore |]. intros user_id.
    cbn [store conversations]. unfold set_conversation.
    destruct (user_id =? sender); [apply idle_is_ok | apply Hconv].
  - destruct (callback_query cfg oracle now user_id payload (store s)
                (conversations s user_id))
      as [[[db' ctx'] pn] |] eqn:Hrun; [| now split].
    destruct (callback_query_effect _ _ _ _ _ _ _ _ _ _ Hrun)
      as [Hdb Hctx].
    assert (Hstore' : store_ok db'
                      /\ forall u, known_user (store s) u -> known_user db' u).
    { destruct Hdb as [-> | [verdict ->]]; [now split |].
      now apply update_subscription_keeps_store. }
    destruct Hstore' as [Hstore' Hmono].
    split; [exact Hstore' |]. intros k.
    cbn [store conversations]. unfold set_conversation.
    destruct (k =? user_id) eqn:Hid.
    + apply Z.eqb_eq in Hid. subst k.
      apply (conversation_ok_mono cfg (store s)); [exact Hmono |].
      destruct Hctx as [-> | (Hadmin & first & -> & Hwa & Hwc)];
        [apply Hconv |].
      destruct (Hconv user_id) as (Hb & Ha & _).
      unfold conversation_ok. cbn [set_state state data].
      split; [exact Hb | split; [exact Ha |]].
      split; [intros Hfirst; injection Hfirst as ->; now elim Hwa |].
      split; [intros Hfirst; injection Hfirst as ->; now elim Hwc |].
      intros Hfalse. rewrite Hadmin in Hfalse. discriminate.
    + apply (conversation_ok_mono cfg (store s)); [exact Hmono |].
      apply Hconv.
Qed.

Lemma run_keeps_ok cfg events s :
  system_ok cfg s -> system_ok cfg (run cfg events s).
Proof.
  revert s. induction events as [| e rest IH]; intros s Hs; [exact Hs |].
  cbn [run fold_left]. apply IH. now apply step_keeps_ok.
Qed.

Lemma boot_is_ok cfg : system_ok cfg boot.
Proof.
  split; [| intros user_id; apply idle_is_ok].
  unfold store_ok, numbered_from_one, boot, init_db. cbn.
  repeat split; constructor.
Qed.

Lemma reached_is_ok cfg events : system_ok cfg (run cfg events boot).
Proof. apply run_keeps_ok, boot_is_ok. Qed.

(** X5. However many updates arrive and in whatever order, the users
    table holds at most one row per account id. *)
Theorem one_row_per_account cfg events :
  NoDup (List.map u_user_id (users (store (run cfg events boot)))).
Proof. apply (reached_is_ok cfg events). Qed.

(** X6. No two partner rows ever share a code, however the handlers run:
    after [init_db] and any sequence of calls of the writing methods of
    [Database], with any arguments and in any order, the codes of the
    partners table are distinct, because [add_partner] inserts no code
    that is there and nothing else writes a code; in particular in every
    store that the updates reach. *)
Theorem partners_are_unique :
  (forall ws, NoDup (List.map p_partner_code (partners (written ws))))
  /\ (forall cfg events,
        NoDup
          (List.map p_partner_code (partners (store (run cfg events boot))))).
Proof.
  split.
  - intros ws. unfold written.
    assert (Hinit : NoDup (List.map p_partner_code (partners init_db)))
      by constructor.
    revert Hinit. generalize init_db.
    induction ws as [| w rest IH]; intros db Hdb; [exact Hdb |].
    cbn [fold_left]. now apply IH, apply_write_codes.
  - intros cfg events.
    now destruct (reached_is_ok cfg events) as [(_ & Hcodes & _) _].
Qed.

(** The table does not keep the handles apart: that is the check of
    [partner_add_process], and two additions that both pass it before
    either inserts leave two rows for one handle. *)
Example handles_rest_on_the_check :
  List.map p_username (partners (written two_adds_of_bob)) = ["bob"; "bob"]
  /\ List.map p_partner_code (partners (written two_adds_of_bob))
     = ["ABCDEFGH"; "HGFEDCBA"].
Proof. split; reflexivity. Qed.

(** X7. The purchases of every reached store are numbered 1, 2, ..., n in
    the order they were inserted, and the AUTOINCREMENT counter is n. *)
Theorem purchases_are_numbered cfg events :
  let db := store (run cfg events boot) in
  List.map pu_id (purchases db)
  = List.map Z.of_nat (seq 1 (List.length (purchases db)))
  /\ purchases_seq db = Z.of_nat (List.length (purchases db)).
Proof.
  destruct (reached_is_ok cfg events) as [(_ & _ & _ & Hnum & _) _].
  exact Hnum.
Qed.

(** X8. Every purchase row of a reached store names a buyer that has a
    user row, and carries an amount that is NULL or a real greater than
    zero, never a NaN: the flow resolves the buyer in the users table,
    users are never deleted, the amount step lets through what is not
    [<= 0], a NaN included, and SQLite stores a NaN as NULL. *)
Theorem purchases_have_a_buyer_and_an_amount cfg events p :
  let db := store (run cfg events boot) in
  In p (purchases db) ->
  (exists u, user_by_id (pu_user_id p) db = Some u)
  /\ (pu_amount p = None
      \/ exists amount,
           pu_amount p = Some amount
           /\ amount <> S754_nan
           /\ SFltb (S754_zero false) amount = true).
Proof.
  cbn zeta. intros Hin.
  destruct (reached_is_ok cfg events) as [(_ & _ & _ & _ & Hsales) _].
  rewrite Forall_forall in Hsales.
  destruct (Hsales p Hin) as [Hbuyer Hamount]. split.
  - unfold known_user in Hbuyer.
    destruct (user_by_id (pu_user_id p) _) as [u |]; [now exists u |].
    now elim Hbuyer.
  - destruct (pu_amount p) as [amount |]; [right | now left].
    exists amount. cbn [null_or_positive] in Hamount.
    repeat split; [| exact Hamount].
    intros ->. discriminate Hamount.
Qed.

(** X9. In a reached system a message with a text never ends the
    handler of the awaited state in a [KeyError]: the comment step finds
    [user_id], [username], [first_name] and [amount] in the FSM data.
    Nor does it end in an [AttributeError].  The handler returns, unless
    an administrator typed, as search query or as buyer, an integer
    outside SQLite's 64 bits: then, and only then, it ends in the
    [OverflowError] of [execute]. *)
Theorem text_handlers_find_their_data
    cfg events now partner_code message awaited :
  let s := run cfg events boot in
  let ended :=
    text_handler awaited cfg now partner_code message (store s)
      (conversations s (from_user_id message)) in
  let too_large :=
    is_admin cfg (from_user_id message) = true
    /\ exists n,
         typed_integer awaited (text message) = Some n
         /\ ~ - 2 ^ 63 <= n < 2 ^ 63 in
  state (conversations s (from_user_id message)) = Some awaited ->
  (forall key, ended <> KeyError key)
  /\ ended <> AttributeError
  /\ (ended = OverflowError <-> too_large)
  /\ (~ too_large -> exists r, ended = returned r).
Proof.
  cbn zeta. intros Hstate.
  destruct (reached_is_ok cfg events) as [_ Hconv].
  destruct (text_handler_ends cfg now partner_code message
              (store (run cfg events boot)) _ awaited
              (Hconv (from_user_id message)) Hstate)
    as [[Hend Hlarge] | [[r Hend] Hsmall]]; rewrite Hend.
  - split; [intros key; discriminate |]. split; [discriminate |].
    split; [split; intros _; [exact Hlarge | reflexivity] |].
    intros Hnot. now elim Hnot.
  - split; [intros key; discriminate |]. split; [discriminate |].
    split; [split; [discriminate | intros Hlarge; now elim Hsmall] |].
    intros _. now exists r.
Qed.

(** X10. An account outside [ADMIN_IDS] never holds a conversation: in
    every reached system its FSM context has no state and no data. *)
Theorem stranger_holds_no_conversation cfg events user_id :
  is_admin cfg user_id = false ->
  conversations (run cfg events boot) user_id = idle.
Proof.
  intros Hstranger.
  destruct (reached_is_ok cfg events) as [_ Hconv].
  destruct (Hconv user_id) as (_ & _ & _ & _ & Hidle). now apply Hidle.
Qed.

Lemma purchases_have_a_buyer_and_an_amount_witness :
  (exists u, user_by_id 42 (store (run admin_1 a_sale boot)) = Some u)
  /\ (Some fifteen_and_a_half = None
      \/ exists amount,
           Some fifteen_and_a_half = Some amount
           /\ amount <> S754_nan
           /\ SFltb (S754_zero false) amount = true).
Proof.
  apply (purchases_have_a_buyer_and_an_amount admin_1 a_sale
           {| pu_id := 1; pu_user_id := 42;
              pu_amount := Some fifteen_and_a_half;
              pu_comment := ""; pu_created_at := 230 |}).
  left. reflexivity.
Defined.

(** The amount "nan" is let through and stored as NULL. *)
Example a_nan_is_sold :
  List.map pu_amount
    (purchases
       (store
          (run admin_1
             [start_command (fun _ => None) 100 second_start_of_42;
              button_press (fun _ => None) 200 1 "purchase_add";
              text_message 210 "" (from_admin_1 "42");
              text_message 220 "" (from_admin_1 "nan");
              text_message 230 "" (from_admin_1 "-")]
             boot)))
  = [None].
Proof. reflexivity. Qed.

Lemma text_handlers_find_their_data_witness :
  state (conversations (run admin_1 up_to_the_comment boot) 1)
  = Some PurchaseStates_waiting_comment
  /\ exists r,
       text_handler PurchaseStates_waiting_comment admin_1 230 "ABCDEFGH"
         (from_admin_1 "-") (store (run admin_1 up_to_the_comment boot))
         (conversations (run admin_1 up_to_the_comment boot) 1)
       = returned r.
Proof.
  split; [reflexivity |].
  apply (text_handlers_find_their_data admin_1 up_to_the_comment 230
           "ABCDEFGH" (from_admin_1 "-") PurchaseStates_waiting_comment
           eq_refl).
  intros (_ & n & Htyped & _). discriminate Htyped.
Defined.

(** 2^63 typed as the buyer: the lookup raises, and the update changes
    nothing. *)
Example a_large_id_overflows :
  text_handler PurchaseStates_waiting_user_input admin_1 210 "ABCDEFGH"
    (from_admin_1 "9223372036854775808") one_user
    {| state := Some PurchaseStates_waiting_user_input; data := no_data |}
  = OverflowError
  /\ run admin_1
       [button_press (fun _ => None) 200 1 "purchase_add";
        text_message 210 "ABCDEFGH" (from_admin_1 "9223372036854775808")]
       boot
     = run admin_1 [button_press (fun _ => None) 200 1 "purchase_add"] boot.
Proof. split; reflexivity. Qed.

(** A photo sent by the administrator in the middle of a flow: the
    handler raises, and the flow stays where it was. *)
Example a_photo_changes_nothing :
  textless_handler PurchaseStates_waiting_amount admin_1 1 one_user
    awaiting_amount
  = AttributeError
  /\ run admin_1 (up_to_the_comment ++ [textless_message 1]) boot
     = run admin_1 up_to_the_comment boot.
Proof. split; reflexivity. Qed.

Lemma stranger_holds_no_conversation_witness :
  conversations
    (run admin_1
       [button_press (fun _ => None) 200 2 "purchase_add";
        text_message 210 "ABCDEFGH"
          {| from_user_id := 2; from_username := None;
             from_first_name := None; from_last_name := None;
             text := "42" |}]
       boot) 2
  = idle.
Proof.
  apply (stranger_holds_no_conversation admin_1
           [button_press (fun _ => None) 200 2 "purchase_add";
            text_message 210 "ABCDEFGH"
              {| from_user_id := 2; from_username := None;
                 from_first_name := None; from_last_name := None;
                 text := "42" |}]
           2).
  reflexivity.
Defined.

End Invariants.

(** ** Partners *)

Section Partners.

Lemma find_snoc_fresh {A} (f : A -> bool) (l : list A) (x : A) :
  List.find f l = None -> f x = true -> List.find f (l ++ [x]) = Some x.
Proof.
  induction l as [| y rest IH]; cbn [List.find app]; intros Hnone Hx.
  - now rewrite Hx.
  - destruct (f y); [discriminate | now apply IH].
Qed.

Lemma filter_snoc_fresh {A} (f : A -> bool) (l : list A) (x : A) :
  List.find f l = None -> f x = true ->
  List.filter (fun y => negb (f y)) (l ++ [x]) = l.
Proof.
  induction l as [| y rest IH]; cbn [List.find List.filter app];
    intros Hnone Hx.
  - now rewrite Hx.
  - destruct (f y); [discriminate |]. cbn [negb]. f_equal. now apply IH.
Qed.

(** X11. An administrator adds a handle that is no partner yet, under a
    code no partner has: the new row is found by that code and by that
    handle, it carries the handle with blanks and every [@] removed, and
    it is linked to the account of the user row with that handle, or to 0
    when no user has it. *)
Theorem added_partner_is_found cfg now partner_code message db ctx :
  let username := Py.replace (Py.strip (text message)) "@" "" in
  let db' :=
    o_db (snd (partner_add_process cfg now partner_code message db ctx)) in
  let row :=
    {| p_partner_code := partner_code; p_username := username;
       p_user_id :=
         Some (match get_user_by_username username db with
               | Some user => ud_user_id user
               | None => 0
               end);
       p_created_at := now |} in
  is_admin cfg (from_user_id message) = true ->
  get_partner_by_username username db = None ->
  get_partner_by_code partner_code db = None ->
  get_partner_by_code partner_code db' = Some row
  /\ get_partner_by_username username db' = Some row
  /\ partners db' = (partners db ++ [row])%list.
Proof.
  cbn zeta. intros Hadmin Hname Hcode.
  unfold partner_add_process. rewrite Hadmin. cbn [negb].
  rewrite Hname. unfold add_partner. rewrite Hcode. cbn [snd o_db].
  unfold get_partner_by_code, get_partner_by_username in *.
  cbn [partners with_partners].
  repeat split.
  - apply find_snoc_fresh; [exact Hcode | apply String.eqb_refl].
  - apply find_snoc_fresh; [exact Hname | apply String.eqb_refl].
Qed.

Lemma added_partner_is_found_witness :
  get_partner_by_code "ZZ99ZZ99"
    (o_db (snd (partner_add_process admin_1 300 "ZZ99ZZ99"
                  (from_admin_1 " @alice ") one_user idle)))
  = Some {| p_partner_code := "ZZ99ZZ99"; p_username := "alice";
            p_user_id := Some 0; p_created_at := 300 |}.
Proof.
  apply (added_partner_is_found admin_1 300 "ZZ99ZZ99"
           (from_admin_1 " @alice ") one_user idle eq_refl eq_refl eq_refl).
Defined.

(** X12. Adding a handle that is no partner and deleting it again, with
    the same text, gives back the store as it was, whether or not the
    code drawn for it was free. *)
Theorem add_then_delete_restores cfg now partner_code message db ctx ctx' :
  is_admin cfg (from_user_id message) = true ->
  get_partner_by_username (Py.replace (Py.strip (text message)) "@" "") db
  = None ->
  o_db (snd (partner_delete_process cfg message
               (o_db (snd (partner_add_process cfg now partner_code message
                             db ctx)))
               ctx'))
  = db.
Proof.
  intros Hadmin Hname.
  unfold partner_add_process, partner_delete_process.
  rewrite Hadmin. cbn [negb]. rewrite Hname. unfold add_partner.
  destruct (get_partner_by_code partner_code db) eqn:Hcode; cbn [snd o_db].
  - unfold remove_partner. now rewrite Hname.
  - unfold remove_partner, get_partner_by_username in *.
    cbn [partners with_partners]. rewrite find_snoc_fresh
      by (try exact Hname; apply String.eqb_refl).
    cbn [snd o_db]. unfold with_partners.
    cbn [users partners purchases purchases_seq].
    rewrite filter_snoc_fresh by (try exact Hname; apply String.eqb_refl).
    now destruct db.
Qed.

Lemma add_then_delete_restores_witness :
  o_db (snd (partner_delete_process admin_1 (from_admin_1 "alice")
               (o_db (snd (partner_add_process admin_1 300 "ZZ99ZZ99"
                             (from_admin_1 "alice") one_user idle)))
               idle))
  = one_user.
Proof.
  apply (add_then_delete_restores admin_1 300 "ZZ99ZZ99"
           (from_admin_1 "alice") one_user idle idle eq_refl eq_refl).
Defined.

End Partners.

(** ** From [/start] to the cabinet *)

Section Cabinet.

Lemma is_subscribed_after_update user_id verdict db :
  known_user db user_id ->
  is_subscribed user_id (update_subscription user_id verdict db) = verdict.
Proof.
  unfold known_user, is_subscribed. intros Hknown.
  rewrite user_by_id_update_subscription.
  destruct (user_by_id user_id db) as [u |] eqn:Hu; [| now elim Hknown].
  unfold user_by_id in Hu. apply find_some in Hu. destruct Hu as [_ Hid].
  cbn [option_map]. rewrite Hid. now destruct verdict.
Qed.

Lemma is_subscribed_of_another user_id verdict other db :
  other <> user_id ->
  is_subscribed other (update_subscription user_id verdict db)
  = is_subscribed other db.
Proof.
  intros Hother. unfold is_subscribed.
  rewrite user_by_id_update_subscription.
  destruct (user_by_id other db) as [u |] eqn:Hu; [| reflexivity].
  unfold user_by_id in Hu. apply find_some in Hu. destruct Hu as [_ Hid].
  apply Z.eqb_eq in Hid. cbn [option_map].
  replace (u_user_id u =? user_id) with false; [reflexivity |].
  symmetry. apply Z.eqb_neq. now rewrite Hid.
Qed.

Lemma update_subscription_of_nobody user_id verdict db :
  ~ known_user db user_id -> update_subscription user_id verdict db = db.
Proof.
  rewrite known_user_iff. intros Hnew. unfold update_subscription.
  replace (List.map _ (users db)) with (users db); [now destruct db |].
  rewrite <- (map_id (users db)) at 1. apply map_ext_in. intros u Hin.
  replace (u_user_id u =? user_id) with false; [reflexivity |].
  symmetry. apply Z.eqb_neq. intros Hid. apply Hnew. subst user_id.
  now apply in_map.
Qed.

(** X13. [update_subscription] and [is_subscribed] agree: for an account
    with a user row the stored verdict is read back; the verdict of every
    other account is untouched; and for an account without a row nothing
    is written at all, so [is_subscribed] stays false. *)
Theorem subscription_flag_reads_back user_id verdict db :
  (known_user db user_id ->
   is_subscribed user_id (update_subscription user_id verdict db) = verdict)
  /\ (forall other,
        other <> user_id ->
        is_subscribed other (update_subscription user_id verdict db)
        = is_subscribed other db)
  /\ (~ known_user db user_id ->
      update_subscription user_id verdict db = db
      /\ is_subscribed user_id (update_subscription user_id verdict db)
         = false).
Proof.
  split; [apply is_subscribed_after_update |].
  split; [intros other; apply is_subscribed_of_another |].
  intros Hnew. rewrite (update_subscription_of_nobody _ _ _ Hnew).
  split; [reflexivity |].
  unfold is_subscribed, known_user in *.
  destruct (user_by_id user_id db); [elim Hnew; discriminate | reflexivity].
Qed.

Lemma subscription_flag_reads_back_witness :
  is_subscribed 42 (update_subscription 42 true one_user) = true
  /\ is_subscribed 42 (update_subscription 7 true one_user)
     = is_subscribed 42 one_user
  /\ update_subscription 7 true one_user = one_user.
Proof.
  split; [| split].
  - apply (proj1 (subscription_flag_reads_back 42 true one_user)).
    unfold known_user. discriminate.
  - apply (proj1 (proj2 (subscription_flag_reads_back 7 true one_user))).
    discriminate.
  - apply (proj2 (proj2 (subscription_flag_reads_back 7 true one_user))).
    unfold known_user. intros Hnone. now apply Hnone.
Defined.

Lemma cmd_start_registers now message db :
  known_user
    (start_link_partner message (fst (start_registration now message db)))
    (from_user_id message).
Proof.
  apply (known_user_same_users (fst (start_registration now message db)));
    [apply start_link_partner_users |].
  unfold start_registration.
  destruct (start_ref_code (text message) db) as [ref log]. cbn [fst].
  destruct (add_user_registers now (from_user_id message)
              (from_username message) (from_first_name message)
              (from_last_name message) ref db) as [u Hu].
  unfold known_user. now rewrite Hu.
Qed.

Lemma is_subscribed_after_start oracle now message db :
  is_subscribed (from_user_id message) (o_db (cmd_start oracle now message db))
  = fst (check_subscription oracle (from_user_id message)).
Proof.
  rewrite cmd_start_db. apply is_subscribed_after_update.
  apply cmd_start_registers.
Qed.

(** X14. The gate of [/ref] follows the last [/start]: after a [/start]
    the cached flag of the account is the oracle's verdict, so an account
    whose membership the oracle denies, or cannot check, is sent back to
    the subscription prompt, whatever the store holds about it. *)
Theorem ref_after_start_is_gated oracle now now' message later db :
  from_user_id later = from_user_id message ->
  let db' := o_db (cmd_start oracle now message db) in
  is_subscribed (from_user_id message) db'
  = fst (check_subscription oracle (from_user_id message))
  /\ (fst (check_subscription oracle (from_user_id message)) = false ->
      cmd_ref now' later db' = subscription_needed get_subscription_keyboard).
Proof.
  intros Hsame. cbn zeta. split; [apply is_subscribed_after_start |].
  intros Hdenied. unfold cmd_ref.
  now rewrite Hsame, is_subscribed_after_start, Hdenied.
Qed.

Lemma ref_after_start_is_gated_witness :
  cmd_ref 950 second_start_of_42
    (o_db (cmd_start left_the_channel 900 second_start_of_42 one_user))
  = subscription_needed get_subscription_keyboard.
Proof.
  apply (ref_after_start_is_gated left_the_channel 900 950
           second_start_of_42 second_start_of_42 one_user eq_refl).
  reflexivity.
Defined.

(** X15. A partner row that waits for its account is linked by the first
    [/start] of an account that carries its handle: the row, at its place
    in the table, gets that account id, the account from then on has a
    partner code, and once the oracle confirms the membership [/ref]
    opens its cabinet. *)
Theorem handle_links_partner_at_start
    oracle now now' message later db i p handle :
  from_username message = Some handle ->
  Py.is_empty handle = false ->
  nth_error (partners db) i = Some p ->
  p_username p = handle ->
  unlinked p = true ->
  from_user_id later = from_user_id message ->
  let db' := o_db (cmd_start oracle now message db) in
  nth_error (partners db') i
  = Some {| p_partner_code := p_partner_code p; p_username := p_username p;
            p_user_id := Some (from_user_id message);
            p_created_at := p_created_at p |}
  /\ exists code,
       get_user_partner_code (from_user_id message) db' = Some code
       /\ (fst (check_subscription oracle (from_user_id message)) = true ->
           Py.is_empty code = false ->
           cmd_ref now' later db'
           = cabinet (from_user_id message) code
               (get_partner_stats now' code db') (cabinet_keyboard code)).
Proof.
  intros Hhandle Hne Hnth Hname Hunlinked Hsame. cbn zeta.
  assert (Hrow : nth_error
                   (partners (o_db (cmd_start oracle now message db))) i
                 = Some {| p_partner_code := p_partner_code p;
                           p_username := p_username p;
                           p_user_id := Some (from_user_id message);
                           p_created_at := p_created_at p |}).
  { rewrite cmd_start_partners. unfold start_link_partner.
    rewrite Hhandle, Hne, update_partner_user_id_nth, Hnth.
    cbn [option_map]. now rewrite Hname, String.eqb_refl, Hunlinked. }
  split; [exact Hrow |].
  apply nth_error_In in Hrow.
  destruct (find_present
              (fun q => match p_user_id q with
                        | Some k => k =? from_user_id message
                        | None => false
                        end)
              _ _ Hrow (Z.eqb_refl _)) as (q & Hfind & _).
  exists (p_partner_code q). unfold get_user_partner_code at 1.
  rewrite Hfind. split; [reflexivity |].
  intros Hmember Hcode. unfold cmd_ref.
  rewrite Hsame, is_subscribed_after_start, Hmember. cbn [negb].
  unfold get_user_partner_code. rewrite Hfind. cbn [option_map Py.truthy].
  now rewrite Hcode.
Qed.

Lemma handle_links_partner_at_start_witness :
  nth_error
    (partners
       (o_db (cmd_start (fun _ => Some "member") 900
                {| from_user_id := 7; from_username := Some "bob";
                   from_first_name := Some "Bob"; from_last_name := None;
                   text := "/start" |}
                one_partner))) 0
  = Some linked_partner.
Proof.
  apply (handle_links_partner_at_start (fun _ => Some "member") 900 950
           {| from_user_id := 7; from_username := Some "bob";
              from_first_name := Some "Bob"; from_last_name := None;
              text := "/start" |}
           {| from_user_id := 7; from_username := Some "bob";
              from_first_name := Some "Bob"; from_last_name := None;
              text := "/ref" |}
           one_partner 0%nat partner_ABCDEFGH "bob"
           eq_refl eq_refl eq_refl eq_refl eq_refl eq_refl).
Defined.

End Cabinet.

(** ** Attribution and the statistics *)

Section Attribution.

Lemma filter_insert_user_length (cond : user_row -> bool) r rows :
  List.length (List.filter cond (insert_user r rows))
  = ((if cond r then 1 else 0) + List.length (List.filter cond rows))%nat.
Proof.
  induction rows as [| x rest IH]; cbn [insert_user].
  - cbn [List.filter]. destruct (cond r); reflexivity.
  - destruct (u_user_id r <? u_user_id x); cbn [List.filter].
    + destruct (cond r); reflexivity.
    + destruct (cond x); cbn [List.length]; rewrite IH;
        destruct (cond r); lia.
Qed.

Lemma filter_map_length {A} (cond : A -> bool) (f : A -> A) (l : list A) :
  (forall x, cond (f x) = cond x) ->
  List.length (List.filter cond (List.map f l))
  = List.length (List.filter cond l).
Proof.
  intros Hf. induction l as [| x rest IH]; [reflexivity |].
  cbn [List.map List.filter]. rewrite Hf.
  destruct (cond x); cbn [List.length]; now rewrite IH.
Qed.

(** The statistics read the referral code and the registration time of
    the user rows, and nothing else of the store. *)
Lemma stats_after_start oracle now message t1 t2 t3 partner_code db :
  get_partner_stats_at t1 t2 t3 partner_code
    (o_db (cmd_start oracle now message db))
  = get_partner_stats_at t1 t2 t3 partner_code
      (fst (start_registration now message db)).
Proof.
  rewrite cmd_start_db. unfold get_partner_stats_at, count_users.
  rewrite update_subscription_users, start_link_partner_users.
  f_equal; f_equal; apply filter_map_length; intros u;
    now destruct (u_user_id u =? from_user_id message).
Qed.

Lemma start_ref_code_of_partner text db command code rest p :
  Py.split text = command :: ("ref_" ++ code) :: rest ->
  string_forall is_code_char code = true ->
  get_partner_by_code code db = Some p ->
  start_ref_code text db = (Some code, []).
Proof.
  intros Hsplit Hcode Hp. unfold start_ref_code. rewrite Hsplit.
  change (Py.startswith ("ref_" ++ code) "ref_") with true. cbv iota.
  change (Py.replace ("ref_" ++ code) "ref_" "")
    with (Py.replace code "ref_" "").
  rewrite replace_without_head
    by (apply (string_forall_impl is_code_char); [| exact Hcode];
        apply code_char_lacks_r).
  now rewrite Hp.
Qed.

(** X16. A referral is counted once.  When an account without a user row
    starts the bot with [ref_<code>], the code of a partner, the all-time
    count of that partner grows by one and the four counts of every other
    code stay as they were; and the same [/start] from an account that
    has a row changes no count of any code. *)
Theorem referral_is_counted_once
    oracle now now' message db command code rest p :
  Py.split (text message) = command :: ("ref_" ++ code) :: rest ->
  string_forall is_code_char code = true ->
  get_partner_by_code code db = Some p ->
  let db' := o_db (cmd_start oracle now message db) in
  (~ known_user db (from_user_id message) ->
   total (get_partner_stats now' code db')
   = total (get_partner_stats now' code db) + 1
   /\ forall other,
        other <> code ->
        get_partner_stats now' other db' = get_partner_stats now' other db)
  /\ (known_user db (from_user_id message) ->
      forall any,
        get_partner_stats now' any db' = get_partner_stats now' any db).
Proof.
  intros Hsplit Hcode Hp. cbn zeta. unfold get_partner_stats.
  split.
  - intros Hnew. rewrite !stats_after_start.
    assert (Hreg : fst (start_registration now message db)
                   = with_users db
                       (insert_user
                          {| u_user_id := from_user_id message;
                             u_username := from_username message;
                             u_first_name := from_first_name message;
                             u_last_name := from_last_name message;
                             u_is_subscribed := 0; u_partner_code := None;
                             u_registered_at := now;
                             u_ref_partner_code := Some code |}
                          (users db))).
    { unfold start_registration.
      rewrite (start_ref_code_of_partner _ _ _ _ _ _ Hsplit Hcode Hp).
      cbn [fst]. unfold add_user, known_user in *.
      destruct (user_by_id (from_user_id message) db); [| reflexivity].
      elim Hnew. discriminate. }
    split.
    + rewrite Hreg. unfold get_partner_stats_at, count_users.
      cbn [total users with_users].
      rewrite filter_insert_user_length. cbn [u_ref_partner_code Sql.text_eq].
      rewrite String.eqb_refl. lia.
    + intros other Hother. intros. rewrite stats_after_start, Hreg.
      unfold get_partner_stats_at, count_users. cbn [users with_users].
      rewrite !filter_insert_user_length.
      cbn [u_ref_partner_code Sql.text_eq].
      replace (String.eqb code other) with false; [reflexivity |].
      symmetry. apply String.eqb_neq. congruence.
  - intros Hknown any. rewrite stats_after_start.
    unfold known_user in Hknown.
    destruct (user_by_id (from_user_id message) db) as [u |] eqn:Hu;
      [| now elim Hknown].
    now rewrite (start_registration_known now message db u Hu).
Qed.

Lemma referral_is_counted_once_witness :
  total (get_partner_stats 950 "ABCDEFGH"
           (o_db (cmd_start left_the_channel 900
                    {| from_user_id := 7; from_username := None;
                       from_first_name := Some "Eve"; from_last_name := None;
                       text := "/start ref_ABCDEFGH" |}
                    one_user)))
  = total (get_partner_stats 950 "ABCDEFGH" one_user) + 1.
Proof.
  refine (proj1 (proj1
    (referral_is_counted_once left_the_channel 900 950
       {| from_user_id := 7; from_username := None;
          from_first_name := Some "Eve"; from_last_name := None;
          text := "/start ref_ABCDEFGH" |}
       one_user "/start" "ABCDEFGH" [] partner_ABCDEFGH
       eq_refl eq_refl eq_refl) _)).
  intros Hknown. now apply Hknown.
Defined.

End Attribution.

(** ** Walking through the pages *)

Section Pages.

Lemma place_perm {A} (le : A -> A -> bool) (x : A) (rows : list A) :
  Permutation (Sql.place le x rows) (x :: rows).
Proof.
  induction rows as [| y rest IH]; cbn [Sql.place]; [reflexivity |].
  destruct (le x y); [reflexivity |]. rewrite IH. apply perm_swap.
Qed.

Lemma order_by_perm {A} (le : A -> A -> bool) (rows : list A) :
  Permutation (Sql.order_by le rows) rows.
Proof.
  unfold Sql.order_by.
  induction rows as [| x rest IH]; cbn [fold_right]; [reflexivity |].
  rewrite place_perm. now constructor.
Qed.

Lemma order_by_length {A} (le : A -> A -> bool) (rows : list A) :
  List.length (Sql.order_by le rows) = List.length rows.
Proof. apply Permutation_length, order_by_perm. Qed.

Lemma place_sorted {A} (le : A -> A -> bool) (x : A) (rows : list A) :
  (forall a b, le a b = false -> le b a = true) ->
  (forall a b c, le a b = true -> le b c = true -> le a c = true) ->
  StronglySorted (fun a b => le a b = true) rows ->
  StronglySorted (fun a b => le a b = true) (Sql.place le x rows).
Proof.
  intros Htotal Htrans. induction rows as [| y rest IH]; intros Hsorted;
    cbn [Sql.place].
  - repeat constructor.
  - apply StronglySorted_inv in Hsorted. destruct Hsorted as [Hrest Hy].
    destruct (le x y) eqn:Hxy.
    + constructor; [now constructor |].
      constructor; [exact Hxy |].
      eapply Forall_impl; [| exact Hy]. intros z Hz. now apply Htrans with y.
    + constructor; [now apply IH |].
      apply (Permutation_Forall (Permutation_sym (place_perm le x rest))).
      constructor; [now apply Htotal | exact Hy].
Qed.

Lemma order_by_sorted {A} (le : A -> A -> bool) (rows : list A) :
  (forall a b, le a b = false -> le b a = true) ->
  (forall a b c, le a b = true -> le b c = true -> le a c = true) ->
  StronglySorted (fun a b => le a b = true) (Sql.order_by le rows).
Proof.
  intros Htotal Htrans. unfold Sql.order_by.
  induction rows as [| x rest IH]; cbn [fold_right]; [constructor |].
  now apply place_sorted.
Qed.

Lemma firstn_add {A} (a b : nat) (l : list A) :
  firstn (a + b) l = (firstn a l ++ firstn b (skipn a l))%list.
Proof.
  revert l. induction a as [| a IH]; intros l; [reflexivity |].
  destruct l as [| x rest]; cbn [Nat.add firstn skipn app].
  - now rewrite firstn_nil.
  - now rewrite IH.
Qed.

Lemma slices_tile {A} (size n : nat) (l : list A) :
  List.concat (List.map (fun k => firstn size (skipn (size * k) l)) (seq 0 n))
  = firstn (size * n) l.
Proof.
  induction n as [| n IH]; [now rewrite Nat.mul_0_r |].
  rewrite seq_S, map_app, concat_app, IH. cbn [List.map List.concat Nat.add].
  rewrite app_nil_r, Nat.mul_succ_r. symmetry. apply firstn_add.
Qed.

(** X17. Beyond the end.  For a page index [page >= 0] with
    [page * size >= total], the users view and the purchases view show no
    row, answer with the "nothing found" text, and offer no next-page
    button. *)
Theorem page_beyond_the_end_is_empty cfg admin page db :
  0 <= page ->
  is_admin cfg admin = true ->
  (Z.of_nat (List.length (users db)) <= page * 15 ->
   (exists kb, show_users_page page None db = no_users kb)
   /\ offers (users_page (page + 1)) (show_users_page page None db) = false)
  /\ (Z.of_nat (List.length (purchases db)) <= page * 10 ->
      (exists kb, show_purchases_page cfg admin page db = no_purchases kb)
      /\ offers (purchases_page (page + 1))
           (show_purchases_page cfg admin page db) = false).
Proof.
  intros Hpage Hadmin. split; intros Hbeyond; split.
  - unfold show_users_page, get_all_users, Sql.limit_offset.
    cbn [Py.truthy]. rewrite skipn_all2
      by (rewrite order_by_length; lia).
    cbn. eexists. reflexivity.
  - rewrite offers_users_page, nav_row_next by reflexivity.
    apply andb_false_iff. right. apply Z.ltb_ge. lia.
  - unfold show_purchases_page, get_all_purchases, Sql.limit_offset.
    rewrite Hadmin. cbn [negb]. rewrite skipn_all2
      by (rewrite order_by_length; lia).
    cbn. eexists. reflexivity.
  - rewrite (offers_purchases_page _ _ _ _ _ Hadmin), nav_row_next
      by reflexivity.
    apply andb_false_iff. right. apply Z.ltb_ge. lia.
Qed.

Lemma page_beyond_the_end_is_empty_witness :
  (exists kb, show_users_page 1 None one_user = no_users kb)
  /\ offers (users_page (1 + 1)) (show_users_page 1 None one_user) = false.
Proof.
  apply (proj1 (page_beyond_the_end_is_empty admin_1 1 1 one_user
                  ltac:(lia) eq_refl)).
  cbn. lia.
Defined.

(** X18. Walking the users list from page 0 on shows every user row
    exactly once, newest first: the pages 0, ..., n-1 put end to end are
    the first [15 * n] rows of one list, that list is a rearrangement of
    the users table in non-increasing order of registration time, and
    once [15 * n] reaches the number of users the pages are the whole
    list. *)
Theorem pages_show_every_user_once n db :
  let rows := Sql.order_by newest_first (users db) in
  List.concat
    (List.map
       (fun k => shown_users (show_users_page (Z.of_nat k) None db))
       (seq 0 n))
  = List.map (list_user db) (firstn (15 * n) rows)
  /\ Permutation rows (users db)
  /\ StronglySorted
       (fun x y => u_registered_at y <= u_registered_at x) rows
  /\ ((List.length (users db) <= 15 * n)%nat ->
      firstn (15 * n) rows = rows).
Proof.
  cbn zeta. split; [| split; [apply order_by_perm | split]].
  - rewrite <- slices_tile, concat_map, map_map.
    f_equal. apply map_ext. intros k.
    rewrite shown_users_page by lia.
    do 3 f_equal. lia.
  - assert (Hsorted : StronglySorted (fun a b => newest_first a b = true)
                        (Sql.order_by newest_first (users db))).
    { apply order_by_sorted; unfold newest_first.
      - intros a b Hab. apply Z.leb_gt in Hab. apply Z.leb_le. lia.
      - intros a b c Hab Hbc. apply Z.leb_le in Hab, Hbc.
        apply Z.leb_le. lia. }
    induction Hsorted as [| x rest Hrest IH Hx]; constructor;
      [exact IH |].
    eapply Forall_impl; [| exact Hx]. intros y Hy. now apply Z.leb_le.
  - intros Hall. apply firstn_all2. now rewrite order_by_length.
Qed.

Lemma pages_show_every_user_once_witness :
  shown_users (show_users_page 0 None one_user)
  = List.map (list_user one_user)
      (Sql.order_by newest_first (users one_user)).
Proof.
  destruct (pages_show_every_user_once 1 one_user)
    as (Hpages & _ & _ & Hall).
  cbn [seq List.map List.concat Z.of_nat] in Hpages.
  rewrite app_nil_r in Hpages. rewrite Hpages, Hall; [reflexivity |].
  cbn. lia.
Defined.

End Pages.

(** ** The users a partner referred *)

Section Referred.

Lemma get_users_by_ref_length partner_code limit db :
  0 <= limit ->
  Z.of_nat (List.length (get_users_by_ref partner_code limit 0 db))
  = Z.min limit
      (Z.of_nat
         (List.length (List.filter (referred_by partner_code) (users db)))).
Proof.
  intros Hlimit. unfold get_users_by_ref, Sql.limit_offset.
  replace (limit <? 0) with false by (symmetry; apply Z.ltb_ge; lia).
  cbn [Z.to_nat skipn].
  rewrite length_map, length_firstn, order_by_length. lia.
Qed.

(** X19. The users view of a partner and the all-time count of the
    cabinet agree up to the cap of 50 rows: the view says "nobody yet"
    exactly when the count is 0, and otherwise lists, and announces,
    [min 50 total] users. *)
Theorem referred_users_match_the_count now payload db :
  let code := Py.replace payload "ref_users_" "" in
  let all := total (get_partner_stats now code db) in
  (all = 0 -> exists kb, ref_users_list payload db = no_referred_users kb)
  /\ (0 < all ->
      exists sales rows kb,
        ref_users_list payload db
        = referred_users (Z.min 50 all) sales rows kb
        /\ Z.of_nat (List.length rows) = Z.min 50 all).
Proof.
  cbn zeta.
  pose proof (get_users_by_ref_length (Py.replace payload "ref_users_" "")
                50 db ltac:(lia)) as Hlen.
  change (total (get_partner_stats now (Py.replace payload "ref_users_" "")
                   db))
    with (Z.of_nat
            (List.length
               (List.filter (referred_by (Py.replace payload "ref_users_" ""))
                  (users db)))).
  unfold ref_users_list.
  destruct (get_users_by_ref (Py.replace payload "ref_users_" "") 50 0 db)
    as [| user rest] eqn:Husers.
  - split; [intros _; eexists; reflexivity |].
    intros Hpos. cbn [List.length] in Hlen. lia.
  - split; [intros Hzero; cbn [List.length] in Hlen; lia |].
    intros _. rewrite Hlen. eexists _, _, _. split; [reflexivity |].
    now rewrite length_map.
Qed.

Lemma referred_users_match_the_count_witness :
  exists sales rows kb,
    ref_users_list "ref_users_ABCDEFGH" store_with_a_sale
    = referred_users 1 sales rows kb
    /\ Z.of_nat (List.length rows) = 1.
Proof.
  apply (proj2 (referred_users_match_the_count 900 "ref_users_ABCDEFGH"
                  store_with_a_sale)).
  reflexivity.
Defined.

Lemma in_firstn {A} (n : nat) (l : list A) (x : A) :
  In x (firstn n l) -> In x l.
Proof.
  intros Hin. rewrite <- (firstn_skipn n l). apply in_or_app. now left.
Qed.

Lemma in_skipn {A} (n : nat) (l : list A) (x : A) :
  In x (skipn n l) -> In x l.
Proof.
  intros Hin. rewrite <- (firstn_skipn n l). apply in_or_app. now right.
Qed.

Lemma in_limit_offset {A} (limit offset : Z) (l : list A) (x : A) :
  In x (Sql.limit_offset limit offset l) -> In x l.
Proof.
  unfold Sql.limit_offset. intros Hin.
  destruct (limit <? 0).
  - apply (in_skipn _ _ _ Hin).
  - apply (in_skipn (Z.to_nat offset)). apply (in_firstn _ _ _ Hin).
Qed.

Lemma in_get_users_by_ref partner_code limit offset db user :
  In user (get_users_by_ref partner_code limit offset db) ->
  In (fst user) (users db) /\ referred_by partner_code (fst user) = true.
Proof.
  unfold get_users_by_ref. intros Hin. apply in_map_iff in Hin.
  destruct Hin as (u & <- & Hin). cbn [list_user fst].
  apply in_limit_offset in Hin.
  apply (Permutation_in _ (order_by_perm _ _)) in Hin.
  now apply filter_In in Hin.
Qed.

Lemma in_get_purchases_by_ref partner_code db sale :
  In sale (get_purchases_by_ref partner_code db)
  <-> In (fst sale) (purchases db)
      /\ user_by_id (pu_user_id (fst sale)) db = Some (snd sale)
      /\ referred_by partner_code (snd sale) = true.
Proof.
  unfold get_purchases_by_ref. split.
  - intros Hin. apply (Permutation_in _ (order_by_perm _ _)) in Hin.
    apply in_flat_map in Hin. destruct Hin as (p & Hp & Hin).
    unfold purchase_of_ref in Hin.
    destruct (user_by_id (pu_user_id p) db) as [u |] eqn:Hu; [| easy].
    destruct (referred_by partner_code u) eqn:Href; [| easy].
    destruct Hin as [<- | []]. cbn [fst snd]. easy.
  - intros (Hp & Hu & Href).
    apply (Permutation_in _ (Permutation_sym (order_by_perm _ _))).
    apply in_flat_map. exists (fst sale). split; [exact Hp |].
    unfold purchase_of_ref. rewrite Hu, Href. left. now destruct sale.
Qed.

Lemma user_by_id_unique db u :
  NoDup (List.map u_user_id (users db)) ->
  In u (users db) ->
  user_by_id (u_user_id u) db = Some u.
Proof.
  unfold user_by_id. induction (users db) as [| x rest IH];
    cbn [List.map List.find]; intros Hnodup Hin; [contradiction |].
  apply NoDup_cons_iff in Hnodup. destruct Hnodup as [Hx Hrest].
  destruct Hin as [-> | Hin].
  - now rewrite Z.eqb_refl.
  - destruct (u_user_id x =? u_user_id u) eqn:Hid; [| now apply IH].
    apply Z.eqb_eq in Hid. elim Hx. rewrite Hid. now apply in_map.
Qed.

(** X20. In the users view of a partner every listed account was referred
    by the code of the button, and the purchases shown under an account
    are purchases of the store made by that account; when the users table
    has one row per id they are all of them. *)
Theorem referred_users_carry_their_purchases
    payload db users_n sales_n rows kb user sales :
  let code := Py.replace payload "ref_users_" "" in
  ref_users_list payload db = referred_users users_n sales_n rows kb ->
  In (user, sales) rows ->
  In (fst user) (users db)
  /\ u_ref_partner_code (fst user) = Some code
  /\ (forall sale,
        In sale sales ->
        In (fst sale) (purchases db)
        /\ pu_user_id (fst sale) = u_user_id (fst user))
  /\ (NoDup (List.map u_user_id (users db)) ->
      forall p,
        In p (purchases db) ->
        pu_user_id p = u_user_id (fst user) ->
        In (p, fst user) sales).
Proof.
  cbn zeta. unfold ref_users_list.
  destruct (get_users_by_ref (Py.replace payload "ref_users_" "") 50 0 db)
    as [| first rest] eqn:Husers; [discriminate |].
  intros Hview Hin. injection Hview as _ _ <- _.
  assert (Hlisted : exists listed,
             In listed (first :: rest)
             /\ (listed,
                 List.filter
                   (fun p : purchase_row * user_row =>
                      pu_user_id (fst p) =? u_user_id (fst listed))
                   (get_purchases_by_ref (Py.replace payload "ref_users_" "")
                      db))
                = (user, sales)).
  { destruct Hin as [Hpair | Hin].
    - exists first. split; [now left | exact Hpair].
    - apply in_map_iff in Hin. destruct Hin as (listed & Hpair & Hin).
      exists listed. split; [now right | exact Hpair]. }
  clear Hin. destruct Hlisted as (listed & Hin & Hpair).
  injection Hpair as <- <-. rewrite <- Husers in Hin.
  apply in_get_users_by_ref in Hin. destruct Hin as [Huser Href].
  split; [exact Huser |]. split.
  { unfold referred_by, Sql.text_eq in Href.
    destruct (u_ref_partner_code (fst listed)) as [c |]; [| discriminate].
    apply String.eqb_eq in Href. now subst c. }
  split.
  - intros sale Hsale. apply filter_In in Hsale.
    destruct Hsale as [Hsale Hid]. apply Z.eqb_eq in Hid.
    apply in_get_purchases_by_ref in Hsale. easy.
  - intros Hnodup p Hp Hid. apply filter_In. cbn [fst].
    split; [| now apply Z.eqb_eq].
    apply in_get_purchases_by_ref. cbn [fst snd].
    split; [exact Hp |]. split; [| exact Href].
    rewrite Hid. now apply user_by_id_unique.
Qed.

Lemma referred_users_carry_their_purchases_witness :
  In referred_42 (users store_with_a_sale)
  /\ u_ref_partner_code referred_42 = Some "ABCDEFGH"
  /\ (forall sale,
        In sale [(sale_1, referred_42)] ->
        In (fst sale) (purchases store_with_a_sale)
        /\ pu_user_id (fst sale) = 42).
Proof.
  destruct (referred_users_carry_their_purchases "ref_users_ABCDEFGH"
              store_with_a_sale 1 1
              [((referred_42, Some "bob"), [(sale_1, referred_42)])]
              [["ref_stats_ABCDEFGH"]; ["ref_menu"]]
              (referred_42, Some "bob") [(sale_1, referred_42)]
              eq_refl (or_introl eq_refl))
    as (Huser & Hcode & Hsales & _).
  split; [exact Huser |]. split; [exact Hcode | exact Hsales].
Defined.

End Referred.

(** ** Searching users *)

Section Search.

Lemma replace_at_lacks_at (s : string) :
  string_forall (lacks "@") (Py.replace s "@" "") = true.
Proof.
  unfold Py.replace. induction s as [| c r IH]; [reflexivity |].
  cbn [Py.replace_from Py.startswith String.length Nat.sub].
  rewrite andb_true_r.
  destruct (Ascii.eqb "@" c) eqn:Hc; cbn [String.append string_forall].
  - exact IH.
  - unfold lacks at 1. now rewrite Hc, IH.
Qed.

(** X21. [search_users] ignores every [@] of the query, so a query of
    [@] and digits is a search by account id, unlike the identifier of
    the add-purchase flow. *)
Theorem search_ignores_at_signs query db :
  search_users query db = search_users (Py.replace query "@" "") db.
Proof.
  unfold search_users.
  now rewrite (replace_without_head "@" "" "" (Py.replace query "@" ""))
    by apply replace_at_lacks_at.
Qed.

Example search_at_42_is_by_id :
  search_users "@42" one_user = [list_user one_user user_42]
  /\ get_user_by_id_or_username "@42" one_user = None.
Proof. split; reflexivity. Qed.

Lemma like_everything (s : string) : Sql.like_pattern "%" s = true.
Proof.
  induction s as [| c r IH]; [reflexivity |].
  cbn [Sql.like_pattern] in *. rewrite IH. apply orb_true_r.
Qed.

Lemma lower_percent (d : ascii) :
  Py.lower "%" = Py.lower d -> d = "%"%char.
Proof.
  destruct d as [[] [] [] [] [] [] [] []]; try reflexivity; discriminate.
Qed.

Lemma lower_underscore (d : ascii) :
  Py.lower "_" = Py.lower d -> d = "_"%char.
Proof.
  destruct d as [[] [] [] [] [] [] [] []]; try reflexivity; discriminate.
Qed.

Lemma like_skips (p : string) (c : ascii) (s : string) :
  Sql.like_pattern (String "%" p) s = true ->
  Sql.like_pattern (String "%" p) (String c s) = true.
Proof.
  cbn [Sql.like_pattern]. intros Hs. rewrite Hs. apply orb_true_r.
Qed.

Lemma like_percent_here (p s : string) :
  Sql.like_pattern p s = true -> Sql.like_pattern (String "%" p) s = true.
Proof.
  intros Hs. cbn [Sql.like_pattern]. destruct s; now rewrite Hs.
Qed.

(** A pattern matches a text that spells it, up to the case of the ASCII
    letters, followed by anything. *)
Lemma like_same_letters (part found rest : string) :
  Py.lowercase part = Py.lowercase found ->
  Sql.like_pattern (part ++ "%") (found ++ rest) = true.
Proof.
  revert found. induction part as [| c part IH]; intros found Hsame.
  - destruct found; [| discriminate]. apply like_everything.
  - destruct found as [| d found]; [discriminate |].
    cbn [Py.lowercase] in Hsame. injection Hsame as Hc Hrest.
    specialize (IH found Hrest).
    assert (Hletter : Sql.same_letter c d = true).
    { unfold Sql.same_letter. rewrite Hc. apply Ascii.eqb_refl. }
    change (String c part ++ "%")%string with (String c (part ++ "%")).
    change (String d found ++ rest)%string with (String d (found ++ rest)).
    destruct (Ascii.eqb c "%") eqn:Hpercent.
    { apply Ascii.eqb_eq in Hpercent. subst c.
      apply like_skips, like_percent_here, IH. }
    destruct (Ascii.eqb c "_") eqn:Hunder.
    { apply Ascii.eqb_eq in Hunder. subst c. exact IH. }
    apply Ascii.eqb_neq in Hpercent, Hunder.
    destruct c as [[] [] [] [] [] [] [] []];
      try (now elim Hpercent); try (now elim Hunder);
      cbn [Sql.like_pattern]; now rewrite Hletter, IH.
Qed.

Lemma like_inside (part before found rest : string) :
  Py.lowercase part = Py.lowercase found ->
  Sql.like_pattern ("%" ++ part ++ "%") (before ++ found ++ rest) = true.
Proof.
  intros Hsame.
  change ("%" ++ part ++ "%")%string with (String "%" (part ++ "%")).
  induction before as [| c before IH]; cbn [String.append].
  - apply like_percent_here. now apply like_same_letters.
  - apply like_skips, IH.
Qed.

(** X22. A query that is not a number finds every user one of whose
    names (handle, first name, last name) contains the query, cleaned of
    [@] and of blanks at both ends, whatever the case of the ASCII
    letters. *)
Theorem search_finds_part_of_a_name
    query db u name before found rest :
  let part := Py.strip (Py.replace query "@" "") in
  Py.int part = None ->
  In u (users db) ->
  In (Some name) [u_username u; u_first_name u; u_last_name u] ->
  name = (before ++ found ++ rest)%string ->
  Py.lowercase found = Py.lowercase part ->
  In (list_user db u) (search_users query db).
Proof.
  cbn zeta. intros Hint Hu Hname -> Hsame.
  unfold search_users. rewrite Hint.
  apply in_map.
  apply (Permutation_in _ (Permutation_sym (order_by_perm _ _))).
  apply filter_In. split; [exact Hu |].
  assert (Hlike : Sql.like (Some (before ++ found ++ rest)%string)
                    ("%" ++ Py.strip (Py.replace query "@" "") ++ "%")
                  = true).
  { cbn [Sql.like]. apply like_inside. now symmetry. }
  cbn [In] in Hname.
  destruct Hname as [Heq | [Heq | [Heq | []]]]; rewrite Heq, Hlike;
    rewrite ?orb_true_r; reflexivity.
Qed.

Lemma search_finds_part_of_a_name_witness :
  In (list_user store_with_a_sale referred_42)
    (search_users " @BO " store_with_a_sale).
Proof.
  apply (search_finds_part_of_a_name " @BO " store_with_a_sale referred_42
           "bo" "" "bo" "" eq_refl (or_introl eq_refl) (or_introl eq_refl)
           eq_refl eq_refl).
Defined.

End Search.

(** ** The add-purchase flow on any input *)

Section PurchaseFlow.

(** X23. The add-purchase flow stores what was typed: for an identifier
    that resolves to a user, an amount text that [float] reads as a value
    that is not [<= 0], and any comment text, the three steps append one
    purchase row for that user with that value as SQLite binds it (a NaN
    becomes NULL, every other value is kept) and with the comment
    stripped of blanks at both ends, the single dash standing for no
    comment; the answer shows the value as typed; nothing else of the
    store changes and the conversation ends idle, whatever data an
    abandoned flow had left in it. *)
Theorem purchase_flow_stores_what_was_typed
    cfg now admin username first_name last_name
    identifier amount_text comment_text user amount db ctx :
  let from_admin t :=
    {| from_user_id := admin; from_username := username;
       from_first_name := first_name; from_last_name := last_name;
       text := t |} in
  let comment :=
    if String.eqb (Py.strip comment_text) "-" then EmptyString
    else Py.strip comment_text in
  is_admin cfg admin = true ->
  get_user_by_id_or_username (Py.strip identifier) db = Some user ->
  Py.float (Py.strip amount_text) = Some amount ->
  Py.le0 amount = false ->
  let step1 := purchase_user_input cfg (from_admin identifier) db ctx in
  let step2 :=
    purchase_amount_input cfg (from_admin amount_text) (o_db (snd step1))
      (fst step1) in
  purchase_comment_input cfg now (from_admin comment_text)
    (o_db (snd step2)) (fst step2)
  = returned
      (idle,
       {| o_db :=
            {| users := users db; partners := partners db;
               purchases :=
                 purchases db ++
                 [{| pu_id := purchases_seq db + 1;
                     pu_user_id := ud_user_id user;
                     pu_amount := Sql.bind_real amount;
                     pu_comment := comment;
                     pu_created_at := now |}];
               purchases_seq := purchases_seq db + 1 |};
          o_replies :=
            [purchase_added (ud_user_id user) amount comment
               [[purchase_add]; [purchases_list]; [admin_purchases]]];
          o_log := [] |}).
Proof.
  intros from_admin comment Hadmin Huser Hamount Hpositive step1 step2.
  unfold step2, step1, purchase_user_input, purchase_amount_input,
    purchase_comment_input, from_admin.
  cbn [from_user_id text]. rewrite Hadmin. cbn [negb].
  rewrite Huser. cbn [fst snd o_db]. rewrite Hamount, Hpositive.
  reflexivity.
Qed.

Lemma purchase_flow_stores_what_was_typed_witness :
  purchase_comment_input admin_1 300 (from_admin_1 " club ")
    (o_db (snd (purchase_amount_input admin_1 (from_admin_1 "15.5")
                  (o_db (snd (purchase_user_input admin_1
                                (from_admin_1 "42") one_user idle)))
                  (fst (purchase_user_input admin_1 (from_admin_1 "42")
                          one_user idle)))))
    (fst (purchase_amount_input admin_1 (from_admin_1 "15.5")
            (o_db (snd (purchase_user_input admin_1 (from_admin_1 "42")
                          one_user idle)))
            (fst (purchase_user_input admin_1 (from_admin_1 "42") one_user
                    idle))))
  = returned
      (idle,
       {| o_db :=
            {| users := users one_user; partners := partners one_user;
               purchases :=
                 [{| pu_id := 1; pu_user_id := 42;
                     pu_amount := Some fifteen_and_a_half;
                     pu_comment := "club"; pu_created_at := 300 |}];
               purchases_seq := 1 |};
          o_replies :=
            [purchase_added 42 fifteen_and_a_half "club"
               [[purchase_add]; [purchases_list]; [admin_purchases]]];
          o_log := [] |}).
Proof.
  exact (purchase_flow_stores_what_was_typed admin_1 300 1 (Some "root")
           (Some "Ann") None "42" "15.5" " club "
           {| ud_user_id := 42; ud_username := None;
              ud_first_name := Some "Bo"; ud_last_name := None |}
           fifteen_and_a_half one_user idle eq_refl eq_refl float_15_5
           le0_15_5).
Defined.

End PurchaseFlow.

(** ** Deleting a partner *)

Section Deletion.

Lemma find_filter_other_key (l : list partner_row) (p : partner_row) :
  NoDup (List.map p_partner_code l) ->
  In p l ->
  List.find (fun q => String.eqb (p_partner_code q) (p_partner_code p))
    (List.filter
       (fun q => negb (String.eqb (p_username q) (p_username p))) l)
  = None.
Proof.
  intros Hnodup Hin.
  destruct (List.find _ (List.filter _ l)) as [q |] eqn:Hfind;
    [| reflexivity].
  apply find_some in Hfind. destruct Hfind as [Hq Hcode].
  apply filter_In in Hq. destruct Hq as [Hq Hname].
  apply String.eqb_eq in Hcode. apply negb_true_iff in Hname.
  assert (q = p); [| subst q; now rewrite String.eqb_refl in Hname].
  clear Hname. induction l as [| x rest IH]; [contradiction |].
  cbn [List.map] in Hnodup. apply NoDup_cons_iff in Hnodup.
  destruct Hnodup as [Hx Hrest].
  destruct Hq as [-> | Hq], Hin as [-> | Hin]; try reflexivity.
  - elim Hx. rewrite Hcode. now apply in_map.
  - elim Hx. rewrite <- Hcode. now apply in_map.
  - now apply IH.
Qed.

(** X24. Deleting a partner ends its referral link and keeps its
    referrals: in a store whose partner codes are distinct, once an
    administrator deletes the handle of a partner no row has that
    partner's code any more, so a [/start] with the old link registers
    without attribution; the user rows, and with them the four counts of
    every code, are what they were. *)
Theorem deleted_partner_keeps_its_referrals
    cfg now message db ctx p start_text command rest :
  let db' := o_db (snd (partner_delete_process cfg message db ctx)) in
  is_admin cfg (from_user_id message) = true ->
  NoDup (List.map p_partner_code (partners db)) ->
  In p (partners db) ->
  Py.replace (Py.strip (text message)) "@" "" = p_username p ->
  string_forall is_code_char (p_partner_code p) = true ->
  Py.split start_text = command :: ("ref_" ++ p_partner_code p) :: rest ->
  get_partner_by_code (p_partner_code p) db' = None
  /\ start_ref_code start_text db'
     = (None, [warn_bad_ref_code (p_partner_code p)])
  /\ users db' = users db
  /\ (forall code,
        get_partner_stats now code db' = get_partner_stats now code db).
Proof.
  cbn zeta. intros Hadmin Hnodup Hin Hhandle Hcode Hsplit.
  unfold partner_delete_process. rewrite Hadmin. cbn [negb].
  rewrite Hhandle. unfold remove_partner.
  destruct (find_present
              (fun q => String.eqb (p_username q) (p_username p))
              (partners db) p Hin (String.eqb_refl _)) as (q & Hfind & _).
  unfold get_partner_by_username. rewrite Hfind. cbn [snd o_db].
  assert (Hgone : get_partner_by_code (p_partner_code p)
                    (with_partners db
                       (List.filter
                          (fun q => negb (String.eqb (p_username q)
                                            (p_username p)))
                          (partners db)))
                  = None).
  { unfold get_partner_by_code. cbn [partners with_partners].
    now apply find_filter_other_key. }
  split; [exact Hgone |]. split; [| split; reflexivity].
  unfold start_ref_code. rewrite Hsplit.
  change (Py.startswith ("ref_" ++ p_partner_code p) "ref_") with true.
  cbv iota.
  change (Py.replace ("ref_" ++ p_partner_code p) "ref_" "")
    with (Py.replace (p_partner_code p) "ref_" "").
  rewrite replace_without_head
    by (apply (string_forall_impl is_code_char); [| exact Hcode];
        apply code_char_lacks_r).
  now rewrite Hgone.
Qed.

Lemma deleted_partner_keeps_its_referrals_witness :
  get_partner_by_code "ABCDEFGH"
    (o_db (snd (partner_delete_process admin_1 (from_admin_1 "@bob")
                  store_with_a_sale idle)))
  = None
  /\ total (get_partner_stats 900 "ABCDEFGH"
             (o_db (snd (partner_delete_process admin_1
                           (from_admin_1 "@bob") store_with_a_sale idle))))
     = total (get_partner_stats 900 "ABCDEFGH" store_with_a_sale).
Proof.
  destruct (deleted_partner_keeps_its_referrals admin_1 900
              (from_admin_1 "@bob") store_with_a_sale idle partner_ABCDEFGH
              "/start ref_ABCDEFGH" "/start" []
              eq_refl
              (NoDup_cons _ (fun H : In _ [] => H) (NoDup_nil _))
              (or_introl eq_refl) eq_refl eq_refl eq_refl)
    as (Hgone & _ & _ & Hstats).
  split; [exact Hgone | now rewrite Hstats].
Defined.

End Deletion.

(** ** What a user row keeps for life *)

Section Permanence.

Lemma same_registration_refl u : same_registration u u.
Proof. unfold same_registration. repeat split. Qed.

Lemma same_registration_trans u v w :
  same_registration u v -> same_registration v w -> same_registration u w.
Proof.
  unfold same_registration.
  intros (H1 & H2 & H3 & H4 & H5 & H6 & H7) (K1 & K2 & K3 & K4 & K5 & K6 & K7).
  repeat split; congruence.
Qed.

Lemma same_registration_flag v u : same_registration u (set_subscribed v u).
Proof. destruct u. unfold same_registration. repeat split. Qed.

Lemma find_insert_other (r : user_row) (rows : list user_row) (k : Z) :
  u_user_id r <> k ->
  List.find (fun u => u_user_id u =? k) (insert_user r rows)
  = List.find (fun u => u_user_id u =? k) rows.
Proof.
  intros Hother. apply Z.eqb_neq in Hother.
  induction rows as [| x rest IH]; cbn [insert_user List.find].
  - now rewrite Hother.
  - destruct (u_user_id r <? u_user_id x); cbn [List.find].
    + now rewrite Hother.
    + now rewrite IH.
Qed.

Lemma add_user_keeps_row now user_id username first_name last_name ref db
    k u :
  user_by_id k db = Some u ->
  user_by_id k (add_user now user_id username first_name last_name ref db)
  = Some u.
Proof.
  intros Hu. unfold add_user.
  destruct (user_by_id user_id db) eqn:Hnew; [exact Hu |].
  unfold user_by_id in *. cbn [users with_users].
  rewrite find_insert_other; [exact Hu |].
  cbn [u_user_id]. intros ->. congruence.
Qed.

Lemma update_subscription_keeps_row user_id verdict db k u :
  user_by_id k db = Some u ->
  exists u',
    user_by_id k (update_subscription user_id verdict db) = Some u'
    /\ same_registration u u'.
Proof.
  intros Hu. rewrite user_by_id_update_subscription, Hu.
  cbn [option_map]. eexists. split; [reflexivity |].
  destruct (u_user_id u =? user_id);
    [apply same_registration_flag | apply same_registration_refl].
Qed.

Lemma cmd_start_keeps_row oracle now message db k u :
  user_by_id k db = Some u ->
  exists u',
    user_by_id k (o_db (cmd_start oracle now message db)) = Some u'
    /\ same_registration u u'.
Proof.
  intros Hu. rewrite cmd_start_db.
  apply update_subscription_keeps_row.
  unfold user_by_id. rewrite start_link_partner_users.
  unfold start_registration.
  destruct (start_ref_code (text message) db) as [ref_code log].
  cbn [fst]. now apply add_user_keeps_row.
Qed.

Lemma step_keeps_row cfg e s k u :
  system_ok cfg s ->
  user_by_id k (store s) = Some u ->
  exists u',
    user_by_id k (store (step cfg e s)) = Some u' /\ same_registration u u'.
Proof.
  intros [Hstore Hconv] Hu.
  assert (Hsame : exists u',
             user_by_id k (store s) = Some u' /\ same_registration u u')
    by (exists u; split; [exact Hu | apply same_registration_refl]).
  destruct e as [oracle now message
                | now partner_code message
                | sender
                | oracle now user_id payload];
    cbn [step].
  - cbn [store]. now apply cmd_start_keeps_row.
  - destruct (state (conversations s (from_user_id message)))
      as [awaited |] eqn:Hstate; [| exact Hsame].
    destruct (text_handler awaited cfg now partner_code message (store s)
                (conversations s (from_user_id message)))
      as [[ctx' o] | key | |] eqn:Hrun; try exact Hsame.
    destruct (text_handler_keeps _ _ _ _ _ _ _ _ _ Hstore
                (Hconv (from_user_id message)) Hstate Hrun)
      as (_ & Husers & _).
    cbn [store]. unfold user_by_id in *. now rewrite Husers.
  - destruct (state (conversations s sender)) as [awaited |];
      [| exact Hsame].
    destruct (textless_handler awaited cfg sender (store s)
                (conversations s sender))
      as [[ctx' o] | key | |] eqn:Hrun; try exact Hsame.
    destruct (textless_handler_effect _ _ _ _ _ _ _ Hrun) as [Hdb _].
    cbn [store]. now rewrite Hdb.
  - destruct (callback_query cfg oracle now user_id payload (store s)
                (conversations s user_id))
      as [[[db' ctx'] pn] |] eqn:Hrun; [| exact Hsame].
    destruct (callback_query_effect _ _ _ _ _ _ _ _ _ _ Hrun)
      as [[-> | [verdict ->]] _]; cbn [store]; [exact Hsame |].
    now apply update_subscription_keeps_row.
Qed.

Lemma run_keeps_row cfg events s k u :
  system_ok cfg s ->
  user_by_id k (store s) = Some u ->
  exists u',
    user_by_id k (store (run cfg events s)) = Some u'
    /\ same_registration u u'.
Proof.
  revert s u. induction events as [| e rest IH]; intros s u Hok Hu.
  - exists u. split; [exact Hu | apply same_registration_refl].
  - cbn [run fold_left].
    destruct (step_keeps_row cfg e s k u Hok Hu) as (v & Hv & Huv).
    destruct (IH (step cfg e s) v (step_keeps_ok cfg e s Hok) Hv)
      as (w & Hw & Hvw).
    exists w. split; [exact Hw |].
    now apply same_registration_trans with v.
Qed.

(** X25. A user row is for life.  Once an account has a row in a store
    the bot reached, every later store still has a row for it, and that
    row has the same handle, names, partner code, registration date and
    referring partner as on the first day, whatever updates arrived in
    between: the bot never deletes a user, and never refreshes a handle
    or a name that changed; only the subscription flag moves. *)
Theorem user_row_is_for_life cfg before after user_id u :
  user_by_id user_id (store (run cfg before boot)) = Some u ->
  exists u',
    user_by_id user_id (store (run cfg (before ++ after) boot)) = Some u'
    /\ same_registration u u'.
Proof.
  intros Hu. unfold run. rewrite fold_left_app.
  apply (run_keeps_row cfg after (run cfg before boot) user_id u);
    [apply reached_is_ok | exact Hu].
Qed.

Lemma user_row_is_for_life_witness :
  exists u',
    user_by_id 42
      (store (run admin_1 (first_start_of_42 ++ later_life_of_42) boot))
    = Some u'
    /\ same_registration
         {| u_user_id := 42; u_username := Some "bo";
            u_first_name := Some "Bo"; u_last_name := None;
            u_is_subscribed := 0; u_partner_code := None;
            u_registered_at := 100; u_ref_partner_code := None |}
         u'.
Proof.
  exact (user_row_is_for_life admin_1 first_start_of_42 later_life_of_42 42
           _ eq_refl).
Defined.

End Permanence.
